(** * mbed OS boot sequence and newlib retargeting (rtos/mbed_boot.c)

    A shallow embedding of [mbed_boot.c]: the memory layout resolver
    [mbed_set_stack_heap], the vector table relocator [mbed_cpy_nvic], the
    kernel bootstrap [mbed_start_main], the four toolchain entry routines,
    the newlib lock retargeting and the per-thread reentrancy accessor
    [__user_perthread_libspace].

    C objects are modelled as the file has them: [uint32_t] values and
    addresses are integers reduced modulo 2^32, the global variables of the
    file are the fields of [world], and every call that leaves the file
    (kernel, C library, target hooks) is recorded as an [event]. *)

From Stdlib Require Import ZArith Lia List Sorted.
From stdpp Require Import base numbers option list gmap strings.

Local Open Scope Z_scope.

(** ** Machine integers *)

(** [uint32_t] arithmetic wraps around; pointers of the 32-bit targets too. *)
Definition wrap32 (x : Z) : Z := x mod 2 ^ 32.

Definition NULL : Z := 0.

(** ** Types of cmsis_os2.h used by the file *)

(** [osThreadAttr_t], with the members [mbed_start_main] assigns. *)
Record osThreadAttr_t := {
  t_name : option string;
  t_cb_mem : Z;
  t_cb_size : Z;
  t_stack_mem : Z;
  t_stack_size : Z;
  t_priority : Z
}.

(** [osMutexAttr_t]. *)
Record osMutexAttr_t := {
  m_name : option string;
  m_attr_bits : Z;
  m_cb_mem : Z;
  m_cb_size : Z
}.

(** [struct __lock]: the kernel mutex id and the attributes; the member
    [obj] is the storage handed to the kernel through [m_cb_mem]. *)
Record __lock := {
  lock_id : Z;
  lock_attr : osMutexAttr_t
}.

Definition zero_thread_attr : osThreadAttr_t :=
  {| t_name := None; t_cb_mem := 0; t_cb_size := 0;
     t_stack_mem := 0; t_stack_size := 0; t_priority := 0 |}.

Definition zero_mutex_attr : osMutexAttr_t :=
  {| m_name := None; m_attr_bits := 0; m_cb_mem := 0; m_cb_size := 0 |}.

Definition zero_lock : __lock := {| lock_id := 0; lock_attr := zero_mutex_attr |}.

#[global] Instance lock_inhabited : Inhabited __lock := populate zero_lock.

(** ** Events: the calls that leave mbed_boot.c, and the boot steps *)

Inductive event :=
| Call (f : string)
| ThreadNew (func arg : Z) (attr : osThreadAttr_t)
| MutexNew (attr : osMutexAttr_t)
| MutexDelete (mutex_id : Z)
| Malloc (size : Z)
| Free (p : Z)
| Error (msg : string)
| ErrorNotify (code object_id : Z)
| RtLibInit (heapbase heaptop : Z).

#[global] Instance osThreadAttr_t_eq_dec : EqDecision osThreadAttr_t.
Proof. solve_decision. Defined.

#[global] Instance osMutexAttr_t_eq_dec : EqDecision osMutexAttr_t.
Proof. solve_decision. Defined.

#[global] Instance event_eq_dec : EqDecision event.
Proof. solve_decision. Defined.

(** ** Compile-time configuration *)

(** The memory layout macros once the preprocessor is done with lines
    196-247: [ISR_STACK_START] may be left undefined. *)
Record layout := {
  HEAP_START : Z;
  HEAP_SIZE : Z;
  ISR_STACK_START : option Z;
  ISR_STACK_SIZE : Z
}.

Inductive toolchain := ICCARM | CC_ARM | GNUC.

(** What the build defines on the command line, and the linker symbols
    and sections the macros refer to. *)
Record defines := {
  D_HEAP_START : option Z;
  D_HEAP_SIZE : option Z;
  D_ISR_STACK_START : option Z;
  D_ISR_STACK_SIZE : option Z;
  D_INITIAL_SP : option Z
}.

Record link_map := {
  free_base : Z;           (* __end__ (GCC), Image$$RW_IRAM1$$ZI$$Limit (ARM) *)
  sec_HEAP_begin : Z;      (* __section_begin("HEAP") (IAR) *)
  sec_HEAP_size : Z;
  sec_CSTACK_begin : Z;
  sec_CSTACK_size : Z
}.

Definition defined {A} (o : option A) : bool := bool_decide (is_Some o).

(** Lines 196-247: the sanity checks ([None] stands for [#error]) and the
    default definitions. *)
Definition resolve_layout (tc : toolchain) (d : defines) (s : link_map) : option layout :=
  let iar := match tc with ICCARM => true | _ => false end in
  if iar && (defined (D_HEAP_START d) || defined (D_HEAP_SIZE d) ||
             defined (D_ISR_STACK_START d) && defined (D_ISR_STACK_SIZE d)) then None
  else if defined (D_HEAP_START d) && negb (defined (D_HEAP_SIZE d)) then None
  else if defined (D_ISR_STACK_START d) && negb (defined (D_ISR_STACK_SIZE d)) then None
  else if defined (D_HEAP_SIZE d) && negb (defined (D_HEAP_START d)) then None
  else if negb iar && negb (defined (D_INITIAL_SP d)) && negb (defined (D_HEAP_START d)) then None
  else if iar then
    match D_ISR_STACK_SIZE d with
    | Some _ => None (* ISR_STACK_SIZE would be defined twice *)
    | None =>
        Some {| HEAP_START := sec_HEAP_begin s;
                HEAP_SIZE := wrap32 (sec_HEAP_size s);
                ISR_STACK_START := Some (sec_CSTACK_begin s);
                ISR_STACK_SIZE := wrap32 (sec_CSTACK_size s) |}
    end
  else
    let isr_size := default 1024 (D_ISR_STACK_SIZE d) in
    match D_HEAP_START d, D_HEAP_SIZE d with
    | Some hs, Some hz =>
        Some {| HEAP_START := hs; HEAP_SIZE := hz;
                ISR_STACK_START := D_ISR_STACK_START d; ISR_STACK_SIZE := isr_size |}
    | _, _ =>
        let initial_sp := default 0 (D_INITIAL_SP d) in
        Some {| HEAP_START := free_base s;
                HEAP_SIZE := wrap32 (wrap32 initial_sp - wrap32 (free_base s));
                ISR_STACK_START := D_ISR_STACK_START d; ISR_STACK_SIZE := isr_size |}
    end.

(** Static objects of the file whose addresses the code takes. *)
Inductive symbol :=
| sym__main_stack
| sym__main_obj
| sym_pre_main
| sym_singleton_mutex_obj
| sym___lock___sinit_recursive_mutex
| sym___lock___sfp_recursive_mutex
| sym___lock___at_quick_exit_mutex
| sym___lock___malloc_recursive_mutex
| sym___lock___env_recursive_mutex
| sym___lock___tz_mutex
| sym___lock___arc4random_mutex
| sym_std_mutex_id_sys
| sym_std_mutex_sys
| sym_std_mutex_id_file
| sym_std_mutex_file.

(** Everything the translation unit takes from its headers, its build and
    its link: constants of cmsis_os2.h and rtx_os.h, sizes of the storage
    types, configuration macros, feature switches and addresses. *)
Class Config := {
  macros : layout;
  (* cmsis_os2.h, rtx_os.h *)
  osMutexRecursive : Z;
  osMutexPrioInherit : Z;
  osMutexRobust : Z;
  osPriorityNormal : Z;
  osRtxErrorClibSpace : Z;
  (* configuration *)
  MBED_CONF_APP_MAIN_STACK_SIZE : Z;
  OS_THREAD_LIBSPACE_NUM : nat;
  _MAX_LOCK : nat;
  FEATURE_UVISOR : bool;
  TARGET_UVISOR_SUPPORTED : bool;
  CORTEX_M0_or_A9 : bool;
  NVIC_RAM_VECTOR_ADDRESS : option Z;
  NVIC_NUM_VECTORS : nat;
  (* sizeof *)
  sizeof_thread_storage : Z;   (* sizeof(mbed_rtos_storage_thread_t) *)
  sizeof_mutex_storage : Z;    (* sizeof(mbed_rtos_storage_mutex_t) *)
  sizeof_mutex_id : Z;         (* sizeof(osMutexId_t) *)
  sizeof___lock : Z;           (* sizeof(struct __lock) *)
  offsetof_obj : Z;            (* offsetof(struct __lock, obj) *)
  (* link *)
  addr : symbol -> Z;
  (* newlib: struct _reent and its initialiser *)
  _reent : Type;
  _reent_bss : _reent;           (* the zero-filled struct of .bss.os *)
  _REENT_INIT : nat -> _reent    (* _REENT_INIT(os_libspace[n]) *)
}.

(** [#define _FOPEN_MAX 10] (line 804). *)
Definition _FOPEN_MAX : nat := 10.

(** What [__user_perthread_libspace] returns: [_global_impure_ptr] or
    [&os_libspace[n]]. *)
Inductive reent_ptr :=
| _global_impure_ptr
| os_libspace_at (n : nat).

(** How a C function ends: it returns a value, or control went to a
    callee that never comes back. *)
Inductive result (A : Type) :=
| Done (a : A)
| NoReturn.
Arguments Done {A} a.
Arguments NoReturn {A}.

Section Program.
Context `{cfg : Config}.

(** ** The state: global variables, memory, and the environment *)

Record world := World {
  (* lines 171-191 *)
  mbed_heap_start : Z;
  mbed_heap_size : Z;
  mbed_stack_isr_start : Z;
  mbed_stack_isr_size : Z;
  _main_thread_attr : osThreadAttr_t;
  singleton_mutex_id : Z;
  singleton_mutex_attr : osMutexAttr_t;
  (* GCC, lines 426-447 *)
  locks : gmap Z __lock;           (* the [struct __lock] objects, by address *)
  main_running : Z;
  os_libspace : list _reent;
  os_libspace_id : list Z;
  (* IAR, lines 755 and 802-806 *)
  low_level_init_needed : Z;
  std_mutex_id_sys : list Z;
  std_mutex_id_file : list Z;
  (* the vector table base register and the words of memory *)
  SCB_VTOR : Z;
  mem : gmap Z Z;
  (* the calls made so far, and what the callees will answer *)
  trace : list event;
  rets : gmap string (list Z)
}.

(** Assignment to one global variable; the others keep their values. *)
Definition set_mbed_heap_start (v : Z) (w : world) : world :=
  {| mbed_heap_start := v; mbed_heap_size := mbed_heap_size w;
     mbed_stack_isr_start := mbed_stack_isr_start w;
     mbed_stack_isr_size := mbed_stack_isr_size w; _main_thread_attr := _main_thread_attr w;
     singleton_mutex_id := singleton_mutex_id w;
     singleton_mutex_attr := singleton_mutex_attr w; locks := locks w;
     main_running := main_running w; os_libspace := os_libspace w;
     os_libspace_id := os_libspace_id w; low_level_init_needed := low_level_init_needed w;
     std_mutex_id_sys := std_mutex_id_sys w; std_mutex_id_file := std_mutex_id_file w;
     SCB_VTOR := SCB_VTOR w; mem := mem w; trace := trace w; rets := rets w |}.

Definition set_mbed_heap_size (v : Z) (w : world) : world :=
  {| mbed_heap_start := mbed_heap_start w; mbed_heap_size := v;
     mbed_stack_isr_start := mbed_stack_isr_start w;
     mbed_stack_isr_size := mbed_stack_isr_size w; _main_thread_attr := _main_thread_attr w;
     singleton_mutex_id := singleton_mutex_id w;
     singleton_mutex_attr := singleton_mutex_attr w; locks := locks w;
     main_running := main_running w; os_libspace := os_libspace w;
     os_libspace_id := os_libspace_id w; low_level_init_needed := low_level_init_needed w;
     std_mutex_id_sys := std_mutex_id_sys w; std_mutex_id_file := std_mutex_id_file w;
     SCB_VTOR := SCB_VTOR w; mem := mem w; trace := trace w; rets := rets w |}.

Definition set_mbed_stack_isr_start (v : Z) (w : world) : world :=
  {| mbed_heap_start := mbed_heap_start w; mbed_heap_size := mbed_heap_size w;
     mbed_stack_isr_start := v; mbed_stack_isr_size := mbed_stack_isr_size w;
     _main_thread_attr := _main_thread_attr w; singleton_mutex_id := singleton_mutex_id w;
     singleton_mutex_attr := singleton_mutex_attr w; locks := locks w;
     main_running := main_running w; os_libspace := os_libspace w;
     os_libspace_id := os_libspace_id w; low_level_init_needed := low_level_init_needed w;
     std_mutex_id_sys := std_mutex_id_sys w; std_mutex_id_file := std_mutex_id_file w;
     SCB_VTOR := SCB_VTOR w; mem := mem w; trace := trace w; rets := rets w |}.

Definition set_mbed_stack_isr_size (v : Z) (w : world) : world :=
  {| mbed_heap_start := mbed_heap_start w; mbed_heap_size := mbed_heap_size w;
     mbed_stack_isr_start := mbed_stack_isr_start w; mbed_stack_isr_size := v;
     _main_thread_attr := _main_thread_attr w; singleton_mutex_id := singleton_mutex_id w;
     singleton_mutex_attr := singleton_mutex_attr w; locks := locks w;
     main_running := main_running w; os_libspace := os_libspace w;
     os_libspace_id := os_libspace_id w; low_level_init_needed := low_level_init_needed w;
     std_mutex_id_sys := std_mutex_id_sys w; std_mutex_id_file := std_mutex_id_file w;
     SCB_VTOR := SCB_VTOR w; mem := mem w; trace := trace w; rets := rets w |}.

Definition set_main_thread_attr (v : osThreadAttr_t) (w : world) : world :=
  {| mbed_heap_start := mbed_heap_start w; mbed_heap_size := mbed_heap_size w;
     mbed_stack_isr_start := mbed_stack_isr_start w;
     mbed_stack_isr_size := mbed_stack_isr_size w; _main_thread_attr := v;
     singleton_mutex_id := singleton_mutex_id w;
     singleton_mutex_attr := singleton_mutex_attr w; locks := locks w;
     main_running := main_running w; os_libspace := os_libspace w;
     os_libspace_id := os_libspace_id w; low_level_init_needed := low_level_init_needed w;
     std_mutex_id_sys := std_mutex_id_sys w; std_mutex_id_file := std_mutex_id_file w;
     SCB_VTOR := SCB_VTOR w; mem := mem w; trace := trace w; rets := rets w |}.

Definition set_singleton_mutex_id (v : Z) (w : world) : world :=
  {| mbed_heap_start := mbed_heap_start w; mbed_heap_size := mbed_heap_size w;
     mbed_stack_isr_start := mbed_stack_isr_start w;
     mbed_stack_isr_size := mbed_stack_isr_size w; _main_thread_attr := _main_thread_attr w;
     singleton_mutex_id := v; singleton_mutex_attr := singleton_mutex_attr w; locks := locks w;
     main_running := main_running w; os_libspace := os_libspace w;
     os_libspace_id := os_libspace_id w; low_level_init_needed := low_level_init_needed w;
     std_mutex_id_sys := std_mutex_id_sys w; std_mutex_id_file := std_mutex_id_file w;
     SCB_VTOR := SCB_VTOR w; mem := mem w; trace := trace w; rets := rets w |}.

Definition set_singleton_mutex_attr (v : osMutexAttr_t) (w : world) : world :=
  {| mbed_heap_start := mbed_heap_start w; mbed_heap_size := mbed_heap_size w;
     mbed_stack_isr_start := mbed_stack_isr_start w;
     mbed_stack_isr_size := mbed_stack_isr_size w; _main_thread_attr := _main_thread_attr w;
     singleton_mutex_id := singleton_mutex_id w; singleton_mutex_attr := v; locks := locks w;
     main_running := main_running w; os_libspace := os_libspace w;
     os_libspace_id := os_libspace_id w; low_level_init_needed := low_level_init_needed w;
     std_mutex_id_sys := std_mutex_id_sys w; std_mutex_id_file := std_mutex_id_file w;
     SCB_VTOR := SCB_VTOR w; mem := mem w; trace := trace w; rets := rets w |}.

Definition set_locks (v : gmap Z __lock) (w : world) : world :=
  {| mbed_heap_start := mbed_heap_start w; mbed_heap_size := mbed_heap_size w;
     mbed_stack_isr_start := mbed_stack_isr_start w;
     mbed_stack_isr_size := mbed_stack_isr_size w; _main_thread_attr := _main_thread_attr w;
     singleton_mutex_id := singleton_mutex_id w;
     singleton_mutex_attr := singleton_mutex_attr w; locks := v;
     main_running := main_running w; os_libspace := os_libspace w;
     os_libspace_id := os_libspace_id w; low_level_init_needed := low_level_init_needed w;
     std_mutex_id_sys := std_mutex_id_sys w; std_mutex_id_file := std_mutex_id_file w;
     SCB_VTOR := SCB_VTOR w; mem := mem w; trace := trace w; rets := rets w |}.

Definition set_main_running (v : Z) (w : world) : world :=
  {| mbed_heap_start := mbed_heap_start w; mbed_heap_size := mbed_heap_size w;
     mbed_stack_isr_start := mbed_stack_isr_start w;
     mbed_stack_isr_size := mbed_stack_isr_size w; _main_thread_attr := _main_thread_attr w;
     singleton_mutex_id := singleton_mutex_id w;
     singleton_mutex_attr := singleton_mutex_attr w; locks := locks w; main_running := v;
     os_libspace := os_libspace w; os_libspace_id := os_libspace_id w;
     low_level_init_needed := low_level_init_needed w; std_mutex_id_sys := std_mutex_id_sys w;
     std_mutex_id_file := std_mutex_id_file w; SCB_VTOR := SCB_VTOR w; mem := mem w;
     trace := trace w; rets := rets w |}.

Definition set_os_libspace (v : list _reent) (w : world) : world :=
  {| mbed_heap_start := mbed_heap_start w; mbed_heap_size := mbed_heap_size w;
     mbed_stack_isr_start := mbed_stack_isr_start w;
     mbed_stack_isr_size := mbed_stack_isr_size w; _main_thread_attr := _main_thread_attr w;
     singleton_mutex_id := singleton_mutex_id w;
     singleton_mutex_attr := singleton_mutex_attr w; locks := locks w;
     main_running := main_running w; os_libspace := v; os_libspace_id := os_libspace_id w;
     low_level_init_needed := low_level_init_needed w; std_mutex_id_sys := std_mutex_id_sys w;
     std_mutex_id_file := std_mutex_id_file w; SCB_VTOR := SCB_VTOR w; mem := mem w;
     trace := trace w; rets := rets w |}.

Definition set_os_libspace_id (v : list Z) (w : world) : world :=
  {| mbed_heap_start := mbed_heap_start w; mbed_heap_size := mbed_heap_size w;
     mbed_stack_isr_start := mbed_stack_isr_start w;
     mbed_stack_isr_size := mbed_stack_isr_size w; _main_thread_attr := _main_thread_attr w;
     singleton_mutex_id := singleton_mutex_id w;
     singleton_mutex_attr := singleton_mutex_attr w; locks := locks w;
     main_running := main_running w; os_libspace := os_libspace w; os_libspace_id := v;
     low_level_init_needed := low_level_init_needed w; std_mutex_id_sys := std_mutex_id_sys w;
     std_mutex_id_file := std_mutex_id_file w; SCB_VTOR := SCB_VTOR w; mem := mem w;
     trace := trace w; rets := rets w |}.

Definition set_low_level_init_needed (v : Z) (w : world) : world :=
  {| mbed_heap_start := mbed_heap_start w; mbed_heap_size := mbed_heap_size w;
     mbed_stack_isr_start := mbed_stack_isr_start w;
     mbed_stack_isr_size := mbed_stack_isr_size w; _main_thread_attr := _main_thread_attr w;
     singleton_mutex_id := singleton_mutex_id w;
     singleton_mutex_attr := singleton_mutex_attr w; locks := locks w;
     main_running := main_running w; os_libspace := os_libspace w;
     os_libspace_id := os_libspace_id w; low_level_init_needed := v;
     std_mutex_id_sys := std_mutex_id_sys w; std_mutex_id_file := std_mutex_id_file w;
     SCB_VTOR := SCB_VTOR w; mem := mem w; trace := trace w; rets := rets w |}.

Definition set_std_mutex_id_sys (v : list Z) (w : world) : world :=
  {| mbed_heap_start := mbed_heap_start w; mbed_heap_size := mbed_heap_size w;
     mbed_stack_isr_start := mbed_stack_isr_start w;
     mbed_stack_isr_size := mbed_stack_isr_size w; _main_thread_attr := _main_thread_attr w;
     singleton_mutex_id := singleton_mutex_id w;
     singleton_mutex_attr := singleton_mutex_attr w; locks := locks w;
     main_running := main_running w; os_libspace := os_libspace w;
     os_libspace_id := os_libspace_id w; low_level_init_needed := low_level_init_needed w;
     std_mutex_id_sys := v; std_mutex_id_file := std_mutex_id_file w; SCB_VTOR := SCB_VTOR w;
     mem := mem w; trace := trace w; rets := rets w |}.

Definition set_std_mutex_id_file (v : list Z) (w : world) : world :=
  {| mbed_heap_start := mbed_heap_start w; mbed_heap_size := mbed_heap_size w;
     mbed_stack_isr_start := mbed_stack_isr_start w;
     mbed_stack_isr_size := mbed_stack_isr_size w; _main_thread_attr := _main_thread_attr w;
     singleton_mutex_id := singleton_mutex_id w;
     singleton_mutex_attr := singleton_mutex_attr w; locks := locks w;
     main_running := main_running w; os_libspace := os_libspace w;
     os_libspace_id := os_libspace_id w; low_level_init_needed := low_level_init_needed w;
     std_mutex_id_sys := std_mutex_id_sys w; std_mutex_id_file := v; SCB_VTOR := SCB_VTOR w;
     mem := mem w; trace := trace w; rets := rets w |}.

Definition set_SCB_VTOR (v : Z) (w : world) : world :=
  {| mbed_heap_start := mbed_heap_start w; mbed_heap_size := mbed_heap_size w;
     mbed_stack_isr_start := mbed_stack_isr_start w;
     mbed_stack_isr_size := mbed_stack_isr_size w; _main_thread_attr := _main_thread_attr w;
     singleton_mutex_id := singleton_mutex_id w;
     singleton_mutex_attr := singleton_mutex_attr w; locks := locks w;
     main_running := main_running w; os_libspace := os_libspace w;
     os_libspace_id := os_libspace_id w; low_level_init_needed := low_level_init_needed w;
     std_mutex_id_sys := std_mutex_id_sys w; std_mutex_id_file := std_mutex_id_file w;
     SCB_VTOR := v; mem := mem w; trace := trace w; rets := rets w |}.

Definition set_mem (v : gmap Z Z) (w : world) : world :=
  {| mbed_heap_start := mbed_heap_start w; mbed_heap_size := mbed_heap_size w;
     mbed_stack_isr_start := mbed_stack_isr_start w;
     mbed_stack_isr_size := mbed_stack_isr_size w; _main_thread_attr := _main_thread_attr w;
     singleton_mutex_id := singleton_mutex_id w;
     singleton_mutex_attr := singleton_mutex_attr w; locks := locks w;
     main_running := main_running w; os_libspace := os_libspace w;
     os_libspace_id := os_libspace_id w; low_level_init_needed := low_level_init_needed w;
     std_mutex_id_sys := std_mutex_id_sys w; std_mutex_id_file := std_mutex_id_file w;
     SCB_VTOR := SCB_VTOR w; mem := v; trace := trace w; rets := rets w |}.

Definition set_trace (v : list event) (w : world) : world :=
  {| mbed_heap_start := mbed_heap_start w; mbed_heap_size := mbed_heap_size w;
     mbed_stack_isr_start := mbed_stack_isr_start w;
     mbed_stack_isr_size := mbed_stack_isr_size w; _main_thread_attr := _main_thread_attr w;
     singleton_mutex_id := singleton_mutex_id w;
     singleton_mutex_attr := singleton_mutex_attr w; locks := locks w;
     main_running := main_running w; os_libspace := os_libspace w;
     os_libspace_id := os_libspace_id w; low_level_init_needed := low_level_init_needed w;
     std_mutex_id_sys := std_mutex_id_sys w; std_mutex_id_file := std_mutex_id_file w;
     SCB_VTOR := SCB_VTOR w; mem := mem w; trace := v; rets := rets w |}.

Definition set_rets (v : gmap string (list Z)) (w : world) : world :=
  {| mbed_heap_start := mbed_heap_start w; mbed_heap_size := mbed_heap_size w;
     mbed_stack_isr_start := mbed_stack_isr_start w;
     mbed_stack_isr_size := mbed_stack_isr_size w; _main_thread_attr := _main_thread_attr w;
     singleton_mutex_id := singleton_mutex_id w;
     singleton_mutex_attr := singleton_mutex_attr w; locks := locks w;
     main_running := main_running w; os_libspace := os_libspace w;
     os_libspace_id := os_libspace_id w; low_level_init_needed := low_level_init_needed w;
     std_mutex_id_sys := std_mutex_id_sys w; std_mutex_id_file := std_mutex_id_file w;
     SCB_VTOR := SCB_VTOR w; mem := mem w; trace := trace w; rets := v |}.

(** A C function is a computation that reads and writes the [world] and
    either returns a value ([Done]) or hands control to a callee that never
    comes back ([NoReturn]). *)

Definition M (A : Type) : Type := world -> result A * world.

#[global] Instance M_ret : MRet M := fun A a w => (Done a, w).

#[global] Instance M_bind : MBind M := fun A B f m w =>
  match m w with
  | (Done a, w') => f a w'
  | (NoReturn, w') => (NoReturn, w')
  end.

Definition read {A} (f : world -> A) : M A := fun w => (Done (f w), w).

Definition store (f : world -> world) : M unit := fun w => (Done tt, f w).

Definition halt {A} : M A := fun w => (NoReturn, w).

Definition emit (e : event) : M unit :=
  store (fun w => set_trace (trace w ++ [e]) w).

(** A call to [f] whose result the code does not use, when [f] is outside
    the file; the boot steps of the file itself ([mbed_set_stack_heap],
    [mbed_cpy_nvic], [mbed_start_main]) record their entry the same way, so
    that the trace shows the order in which they ran. *)
Definition call (f : string) : M unit := emit (Call f).

(** A call outside the file whose result the code uses: the callee's
    answer is the next one scripted for it in [rets] (0 when none is). *)
Definition extern (f : string) (e : event) : M Z :=
  emit e;;
  answers ← read (fun w => default [] (rets w !! f));
  store (fun w => set_rets (<[f := tail answers]> (rets w)) w);;
  mret (hd 0 answers).

Definition next_ret (f : string) (w : world) : Z :=
  hd 0 (default [] (rets w !! f)).

(** Modelled from the spec: the fatal-error reporter [error] of
    mbed_error.h, which is not part of this file: it "takes a message,
    never returns (halts or resets)". *)
Definition error {A} (msg : string) : M A := emit (Error msg);; halt.

(** Modelled from the spec: [mbed_die] of the platform layer, the other
    entry of the fatal-error collaborator; it does not return either. *)
Definition mbed_die {A} : M A := call "mbed_die";; halt.

Definition run {A} (m : M A) (w : world) : world := snd (m w).

Definition outcome {A} (m : M A) (w : world) : result A := fst (m w).

(** The events a computation adds to the trace. *)
Definition events {A} (m : M A) (w : world) : list event :=
  drop (length (trace w)) (trace (run m w)).

End Program.

(** ** Code common to all toolchains (lines 249-325) *)

Section Common.
Context `{cfg : Config}.

(** The end of line of the C string literals. *)
Definition CR : string := String (Ascii.ascii_of_nat 13) EmptyString.
Definition LF : string := String (Ascii.ascii_of_nat 10) EmptyString.

(** [mbed_set_stack_heap] (lines 256-275). [free_size] is a [uint32_t];
    the comparison and the subtraction are unsigned. *)
Definition mbed_set_stack_heap : M unit :=
  call "mbed_set_stack_heap";;
  let free_start := HEAP_START macros in
  let free_size := wrap32 (HEAP_SIZE macros) in
  free_size ←
    match ISR_STACK_START macros with
    | Some isr_stack_start =>
        (* Interrupt stack explicitly specified *)
        store (set_mbed_stack_isr_size (wrap32 (ISR_STACK_SIZE macros)));;
        store (set_mbed_stack_isr_start isr_stack_start);;
        mret free_size
    | None =>
        (* Interrupt stack - reserve space at the end of the free block *)
        store (set_mbed_stack_isr_size
                 (if wrap32 (ISR_STACK_SIZE macros) <? free_size
                  then wrap32 (ISR_STACK_SIZE macros) else free_size));;
        isr_size ← read mbed_stack_isr_size;
        store (set_mbed_stack_isr_start (wrap32 (free_start + free_size - isr_size)));;
        isr_size ← read mbed_stack_isr_size;
        mret (wrap32 (free_size - isr_size))
    end;
  (* Heap - everything else *)
  store (set_mbed_heap_size free_size);;
  store (set_mbed_heap_start free_start).

(** The loop of [mbed_cpy_nvic]: [vectors[i] = old_vectors[i]] for the
    [count] entries from [i] on; a word never written reads as 0. *)
Fixpoint copy_vectors (old_vectors vectors : Z) (i : Z) (count : nat) : M unit :=
  match count with
  | O => mret tt
  | S count' =>
      store (fun w =>
        set_mem (<[wrap32 (vectors + 4 * i) :=
                    default 0 (mem w !! wrap32 (old_vectors + 4 * i))]> (mem w)) w);;
      copy_vectors old_vectors vectors (i + 1) count'
  end.

(** [mbed_cpy_nvic] (lines 277-293). *)
Definition mbed_cpy_nvic : M unit :=
  call "mbed_cpy_nvic";;
  if CORTEX_M0_or_A9 then mret tt
  else match NVIC_RAM_VECTOR_ADDRESS with
       | None => mret tt
       | Some ram_vectors =>
           old_vectors ← read SCB_VTOR;
           copy_vectors old_vectors (wrap32 ram_vectors) 0 NVIC_NUM_VECTORS;;
           store (set_SCB_VTOR (wrap32 ram_vectors))
       end.

(** The vector table is copied "only if uVisor is not in use":
    [#if !(defined(FEATURE_UVISOR) && defined(TARGET_UVISOR_SUPPORTED))]. *)
Definition uvisor_owns_vectors : bool := FEATURE_UVISOR && TARGET_UVISOR_SUPPORTED.

Definition cpy_nvic_unless_uvisor : M unit :=
  if uvisor_owns_vectors then mret tt else mbed_cpy_nvic.

(** [mbed_main] and [mbed_sdk_init] are weak and empty here; the user and
    the target replace them, so a call to them leaves the file. *)
Definition mbed_main : M unit := call "mbed_main".
Definition mbed_sdk_init : M unit := call "mbed_sdk_init".

Definition osKernelInitialize : M unit := call "osKernelInitialize".

(** Under normal operation the scheduler takes over inside [osKernelStart];
    the call is recorded, and the caller goes on as it does when the kernel
    hands control back. *)
Definition osKernelStart : M unit := call "osKernelStart".

Definition osThreadNew (func arg : Z) (attr : osThreadAttr_t) : M Z :=
  extern "osThreadNew" (ThreadNew func arg attr).

Definition osMutexNew (attr : osMutexAttr_t) : M Z :=
  extern "osMutexNew" (MutexNew attr).

Definition osMutexDelete (mutex_id : Z) : M unit := emit (MutexDelete mutex_id).

Definition malloc (size : Z) : M Z := extern "malloc" (Malloc size).

Definition free (p : Z) : M unit := emit (Free p).

(** Modelled from the spec: [osRtxErrorNotify] is the kernel's error-notify
    collaborator, outside this file; the accessor reports to it and then
    "falls back to returning the shared static state", so the call comes
    back; its result is not used. *)
Definition osRtxErrorNotify (code object_id : Z) : M unit :=
  emit (ErrorNotify code object_id).

(** [mbed_start_main] (lines 311-325). *)
Definition mbed_start_main : M unit :=
  call "mbed_start_main";;
  store (set_main_thread_attr
           {| t_stack_mem := addr sym__main_stack;
              t_stack_size := MBED_CONF_APP_MAIN_STACK_SIZE;
              t_cb_size := sizeof_thread_storage;
              t_cb_mem := addr sym__main_obj;
              t_priority := osPriorityNormal;
              t_name := Some "main_thread" |});;
  attr ← read _main_thread_attr;
  result ← osThreadNew (addr sym_pre_main) NULL attr;
  (if decide (result = NULL) then error "Pre main thread not created" else mret tt);;
  osKernelStart.

(** The five statements every [pre_main] starts its mutex set-up with
    (lines 365-369, 385-389, 466-470, 759-763). *)
Definition new_singleton_mutex : M unit :=
  store (fun w => set_singleton_mutex_attr
           {| m_name := Some "singleton_mutex";
              m_attr_bits := Z.lor (Z.lor osMutexRecursive osMutexPrioInherit) osMutexRobust;
              m_cb_size := sizeof_mutex_storage;
              m_cb_mem := addr sym_singleton_mutex_obj |} w);;
  attr ← read singleton_mutex_attr;
  id ← osMutexNew attr;
  store (set_singleton_mutex_id id).

End Common.

(** ** ARM compiler with MICROLIB (lines 338-373) *)

Module MICROLIB.
Section Code.
Context `{cfg : Config}.

Definition _main_init : M unit :=
  mbed_set_stack_heap;;
  (* Copy the vector table to RAM only if uVisor is not in use. *)
  cpy_nvic_unless_uvisor;;
  mbed_sdk_init;;
  osKernelInitialize;;
  mbed_start_main;;
  halt (* for (;;); *).

Definition pre_main : M unit :=
  new_singleton_mutex;;
  call "$Super$$__cpp_initialize__aeabi_";;
  call "main".

End Code.
End MICROLIB.

(** ** ARM compiler with the standard library (lines 375-416) *)

Module ARMC.
Section Code.
Context `{cfg : Config}.

Definition pre_main : M unit :=
  new_singleton_mutex;;
  heap_start ← read mbed_heap_start;
  heap_size ← read mbed_heap_size;
  emit (RtLibInit heap_start (wrap32 (heap_start + heap_size)));;
  call "main".

(** Modelled from the spec: [_platform_post_stackheap_init] belongs to
    RTX and is not part of this file; it is the step "run Kernel Bootstrap
    step 1" of the ARM routine, and the boot sequence comment of the file
    (lines 44-45) has it call [osKernelInitialize]. *)
Definition _platform_post_stackheap_init : M unit :=
  call "_platform_post_stackheap_init";;
  osKernelInitialize.

(** Called by the C library. *)
Definition __rt_entry : M unit :=
  call "__user_setup_stackheap";;
  mbed_set_stack_heap;;
  (* Copy the vector table to RAM only if uVisor is not in use. *)
  cpy_nvic_unless_uvisor;;
  mbed_sdk_init;;
  _platform_post_stackheap_init;;
  mbed_start_main.

End Code.
End ARMC.

(** ** GCC with newlib (lines 417-741) *)

Module GCC.
Section Code.
Context `{cfg : Config}.

(** [init_lock_common] (lines 507-514): the lock object lives at address
    [pLock]; an object never written reads as zeros. *)
Definition init_lock_common (pLock : Z) (pName : string) (attributeBits : Z) : M unit :=
  store (fun w =>
    set_locks (<[pLock :=
      {| lock_id := lock_id (locks w !!! pLock);
         lock_attr := {| m_name := Some pName;
                         m_attr_bits := attributeBits;
                         m_cb_size := sizeof_mutex_storage;
                         m_cb_mem := wrap32 (pLock + offsetof_obj) |} |}]> (locks w)) w);;
  attr ← read (fun w => lock_attr (locks w !!! pLock));
  id ← osMutexNew attr;
  store (fun w =>
    set_locks (<[pLock := {| lock_id := id;
                             lock_attr := lock_attr (locks w !!! pLock) |}]> (locks w)) w).

Definition init_lock (pLock : Z) (pName : string) : M unit :=
  init_lock_common pLock pName (Z.lor osMutexPrioInherit osMutexRobust).

Definition init_recursive_lock (pLock : Z) (pName : string) : M unit :=
  init_lock_common pLock pName
    (Z.lor (Z.lor osMutexRecursive osMutexPrioInherit) osMutexRobust).

Definition pre_main : M unit :=
  store (set_main_running 1);;
  new_singleton_mutex;;
  init_recursive_lock (addr sym___lock___sinit_recursive_mutex) "sinit_mutex";;
  init_recursive_lock (addr sym___lock___sfp_recursive_mutex) "sfp_mutex";;
  init_recursive_lock (addr sym___lock___malloc_recursive_mutex) "malloc_mutex";;
  init_recursive_lock (addr sym___lock___env_recursive_mutex) "env_mutex";;
  init_lock (addr sym___lock___at_quick_exit_mutex) "at_quick_exit_mutex";;
  init_lock (addr sym___lock___tz_mutex) "tz_mutex";;
  init_lock (addr sym___lock___arc4random_mutex) "arc4random_mutex";;
  call "__libc_init_array";;
  call "main".

Definition uvisor_lib_init : M Z := extern "uvisor_lib_init" (Call "uvisor_lib_init").

Definition software_init_hook : M unit :=
  mbed_set_stack_heap;;
  (* Copy the vector table to RAM only if uVisor is not in use. *)
  cpy_nvic_unless_uvisor;;
  mbed_sdk_init;;
  osKernelInitialize;;
  (* uvisor_lib_init calls RTOS functions, so must be called after the RTOS
     has been initialized. *)
  (if FEATURE_UVISOR then
     return_code ← uvisor_lib_init;
     if decide (return_code = 0) then mret tt else mbed_die
   else mret tt);;
  mbed_start_main.

(** [__retarget_lock_init] (lines 526-535); [lock] is the address of the
    caller's [struct __lock *]. *)
Definition __retarget_lock_init (lock : Z) : M unit :=
  p ← malloc sizeof___lock;
  store (fun w => set_mem (<[lock := p]> (mem w)) w);;
  p ← read (fun w => default 0 (mem w !! lock));
  if decide (p = NULL)
  then error ("newlib mutex init is out of memory" +:+ CR +:+ LF)
  else init_lock p "newlib_dynamic_mutex".

Definition __retarget_lock_init_recursive (lock : Z) : M unit :=
  p ← malloc sizeof___lock;
  store (fun w => set_mem (<[lock := p]> (mem w)) w);;
  p ← read (fun w => default 0 (mem w !! lock));
  if decide (p = NULL)
  then error ("newlib mutex init is out of memory" +:+ CR +:+ LF)
  else init_recursive_lock p "newlib_dynamic_recursive_mutex".

(** [__retarget_lock_close] and its recursive twin (lines 548-562); here
    [lock] is the [struct __lock *] itself. *)
Definition __retarget_lock_close (lock : Z) : M unit :=
  if decide (lock = NULL) then mret tt
  else
    id ← read (fun w => lock_id (locks w !!! lock));
    osMutexDelete id;;
    free lock.

Definition __retarget_lock_close_recursive (lock : Z) : M unit :=
  if decide (lock = NULL) then mret tt
  else
    id ← read (fun w => lock_id (locks w !!! lock));
    osMutexDelete id;;
    free lock.

(** The loop of [__user_perthread_libspace] (lines 723-732), [fuel]
    iterations from index [n] on: [inl p] when the body returned [p],
    [inr n] when the loop ran to its end with that final [n]. The index
    stays below [OS_THREAD_LIBSPACE_NUM], the length of both tables. *)
Fixpoint libspace_scan (id : Z) (fuel n : nat) : M (reent_ptr + nat) :=
  match fuel with
  | O => mret (inr n)
  | S fuel' =>
      slot ← read (fun w => os_libspace_id w !!! n);
      if decide (slot = NULL) then
        store (fun w => set_os_libspace_id (<[n := id]> (os_libspace_id w)) w);;
        store (fun w => set_os_libspace (<[n := _REENT_INIT n]> (os_libspace w)) w);;
        mret (inl (os_libspace_at n))
      else
        slot ← read (fun w => os_libspace_id w !!! n);
        if decide (slot = id) then mret (inl (os_libspace_at n))
        else libspace_scan id fuel' (S n)
  end.

(** [__user_perthread_libspace] (lines 711-739). *)
Definition __user_perthread_libspace (id : Z) : M reent_ptr :=
  running ← read main_running;
  if decide (running = 0) then mret _global_impure_ptr
  else if decide (id = addr sym__main_obj) then mret _global_impure_ptr
  else
    r ← libspace_scan id OS_THREAD_LIBSPACE_NUM 0;
    match r with
    | inl p => mret p
    | inr n =>
        (if decide (n = OS_THREAD_LIBSPACE_NUM)
         then osRtxErrorNotify osRtxErrorClibSpace id else mret tt);;
        mret _global_impure_ptr
    end.

End Code.
End GCC.

(** ** IAR (lines 743-877) *)

Module IAR.
Section Code.
Context `{cfg : Config}.

Definition pre_main : M unit :=
  new_singleton_mutex;;
  needed ← read low_level_init_needed;
  (if decide (needed = 0) then mret tt else call "__iar_dynamic_initialization");;
  mbed_main;;
  call "main".

Definition __low_level_init : M Z := extern "__low_level_init" (Call "__low_level_init").

(** [__iar_program_start] (lines 773-799); the [int] that
    [__low_level_init] returns is kept in a [uint8_t]. *)
Definition __iar_program_start : M unit :=
  call "__iar_init_core";;
  call "__iar_init_vfp";;
  r ← __low_level_init;
  let low_level_init_needed_local := r mod 2 ^ 8 in
  (if decide (low_level_init_needed_local = 0) then mret tt
   else
     call "__iar_data_init3";;
     (* Copy the vector table to RAM only if uVisor is not in use. *)
     cpy_nvic_unless_uvisor;;
     mbed_sdk_init);;
  mbed_set_stack_heap;;
  (* Store in a global variable after RAM has been initialized *)
  store (set_low_level_init_needed low_level_init_needed_local);;
  osKernelInitialize;;
  mbed_start_main.

(** The loop shared by [__iar_system_Mtxinit] and [__iar_file_Mtxinit]:
    the first free entry of the id table gets a new kernel mutex, and its
    address is stored into [*mutex]; [Some tt] when the body returned. *)
Fixpoint Mtxinit_scan (table : world -> list Z) (set_table : list Z -> world -> world)
    (id_base storage_base : Z) (name : string) (mutex : Z)
    (fuel index : nat) : M (option unit) :=
  match fuel with
  | O => mret None
  | S fuel' =>
      slot ← read (fun w => table w !!! index);
      if decide (0 = slot) then
        id ← osMutexNew
               {| m_name := Some name;
                  m_cb_mem := wrap32 (storage_base + sizeof_mutex_storage * Z.of_nat index);
                  m_cb_size := sizeof_mutex_storage;
                  m_attr_bits :=
                    Z.lor (Z.lor osMutexRecursive osMutexPrioInherit) osMutexRobust |};
        store (fun w => set_table (<[index := id]> (table w)) w);;
        store (fun w =>
          set_mem (<[mutex := wrap32 (id_base + sizeof_mutex_id * Z.of_nat index)]> (mem w)) w);;
        mret (Some tt)
      else Mtxinit_scan table set_table id_base storage_base name mutex fuel' (S index)
  end.

(** Initialize a system lock (lines 808-826). *)
Definition __iar_system_Mtxinit (mutex : Z) : M unit :=
  r ← Mtxinit_scan std_mutex_id_sys set_std_mutex_id_sys
        (addr sym_std_mutex_id_sys) (addr sym_std_mutex_sys) "system_mutex" mutex _MAX_LOCK 0;
  match r with
  | Some _ => mret tt
  | None => (* This should never happen *) error ("Not enough mutexes" +:+ LF)
  end.

(** Initialize a file lock (lines 844-861). *)
Definition __iar_file_Mtxinit (mutex : Z) : M unit :=
  r ← Mtxinit_scan std_mutex_id_file set_std_mutex_id_file
        (addr sym_std_mutex_id_file) (addr sym_std_mutex_file) "file_mutex" mutex _FOPEN_MAX 0;
  match r with
  | Some _ => mret tt
  | None => (* The variable _FOPEN_MAX needs to be increased *)
      error ("Not enough mutexes" +:+ LF)
  end.

End Code.
End IAR.

(** ** The state after reset, and the vocabulary of the properties *)

Section Vocabulary.
Context `{cfg : Config}.

(** The C runtime has zeroed .bss: every variable of the file is 0, the
    tables have their declared lengths. [m] is the memory image, [r] the
    script of the environment's answers. *)
Definition reset_world (m : gmap Z Z) (r : gmap string (list Z)) : world :=
  {| mbed_heap_start := 0; mbed_heap_size := 0;
     mbed_stack_isr_start := 0; mbed_stack_isr_size := 0;
     _main_thread_attr := zero_thread_attr;
     singleton_mutex_id := 0; singleton_mutex_attr := zero_mutex_attr;
     locks := ∅; main_running := 0;
     os_libspace := replicate OS_THREAD_LIBSPACE_NUM _reent_bss;
     os_libspace_id := replicate OS_THREAD_LIBSPACE_NUM NULL;
     low_level_init_needed := 0;
     std_mutex_id_sys := replicate _MAX_LOCK 0;
     std_mutex_id_file := replicate _FOPEN_MAX 0;
     SCB_VTOR := 0; mem := m; trace := []; rets := r |}.

(** A memory region [start, start + size). *)
Definition in_region (start size a : Z) : Prop := start <= a < start + size.

(** The boot steps whose order the entry routines must respect. *)
Inductive boot_step := SetStackHeap | CpyNvic | SdkInit | KernelInit | StartMain.

#[global] Instance boot_step_eq_dec : EqDecision boot_step.
Proof. solve_decision. Defined.

Definition boot_step_of (e : event) : option boot_step :=
  match e with
  | Call f =>
      if decide (f = "mbed_set_stack_heap") then Some SetStackHeap
      else if decide (f = "mbed_cpy_nvic") then Some CpyNvic
      else if decide (f = "mbed_sdk_init") then Some SdkInit
      else if decide (f = "osKernelInitialize") then Some KernelInit
      else if decide (f = "mbed_start_main") then Some StartMain
      else None
  | _ => None
  end.

Definition boot_steps (t : list event) : list boot_step := omap boot_step_of t.

(** The order every entry routine is said to follow: resolver, relocator
    (unless uVisor owns the vector table), SDK hook, kernel
    initialization, [mbed_start_main]. *)
Definition relocator_steps : list boot_step :=
  if uvisor_owns_vectors then [] else [CpyNvic].

Definition claimed_boot_order : list boot_step :=
  [SetStackHeap] ++ relocator_steps ++ [SdkInit; KernelInit; StartMain].

Definition boot_rank (s : boot_step) : nat :=
  match s with
  | SetStackHeap => 0 | CpyNvic => 1 | SdkInit => 2 | KernelInit => 3 | StartMain => 4
  end%nat.

(** No step occurs before one that must precede it. *)
Definition in_boot_order (l : list boot_step) : Prop :=
  StronglySorted (fun a b => (boot_rank a < boot_rank b)%nat) l.

(** The messages handed to the fatal-error reporter. *)
Definition reported (t : list event) : list string :=
  omap (fun e => match e with Error msg => Some msg | _ => None end) t.

(** How many times [f] was called. *)
Definition calls (f : string) (t : list event) : nat :=
  length (filter (fun e => e = Call f) t).

(** The attributes of the kernel mutexes created. *)
Definition mutexes_created (t : list event) : list osMutexAttr_t :=
  omap (fun e => match e with MutexNew a => Some a | _ => None end) t.

Definition has_flag (bits flag : Z) : Prop := Z.land bits flag = flag.

Definition robust_prio_inherit (a : osMutexAttr_t) : Prop :=
  has_flag (m_attr_bits a) osMutexRobust ∧ has_flag (m_attr_bits a) osMutexPrioInherit.

(** [m], run from [w], ends with [r] and adds the events [t] to the trace. *)
Definition emits {A} (m : M A) (w : world) (r : result A) (t : list event) : Prop :=
  outcome m w = r ∧ trace (run m w) = trace w ++ t.

(** [m] is a boot step named [f]: it returns, records its own call only,
    and leaves the script of the environment as it is. *)
Definition boot_step_run (m : M unit) (f : string) : Prop :=
  ∀ w, emits m w (Done tt) [Call f] ∧ rets (run m w) = rets w.

(** The index at which the loop of [__user_perthread_libspace] stops
    inside its body, if any: the first slot from [n] on, among [fuel], that
    is free or already holds [id]. *)
Fixpoint find_slot (table : list Z) (id : Z) (fuel n : nat) : option nat :=
  match fuel with
  | O => None
  | S fuel' =>
      if decide (table !!! n = NULL) then Some n
      else if decide (table !!! n = id) then Some n
      else find_slot table id fuel' (S n)
  end.

(** The state after the loop body has returned at slot [k]. *)
Definition claim_slot (id : Z) (k : nat) (w : world) : world :=
  if decide (os_libspace_id w !!! k = NULL)
  then set_os_libspace (<[k := _REENT_INIT k]> (os_libspace w))
         (set_os_libspace_id (<[k := id]> (os_libspace_id w)) w)
  else w.

(** The claimed slots are the first [k] ones; they hold pairwise distinct
    identities, none of them null or the main thread's. *)
Definition claimed_prefix (table : list Z) (k : nat) : Prop :=
  length table = OS_THREAD_LIBSPACE_NUM ∧
  (k <= OS_THREAD_LIBSPACE_NUM)%nat ∧
  (∀ j, (j < k)%nat -> table !!! j ≠ NULL ∧ table !!! j ≠ addr sym__main_obj) ∧
  (∀ j, (k <= j < OS_THREAD_LIBSPACE_NUM)%nat -> table !!! j = NULL) ∧
  (∀ i j, (i < k)%nat -> (j < k)%nat -> table !!! i = table !!! j -> i = j).

(** The two sets of attribute bits the file uses. *)
Definition recursive_bits : Z :=
  Z.lor (Z.lor osMutexRecursive osMutexPrioInherit) osMutexRobust.

Definition plain_bits : Z := Z.lor osMutexPrioInherit osMutexRobust.

(** The attributes [init_lock_common] builds for the lock at [pLock]. *)
Definition lock_attr_of (pLock : Z) (pName : string) (attributeBits : Z) : osMutexAttr_t :=
  {| m_name := Some pName; m_attr_bits := attributeBits;
     m_cb_size := sizeof_mutex_storage; m_cb_mem := wrap32 (pLock + offsetof_obj) |}.

(** The attributes the IAR tables use for entry [index]. *)
Definition iar_attr_of (storage_base : Z) (name : string) (index : nat) : osMutexAttr_t :=
  {| m_name := Some name;
     m_cb_mem := wrap32 (storage_base + sizeof_mutex_storage * Z.of_nat index);
     m_cb_size := sizeof_mutex_storage;
     m_attr_bits := recursive_bits |}.

Definition singleton_attr : osMutexAttr_t :=
  {| m_name := Some "singleton_mutex"; m_attr_bits := recursive_bits;
     m_cb_size := sizeof_mutex_storage; m_cb_mem := addr sym_singleton_mutex_obj |}.

(** Every kernel mutex [m] creates when run from [w] is robust and
    inherits priority. *)
Definition creates_robust_mutexes {A} (m : M A) (w : world) : Prop :=
  Forall robust_prio_inherit (mutexes_created (events m w)).

(** A sequence of calls of the accessor, one after the other. *)
Fixpoint libspace_calls (ids : list Z) : M unit :=
  match ids with
  | [] => mret tt
  | id :: ids' => GCC.__user_perthread_libspace id;; libspace_calls ids'
  end.

(** The states the slot table goes through under sequential execution:
    from reset, [pre_main] runs and the accessor is called, in any order
    and with any identities. *)
Inductive reachable : world -> Prop :=
| reach_reset m r : reachable (reset_world m r)
| reach_pre_main w : reachable w -> reachable (run GCC.pre_main w)
| reach_libspace w id :
    reachable w -> reachable (run (GCC.__user_perthread_libspace id) w).

(** Every slot of the table is claimed. *)
Definition table_full (w : world) : Prop :=
  length (os_libspace_id w) = OS_THREAD_LIBSPACE_NUM ∧
  Forall (fun x => x ≠ NULL) (os_libspace_id w).

End Vocabulary.

(** ** A concrete build, for evaluation

    The GCC build of a Cortex-M7 target without uVisor (as the device
    makefile build/JIRO_LLC-device.mk selects), with the free span
    [0x2000, 0x10000) and the default interrupt stack size; the constants
    are those of CMSIS-RTOS2 and RTX5. *)

Definition no_layout : layout :=
  {| HEAP_START := 0; HEAP_SIZE := 0; ISR_STACK_START := None; ISR_STACK_SIZE := 0 |}.

Definition gcc_layout (end_of_data initial_sp : Z) : layout :=
  default no_layout
    (resolve_layout GNUC
       {| D_HEAP_START := None; D_HEAP_SIZE := None; D_ISR_STACK_START := None;
          D_ISR_STACK_SIZE := None; D_INITIAL_SP := Some initial_sp |}
       {| free_base := end_of_data; sec_HEAP_begin := 0; sec_HEAP_size := 0;
          sec_CSTACK_begin := 0; sec_CSTACK_size := 0 |}).

Definition example_layout : layout := gcc_layout 0x2000 0x10000.

(** A free span of 0x200 bytes, smaller than the default interrupt stack. *)
Definition tight_layout : layout := gcc_layout 0x2000 0x2200.

Definition example_addr (s : symbol) : Z :=
  match s with
  | sym__main_stack => 0x1000
  | sym__main_obj => 0x0f00
  | sym_pre_main => 0x08000400
  | sym_singleton_mutex_obj => 0x0e00
  | sym___lock___sinit_recursive_mutex => 0x0d00
  | sym___lock___sfp_recursive_mutex => 0x0d40
  | sym___lock___at_quick_exit_mutex => 0x0d80
  | sym___lock___malloc_recursive_mutex => 0x0dc0
  | sym___lock___env_recursive_mutex => 0x0c00
  | sym___lock___tz_mutex => 0x0c40
  | sym___lock___arc4random_mutex => 0x0c80
  | sym_std_mutex_id_sys => 0x0b00
  | sym_std_mutex_sys => 0x0a00
  | sym_std_mutex_id_file => 0x0900
  | sym_std_mutex_file => 0x0800
  end.

Definition example_cfg (l : layout) (uvisor : bool) (libspace_num : nat) : Config :=
  {| macros := l;
     osMutexRecursive := 1; osMutexPrioInherit := 2; osMutexRobust := 8;
     osPriorityNormal := 24; osRtxErrorClibSpace := 4;
     MBED_CONF_APP_MAIN_STACK_SIZE := 4096;
     OS_THREAD_LIBSPACE_NUM := libspace_num; _MAX_LOCK := 4;
     FEATURE_UVISOR := uvisor; TARGET_UVISOR_SUPPORTED := uvisor;
     CORTEX_M0_or_A9 := false;
     NVIC_RAM_VECTOR_ADDRESS := Some 0x20000000; NVIC_NUM_VECTORS := 4;
     sizeof_thread_storage := 68; sizeof_mutex_storage := 28;
     sizeof_mutex_id := 4; sizeof___lock := 48; offsetof_obj := 4;
     addr := example_addr;
     _reent := nat; _reent_bss := 0%nat; _REENT_INIT := S |}.

(** An IAR build: heap and interrupt stack are the sections of the .icf file. *)
Definition iar_layout : layout :=
  default no_layout
    (resolve_layout ICCARM
       {| D_HEAP_START := None; D_HEAP_SIZE := None; D_ISR_STACK_START := None;
          D_ISR_STACK_SIZE := None; D_INITIAL_SP := None |}
       {| free_base := 0; sec_HEAP_begin := 0x2000; sec_HEAP_size := 0xDC00;
          sec_CSTACK_begin := 0xFC00; sec_CSTACK_size := 0x400 |}).

Definition example_gcc : Config := example_cfg example_layout false 2.
Definition example_iar : Config := example_cfg iar_layout false 2.

(** The GCC build after reset, and once [pre_main] has started. *)
Definition gcc_reset : @world example_gcc := @reset_world example_gcc ∅ ∅.
Definition gcc_started : @world example_gcc := @run example_gcc _ GCC.pre_main gcc_reset.
Definition example_tight : Config := example_cfg tight_layout false 2.
Definition example_uvisor : Config := example_cfg example_layout true 2.

(** The kernel answers a handle to [osThreadNew]. *)
Definition thread_created : gmap string (list Z) := {["osThreadNew" := [0x0f00]]}.

(** uVisor is enabled and [uvisor_lib_init] fails. *)
Definition uvisor_failing : gmap string (list Z) :=
  {["uvisor_lib_init" := [1]; "osThreadNew" := [0x0f00]]}.

(** ** More vocabulary *)

(** The calls that drive the kernel through its states: initialized, main
    thread created, scheduler started. *)
Inductive kernel_step := KInitialize | KThreadNew | KStart.

Definition kernel_step_of (e : event) : option kernel_step :=
  match e with
  | Call f =>
      if decide (f = "osKernelInitialize") then Some KInitialize
      else if decide (f = "osKernelStart") then Some KStart
      else None
  | ThreadNew _ _ _ => Some KThreadNew
  | _ => None
  end.

Definition kernel_steps (t : list event) : list kernel_step := omap kernel_step_of t.

Section MoreVocabulary.
Context `{cfg : Config}.

(** The four variables [mbed_set_stack_heap] is there to set. *)
Definition layout_vars (w : world) : Z * Z * Z * Z :=
  (mbed_heap_start w, mbed_heap_size w, mbed_stack_isr_start w, mbed_stack_isr_size w).

(** [m] leaves the part [f] of the state as it found it. *)
Definition keeps {A B} (f : world -> B) (m : M A) : Prop :=
  ∀ w, f (run m w) = f w.

(** The call of the vector table relocator, when the routines make it. *)
Definition relocator_events : list event :=
  if uvisor_owns_vectors then [] else [Call "mbed_cpy_nvic"].

(** The events of [mbed_start_main] when [osThreadNew] answers [handle]. *)
Definition start_main_events (handle : Z) : list event :=
  [Call "mbed_start_main";
   ThreadNew (addr sym_pre_main) NULL
     {| t_stack_mem := addr sym__main_stack;
        t_stack_size := MBED_CONF_APP_MAIN_STACK_SIZE;
        t_cb_size := sizeof_thread_storage;
        t_cb_mem := addr sym__main_obj;
        t_priority := osPriorityNormal;
        t_name := Some "main_thread" |};
   if decide (handle = NULL) then Error "Pre main thread not created"
   else Call "osKernelStart"].

(** How [mbed_start_main] ends when [osThreadNew] answers [handle]. *)
Definition start_main_result (handle : Z) : result unit :=
  if decide (handle = NULL) then NoReturn else Done tt.

(** The [k]-th answer still scripted for [f]: what its [k]-th call from
    now on returns (0 when the script is shorter). *)
Definition answer (f : string) (k : nat) (w : world) : Z :=
  nth k (default [] (rets w !! f)) 0.

(** The locks newlib links against, in the order the GCC [pre_main]
    initializes them (lines 472-478), each with the name and the attribute
    bits it is given there. *)
Definition static_locks : list (symbol * string * Z) :=
  [(sym___lock___sinit_recursive_mutex, "sinit_mutex", recursive_bits);
   (sym___lock___sfp_recursive_mutex, "sfp_mutex", recursive_bits);
   (sym___lock___malloc_recursive_mutex, "malloc_mutex", recursive_bits);
   (sym___lock___env_recursive_mutex, "env_mutex", recursive_bits);
   (sym___lock___at_quick_exit_mutex, "at_quick_exit_mutex", plain_bits);
   (sym___lock___tz_mutex, "tz_mutex", plain_bits);
   (sym___lock___arc4random_mutex, "arc4random_mutex", plain_bits)].

Definition static_lock_addresses : list Z := map (fun l => addr l.1.1) static_locks.

End MoreVocabulary.

(** ** IAR: destroying a lock (lines 828-832 and 863-867) *)

Section IarDestroy.
Context `{cfg : Config}.

(** The index of the entry of an id table that lies at address [p]: the
    table starts at [base] and has [len] entries of [sizeof(osMutexId_t)]
    bytes. *)
Definition entry_at (base : Z) (len : nat) (p : Z) : option nat :=
  find (fun i => bool_decide (wrap32 (base + sizeof_mutex_id * Z.of_nat i) = p)) (seq 0 len).

(** [*(osMutexId_t* )p]: the pointers [__iar_system_Mtxinit] and
    [__iar_file_Mtxinit] hand out point into the two id tables, so a load
    through one of them reads the table; any other address reads memory. *)
Definition load_mutex_id (p : Z) (w : world) : Z :=
  match entry_at (addr sym_std_mutex_id_sys) _MAX_LOCK p with
  | Some i => std_mutex_id_sys w !!! i
  | None =>
      match entry_at (addr sym_std_mutex_id_file) _FOPEN_MAX p with
      | Some i => std_mutex_id_file w !!! i
      | None => default 0 (mem w !! p)
      end
  end.

(** Destroy a system lock (lines 828-832). *)
Definition __iar_system_Mtxdst (mutex : Z) : M unit :=
  p ← read (fun w => default 0 (mem w !! mutex));
  id ← read (load_mutex_id p);
  osMutexDelete id;;
  store (fun w => set_mem (<[mutex := 0]> (mem w)) w).

(** Destroy a file lock (lines 863-867). *)
Definition __iar_file_Mtxdst (mutex : Z) : M unit :=
  p ← read (fun w => default 0 (mem w !! mutex));
  id ← read (load_mutex_id p);
  osMutexDelete id;;
  store (fun w => set_mem (<[mutex := 0]> (mem w)) w).

(** The entries of an id table lie at pairwise distinct addresses of the
    32-bit address space. *)
Definition table_placed (base : Z) (len : nat) : Prop :=
  0 <= base ∧ 0 < sizeof_mutex_id ∧ base + sizeof_mutex_id * Z.of_nat len <= 2 ^ 32.

End IarDestroy.

(** ** Taking and releasing the locks (lines 564-702, 834-842, 869-877)

    These routines do nothing but call the kernel and the routines they
    wrap; what matters is which mutex they name and in what order. Their
    calls are recorded in a log of their own, next to the state of the rest
    of the file. *)

(** cmsis_os2.h: the timeout that waits without limit. *)
Class CmsisOs2 := { osWaitForever : Z }.

Inductive lock_event :=
| MutexAcquire (mutex_id timeout : Z)
| MutexRelease (mutex_id : Z)
| Wrapped (f : string) (args : list Z).

Section LockRoutines.
Context `{cfg : Config} `{os : CmsisOs2}.

Record lock_world := LockWorld {
  base : world;
  lock_trace : list lock_event
}.

(** These routines return to their caller. *)
Definition L (A : Type) : Type := lock_world -> A * lock_world.

#[global] Instance L_ret : MRet L := fun A a s => (a, s).

#[global] Instance L_bind : MBind L := fun A B f m s =>
  let (a, s') := m s in f a s'.

(** A read of the state of the file. *)
Definition look {A} (f : world -> A) : L A := fun s => (f (base s), s).

Definition log (e : lock_event) : L unit :=
  fun s => (tt, {| base := base s; lock_trace := lock_trace s ++ [e] |}).

(** The answer of a callee outside the file: the next one scripted for it. *)
Definition answered (f : string) : L Z :=
  fun s => (next_ret f (base s),
            {| base := set_rets (<[f := tail (default [] (rets (base s) !! f))]>
                                   (rets (base s))) (base s);
               lock_trace := lock_trace s |}).

Definition osMutexAcquire (mutex_id timeout : Z) : L Z :=
  log (MutexAcquire mutex_id timeout);; answered "osMutexAcquire".

Definition osMutexRelease (mutex_id : Z) : L Z :=
  log (MutexRelease mutex_id);; answered "osMutexRelease".

(** A call of one of the [__real_] routines the file wraps. *)
Definition real (f : string) (args : list Z) : L Z :=
  log (Wrapped f args);; answered f.

Definition lock_run {A} (m : L A) (s : lock_world) : lock_world := snd (m s).

Definition lock_value {A} (m : L A) (s : lock_world) : A := fst (m s).

(** The calls a routine adds to the log. *)
Definition lock_events {A} (m : L A) (s : lock_world) : list lock_event :=
  drop (length (lock_trace s)) (lock_trace (lock_run m s)).

(** Lines 564-592; [lock] is the [struct __lock *]. *)
Definition __retarget_lock_acquire (lock : Z) : L unit :=
  id ← look (fun w => lock_id (locks w !!! lock));
  osMutexAcquire id osWaitForever;;
  mret tt.

Definition __retarget_lock_acquire_recursive (lock : Z) : L unit :=
  id ← look (fun w => lock_id (locks w !!! lock));
  osMutexAcquire id osWaitForever;;
  mret tt.

Definition __retarget_lock_try_acquire (lock : Z) : L Z :=
  id ← look (fun w => lock_id (locks w !!! lock));
  osMutexAcquire id 0.

Definition __retarget_lock_try_acquire_recursive (lock : Z) : L Z :=
  id ← look (fun w => lock_id (locks w !!! lock));
  osMutexAcquire id 0.

Definition __retarget_lock_release (lock : Z) : L unit :=
  id ← look (fun w => lock_id (locks w !!! lock));
  osMutexRelease id;;
  mret tt.

Definition __retarget_lock_release_recursive (lock : Z) : L unit :=
  id ← look (fun w => lock_id (locks w !!! lock));
  osMutexRelease id;;
  mret tt.

(** Lines 598-648: the routines newlib-nano leaves to the port. *)
Definition __env_lock (ptr : Z) : L unit :=
  __retarget_lock_acquire_recursive (addr sym___lock___env_recursive_mutex).

Definition __env_unlock (ptr : Z) : L unit :=
  __retarget_lock_release_recursive (addr sym___lock___env_recursive_mutex).

Definition __sfp_lock_acquire : L unit :=
  __retarget_lock_acquire_recursive (addr sym___lock___sfp_recursive_mutex).

Definition __sfp_lock_release : L unit :=
  __retarget_lock_release_recursive (addr sym___lock___sfp_recursive_mutex).

Definition __sinit_lock_acquire : L unit :=
  __retarget_lock_acquire_recursive (addr sym___lock___sinit_recursive_mutex).

Definition __sinit_lock_release : L unit :=
  __retarget_lock_release_recursive (addr sym___lock___sinit_recursive_mutex).

Definition __malloc_lock (ptr : Z) : L unit :=
  __retarget_lock_acquire_recursive (addr sym___lock___malloc_recursive_mutex).

Definition __malloc_unlock (ptr : Z) : L unit :=
  __retarget_lock_release_recursive (addr sym___lock___malloc_recursive_mutex).

Definition __tz_lock : L unit :=
  __retarget_lock_acquire (addr sym___lock___tz_mutex).

Definition __tz_unlock : L unit :=
  __retarget_lock_release (addr sym___lock___tz_mutex).

(** Lines 650-702: newlib-nano routines that take no lock themselves. *)
Definition __wrap_arc4random : L Z :=
  __retarget_lock_acquire (addr sym___lock___arc4random_mutex);;
  val ← real "__real_arc4random" [];
  __retarget_lock_release (addr sym___lock___arc4random_mutex);;
  mret val.

Definition __wrap_arc4random_buf (buf n : Z) : L unit :=
  __retarget_lock_acquire (addr sym___lock___arc4random_mutex);;
  real "__real_arc4random_buf" [buf; n];;
  __retarget_lock_release (addr sym___lock___arc4random_mutex).

Definition __wrap___sfp (d : Z) : L Z :=
  __sfp_lock_acquire;;
  pFile ← real "__real___sfp" [d];
  __sfp_lock_release;;
  mret pFile.

Definition __wrap___sinit (s : Z) : L unit :=
  __sinit_lock_acquire;;
  real "__real___sinit" [s];;
  __sinit_lock_release.

Definition __wrap_at_quick_exit (func : Z) : L Z :=
  __retarget_lock_acquire (addr sym___lock___at_quick_exit_mutex);;
  ret ← real "__real_at_quick_exit" [func];
  __retarget_lock_release (addr sym___lock___at_quick_exit_mutex);;
  mret ret.

(** IAR, lines 834-842 and 869-877: [mutex] is the [__iar_Rmtx *]. *)
Definition __iar_system_Mtxlock (mutex : Z) : L unit :=
  p ← look (fun w => default 0 (mem w !! mutex));
  id ← look (load_mutex_id p);
  osMutexAcquire id osWaitForever;;
  mret tt.

Definition __iar_system_Mtxunlock (mutex : Z) : L unit :=
  p ← look (fun w => default 0 (mem w !! mutex));
  id ← look (load_mutex_id p);
  osMutexRelease id;;
  mret tt.

Definition __iar_file_Mtxlock (mutex : Z) : L unit :=
  p ← look (fun w => default 0 (mem w !! mutex));
  id ← look (load_mutex_id p);
  osMutexAcquire id osWaitForever;;
  mret tt.

Definition __iar_file_Mtxunlock (mutex : Z) : L unit :=
  p ← look (fun w => default 0 (mem w !! mutex));
  id ← look (load_mutex_id p);
  osMutexRelease id;;
  mret tt.

(** The id of the kernel mutex behind the lock object at [lock]. *)
Definition mutex_of (lock : Z) (s : lock_world) : Z := lock_id (locks (base s) !!! lock).

(** A wrapped routine between the acquisition and the release of a lock. *)
Definition held (lock : Z) (f : string) (args : list Z) (s : lock_world) : list lock_event :=
  [MutexAcquire (mutex_of lock s) osWaitForever; Wrapped f args;
   MutexRelease (mutex_of lock s)].

End LockRoutines.

(** ** More concrete builds and states, for evaluation *)

(** A link in which the static data end above the initial stack pointer. *)
Definition wrapped_layout : layout := gcc_layout 0x10000 0x2000.

Definition example_wrapped : Config := example_cfg wrapped_layout false 2.

(** cmsis_os2.h: [#define osWaitForever 0xFFFFFFFFU]. *)
Definition example_os : CmsisOs2 := {| osWaitForever := 0xFFFFFFFF |}.

(** The kernel hands out the mutex ids 11, 12, ...; [malloc] a block. *)
Definition kernel_answers : gmap string (list Z) :=
  {["osMutexNew" := [11; 12; 13; 14; 15; 16; 17; 18]; "malloc" := [0x3000]]}.

Definition iar_reset : @world example_iar := @reset_world example_iar ∅ kernel_answers.

(** The IAR build once four system locks have been initialized. *)
Definition iar_locks_taken : @world example_iar :=
  @run example_iar _
    (IAR.__iar_system_Mtxinit 0x4000;; IAR.__iar_system_Mtxinit 0x4004;;
     IAR.__iar_system_Mtxinit 0x4008;; IAR.__iar_system_Mtxinit 0x400c) iar_reset.

(** The active vector table of the example, in flash at address 0. *)
Definition flash_vectors : gmap Z Z :=
  {[0 := 0x20010000; 4 := 0x08000101; 8 := 0x08000201; 12 := 0x08000301]}.

(** * Properties *)

(** ** Symbolic execution *)

(** Runs a computation on a state whose fields are variables. *)
Ltac exec := repeat (progress (unfold mbind, mret, M_bind, M_ret; simpl)).

(** Closed arithmetic facts, by evaluation. *)
Ltac by_eval := vm_compute; repeat split; first [reflexivity | intros; discriminate].

(** ** Running computations *)

Section Running.
Context `{cfg : Config}.

Lemma bind_unfold {A B} (m : M A) (f : A -> M B) (w : world) :
  (m ≫= f) w = match m w with
               | (Done a, w') => f a w'
               | (NoReturn, w') => (NoReturn, w')
               end.
Proof. reflexivity. Qed.

Lemma run_bind_done {A B} (m : M A) (f : A -> M B) (w : world) a :
  outcome m w = Done a -> run (m ≫= f) w = run (f a) (run m w).
Proof.
  unfold outcome, run. rewrite bind_unfold. destruct (m w) as [r0 w0]. simpl.
  intros ->. reflexivity.
Qed.

Lemma wrap32_small (x : Z) : 0 <= x < 2 ^ 32 -> wrap32 x = x.
Proof. intros H. unfold wrap32. apply Z.mod_small. exact H. Qed.

End Running.

(** ** The memory layout resolver *)

Section Layout.
Context `{cfg : Config}.

(** What [mbed_set_stack_heap] leaves in the four variables when the
    interrupt stack is not placed explicitly. *)
Lemma mbed_set_stack_heap_default (w : world) :
  ISR_STACK_START macros = None ->
  let free_size := wrap32 (HEAP_SIZE macros) in
  let isr_size := if wrap32 (ISR_STACK_SIZE macros) <? free_size
                  then wrap32 (ISR_STACK_SIZE macros) else free_size in
  let w' := run mbed_set_stack_heap w in
  outcome mbed_set_stack_heap w = Done tt ∧
  mbed_heap_start w' = HEAP_START macros ∧
  mbed_heap_size w' = wrap32 (free_size - isr_size) ∧
  mbed_stack_isr_start w' = wrap32 (HEAP_START macros + free_size - isr_size) ∧
  mbed_stack_isr_size w' = isr_size.
Proof.
  intros Hnone. unfold run, outcome, mbed_set_stack_heap.
  rewrite Hnone. cbn. repeat split; reflexivity.
Qed.

End Layout.

Section LayoutClaims.
Context `{cfg : Config}.

(** C1. When the interrupt stack is not placed explicitly, the free span
    size is an unsigned 32-bit value and the requested interrupt stack size
    is at most the free span, [mbed_set_stack_heap] returns with the heap
    at the base of the free span, the interrupt stack right after the heap
    (the pointer addition of the code, modulo 2^32), and sizes that add up
    to the free span; the requested size is reserved in full. When the free
    span lies within the address space (its end is an address) the
    addition is exact, and the two
    regions are disjoint and cover the free span exactly. *)
Theorem mbed_set_stack_heap_splits_free_span (w : world) :
  ISR_STACK_START macros = None ->
  0 <= HEAP_SIZE macros < 2 ^ 32 ->
  0 <= ISR_STACK_SIZE macros <= HEAP_SIZE macros ->
  let w' := run mbed_set_stack_heap w in
  outcome mbed_set_stack_heap w = Done tt ∧
  mbed_heap_start w' = HEAP_START macros ∧
  mbed_stack_isr_start w' = wrap32 (mbed_heap_start w' + mbed_heap_size w') ∧
  mbed_heap_size w' + mbed_stack_isr_size w' = HEAP_SIZE macros ∧
  mbed_stack_isr_size w' = ISR_STACK_SIZE macros ∧
  (0 <= HEAP_START macros -> HEAP_START macros + HEAP_SIZE macros < 2 ^ 32 ->
   mbed_stack_isr_start w' = mbed_heap_start w' + mbed_heap_size w' ∧
   ∀ a,
     (in_region (HEAP_START macros) (HEAP_SIZE macros) a ↔
      in_region (mbed_heap_start w') (mbed_heap_size w') a ∨
      in_region (mbed_stack_isr_start w') (mbed_stack_isr_size w') a) ∧
     ¬ (in_region (mbed_heap_start w') (mbed_heap_size w') a ∧
        in_region (mbed_stack_isr_start w') (mbed_stack_isr_size w') a)).
Proof.
  intros Hnone Hfree Hisr w'.
  destruct (mbed_set_stack_heap_default w Hnone) as (Hout & Hhs & Hhz & Hss & Hsz).
  fold w' in Hhs, Hhz, Hss, Hsz. clearbody w'.
  rewrite (wrap32_small (HEAP_SIZE macros)) in Hhz, Hss, Hsz by lia.
  rewrite (wrap32_small (ISR_STACK_SIZE macros)) in Hhz, Hss, Hsz by lia.
  assert (Hsize : mbed_stack_isr_size w' = ISR_STACK_SIZE macros).
  { rewrite Hsz. destruct (Z.ltb_spec (ISR_STACK_SIZE macros) (HEAP_SIZE macros)); lia. }
  rewrite <- Hsz in Hhz, Hss. rewrite Hsize in Hhz, Hss.
  rewrite wrap32_small in Hhz by lia.
  split; [exact Hout|]. split; [exact Hhs|].
  split; [rewrite Hss, Hhs, Hhz; f_equal; lia|].
  split; [lia|]. split; [exact Hsize|].
  intros Hbase Hfit.
  rewrite wrap32_small in Hss by lia.
  split; [lia|].
  intros a. unfold in_region. rewrite Hhs, Hhz, Hss, Hsize. lia.
Qed.

(** C2. When the interrupt stack is not placed explicitly and the
    requested interrupt stack size is strictly greater than the free span,
    the interrupt stack takes exactly the free span and the heap size is
    exactly 0: the unsigned subtraction [free_size - mbed_stack_isr_size]
    is the subtraction of the integers, it does not wrap around. *)
Theorem mbed_set_stack_heap_clamps_isr_stack (w : world) :
  ISR_STACK_START macros = None ->
  0 <= HEAP_SIZE macros < 2 ^ 32 ->
  HEAP_SIZE macros < ISR_STACK_SIZE macros < 2 ^ 32 ->
  let w' := run mbed_set_stack_heap w in
  outcome mbed_set_stack_heap w = Done tt ∧
  mbed_stack_isr_size w' = HEAP_SIZE macros ∧
  mbed_heap_size w' = 0 ∧
  mbed_heap_size w' = HEAP_SIZE macros - mbed_stack_isr_size w' ∧
  mbed_heap_start w' = HEAP_START macros.
Proof.
  intros Hnone Hfree Hisr w'.
  destruct (mbed_set_stack_heap_default w Hnone) as (Hout & Hhs & Hhz & Hss & Hsz).
  fold w' in Hhs, Hhz, Hss, Hsz. clearbody w'.
  rewrite (wrap32_small (HEAP_SIZE macros)) in Hhz, Hsz by lia.
  rewrite (wrap32_small (ISR_STACK_SIZE macros)) in Hhz, Hsz by lia.
  assert (Hsize : mbed_stack_isr_size w' = HEAP_SIZE macros).
  { rewrite Hsz. destruct (Z.ltb_spec (ISR_STACK_SIZE macros) (HEAP_SIZE macros)); lia. }
  rewrite <- Hsz in Hhz. rewrite Hsize in Hhz.
  replace (HEAP_SIZE macros - HEAP_SIZE macros) with 0 in Hhz by lia.
  change (wrap32 0) with 0 in Hhz.
  repeat split; try assumption. lia.
Qed.

End LayoutClaims.

(** ** Sequencing *)

Section Sequencing.
Context `{cfg : Config}.

Lemma emits_events {A} (m : M A) (w : world) r t :
  emits m w r t -> events m w = t.
Proof. intros [_ H]. unfold events. rewrite H. apply drop_app_length. Qed.

Lemma emits_bind_done {A B} (m : M A) (f : A -> M B) (w : world) a t1 r t2 :
  emits m w (Done a) t1 ->
  emits (f a) (run m w) r t2 ->
  emits (m ≫= f) w r (t1 ++ t2).
Proof.
  unfold emits, outcome, run. intros [Ho Ht] [Ho' Ht'].
  rewrite bind_unfold. destruct (m w) as [r0 w0]. simpl in *. subst r0.
  split; [exact Ho'|]. rewrite Ht', Ht. symmetry. apply app_assoc.
Qed.

Lemma emits_bind_stop {A B} (m : M A) (f : A -> M B) (w : world) t :
  emits m w NoReturn t -> emits (m ≫= f) w NoReturn t.
Proof.
  unfold emits, outcome, run. intros [Ho Ht].
  rewrite bind_unfold. destruct (m w) as [r0 w0]. simpl in *. subst r0.
  split; [reflexivity | exact Ht].
Qed.

Lemma emits_ret {A} (a : A) (w : world) : emits (mret a) w (Done a) [].
Proof. split; [reflexivity|]. symmetry. apply app_nil_r. Qed.

Lemma emits_halt {A} (w : world) : emits (halt (A := A)) w NoReturn [].
Proof. split; [reflexivity|]. symmetry. apply app_nil_r. Qed.

Lemma emits_call (f : string) (w : world) : emits (call f) w (Done tt) [Call f].
Proof. split; reflexivity. Qed.

Lemma emits_extern (f : string) (e : event) (w : world) :
  emits (extern f e) w (Done (next_ret f w)) [e].
Proof. split; reflexivity. Qed.

(** A boot step followed by the rest of a routine. *)
Lemma emits_after_step {B} (m : M unit) (f : string) (k : M B) (w : world) r t :
  boot_step_run m f ->
  emits k (run m w) r t ->
  emits (m;; k) w r (Call f :: t).
Proof.
  intros Hm Hk. destruct (Hm w) as [Hem _].
  exact (emits_bind_done m (fun _ => k) w tt [Call f] r t Hem Hk).
Qed.

Lemma call_boot_step (f : string) : boot_step_run (call f) f.
Proof. intros w. split; [apply emits_call | reflexivity]. Qed.

Lemma mbed_set_stack_heap_boot_step : boot_step_run mbed_set_stack_heap "mbed_set_stack_heap".
Proof.
  intros w. unfold emits, outcome, run, mbed_set_stack_heap.
  destruct (ISR_STACK_START macros); repeat split.
Qed.

Lemma copy_vectors_run (old_vectors vectors : Z) (count : nat) :
  ∀ (i : Z) (w : world), ∃ m',
    copy_vectors old_vectors vectors i count w = (Done tt, set_mem m' w).
Proof.
  induction count as [| count IH]; intros i w.
  - exists (mem w). destruct w. reflexivity.
  - simpl. rewrite bind_unfold. unfold store at 1.
    destruct (IH (i + 1) (set_mem (<[wrap32 (vectors + 4 * i) :=
                default 0 (mem w !! wrap32 (old_vectors + 4 * i))]> (mem w)) w))
      as [m' Hm'].
    rewrite Hm'. exists m'. reflexivity.
Qed.

Lemma boot_step_run_intro (m : M unit) (f : string) :
  (∀ w, ∃ w', m w = (Done tt, w') ∧ trace w' = trace w ++ [Call f] ∧ rets w' = rets w) ->
  boot_step_run m f.
Proof.
  intros H w. destruct (H w) as (w' & Hrun & Htrace & Hrets).
  unfold emits, outcome, run. rewrite Hrun. simpl. auto.
Qed.

Lemma mbed_cpy_nvic_boot_step : boot_step_run mbed_cpy_nvic "mbed_cpy_nvic".
Proof.
  apply boot_step_run_intro. intros w. unfold mbed_cpy_nvic.
  destruct CORTEX_M0_or_A9; [eexists; repeat split|].
  destruct NVIC_RAM_VECTOR_ADDRESS as [ram_vectors|]; [|eexists; repeat split].
  set (w1 := set_trace (trace w ++ [Call "mbed_cpy_nvic"]) w).
  destruct (copy_vectors_run (SCB_VTOR w1) (wrap32 ram_vectors) NVIC_NUM_VECTORS 0 w1)
    as [m' Hm'].
  exists (set_SCB_VTOR (wrap32 ram_vectors) (set_mem m' w1)).
  split; [|split; reflexivity].
  rewrite bind_unfold. change (call "mbed_cpy_nvic" w) with (Done tt, w1). cbv iota beta.
  rewrite bind_unfold. change (read SCB_VTOR w1) with (Done (SCB_VTOR w1), w1).
  cbv iota beta. rewrite bind_unfold, Hm'. reflexivity.
Qed.

Lemma cpy_nvic_unless_uvisor_emits (w : world) :
  emits cpy_nvic_unless_uvisor w (Done tt)
    (if uvisor_owns_vectors then [] else [Call "mbed_cpy_nvic"]) ∧
  rets (run cpy_nvic_unless_uvisor w) = rets w.
Proof.
  unfold cpy_nvic_unless_uvisor. destruct uvisor_owns_vectors.
  - split; [apply emits_ret | reflexivity].
  - apply mbed_cpy_nvic_boot_step.
Qed.

End Sequencing.

(** ** The kernel bootstrap *)

Section Bootstrap.
Context `{cfg : Config}.

(** What [mbed_start_main] does, by the answer of [osThreadNew]. *)
Lemma mbed_start_main_emits (w : world) :
  let attr := {| t_stack_mem := addr sym__main_stack;
                 t_stack_size := MBED_CONF_APP_MAIN_STACK_SIZE;
                 t_cb_size := sizeof_thread_storage;
                 t_cb_mem := addr sym__main_obj;
                 t_priority := osPriorityNormal;
                 t_name := Some "main_thread" |} in
  if decide (next_ret "osThreadNew" w = NULL)
  then emits mbed_start_main w NoReturn
         [Call "mbed_start_main"; ThreadNew (addr sym_pre_main) NULL attr;
          Error "Pre main thread not created"]
  else emits mbed_start_main w (Done tt)
         [Call "mbed_start_main"; ThreadNew (addr sym_pre_main) NULL attr;
          Call "osKernelStart"].
Proof.
  intros attr. subst attr. unfold next_ret, emits, outcome, run, mbed_start_main.
  destruct w. exec.
  destruct (decide _) as [Hnull | Hnull]; exec;
    (split; [reflexivity|]); rewrite <- ?app_assoc; reflexivity.
Qed.

(** [mbed_start_main] is one boot step, whatever the kernel answers. *)
Lemma mbed_start_main_boot_steps (w : world) :
  ∃ r t, emits mbed_start_main w r t ∧ boot_steps t = [StartMain].
Proof.
  pose proof (mbed_start_main_emits w) as H. cbv zeta in H.
  destruct (decide _); eexists _, _; (split; [exact H | reflexivity]).
Qed.

Lemma emits_seq {B} (m : M unit) (k : M B) (w : world) t1 r t2 :
  emits m w (Done tt) t1 ->
  emits k (run m w) r t2 ->
  emits (m;; k) w r (t1 ++ t2).
Proof. intros Hm Hk. exact (emits_bind_done m (fun _ => k) w tt t1 r t2 Hm Hk). Qed.

Lemma emits_then_halt (m : M unit) (w : world) r t :
  emits m w r t -> emits (m;; halt (A := unit)) w NoReturn t.
Proof.
  intros H. destruct r as [[]|].
  - rewrite <- (app_nil_r t). eapply emits_seq; [exact H | apply emits_halt].
  - apply emits_bind_stop. exact H.
Qed.

Lemma boot_steps_app (t1 t2 : list event) :
  boot_steps (t1 ++ t2) = boot_steps t1 ++ boot_steps t2.
Proof. apply omap_app. Qed.

Lemma boot_steps_relocator :
  boot_steps (if uvisor_owns_vectors then [] else [Call "mbed_cpy_nvic"]) = relocator_steps.
Proof. unfold relocator_steps. destruct uvisor_owns_vectors; reflexivity. Qed.

Lemma mbed_sdk_init_boot_step : boot_step_run mbed_sdk_init "mbed_sdk_init".
Proof. apply call_boot_step. Qed.

Lemma osKernelInitialize_boot_step : boot_step_run osKernelInitialize "osKernelInitialize".
Proof. apply call_boot_step. Qed.

(** The steps of [_main_init]. *)
Lemma MICROLIB_main_init_steps (w : world) :
  boot_steps (events MICROLIB._main_init w) = claimed_boot_order.
Proof.
  unfold MICROLIB._main_init.
  set (w1 := run mbed_set_stack_heap w).
  set (w2 := run cpy_nvic_unless_uvisor w1).
  set (w3 := run mbed_sdk_init w2).
  set (w4 := run osKernelInitialize w3).
  destruct (mbed_start_main_boot_steps w4) as (r & t & Hstart & Hsteps).
  pose proof (emits_then_halt _ _ _ _ Hstart) as H5.
  pose proof (emits_after_step _ _ _ w3 _ _ osKernelInitialize_boot_step H5) as H4.
  pose proof (emits_after_step _ _ _ w2 _ _ mbed_sdk_init_boot_step H4) as H3.
  pose proof (emits_seq _ _ w1 _ _ _ (proj1 (cpy_nvic_unless_uvisor_emits w1)) H3) as H2.
  pose proof (emits_after_step _ _ _ w _ _ mbed_set_stack_heap_boot_step H2) as H1.
  rewrite (emits_events _ _ _ _ H1).
  change (Call "mbed_set_stack_heap" :: ?l) with ([Call "mbed_set_stack_heap"] ++ l).
  change (Call "mbed_sdk_init" :: Call "osKernelInitialize" :: t)
    with ([Call "mbed_sdk_init"; Call "osKernelInitialize"] ++ t).
  rewrite !boot_steps_app, boot_steps_relocator, Hsteps. reflexivity.
Qed.

Lemma emits_store (f : world -> world) (w : world) :
  trace (f w) = trace w -> emits (store f) w (Done tt) [].
Proof.
  intros H. split; [reflexivity|]. unfold run, store. simpl. rewrite H.
  symmetry. apply app_nil_r.
Qed.

Lemma platform_post_stackheap_init_emits (w : world) :
  emits ARMC._platform_post_stackheap_init w (Done tt)
    [Call "_platform_post_stackheap_init"; Call "osKernelInitialize"].
Proof.
  unfold ARMC._platform_post_stackheap_init.
  exact (emits_seq _ _ w _ _ _ (emits_call _ w) (emits_call _ _)).
Qed.

(** The steps of [__rt_entry]. *)
Lemma ARMC_rt_entry_steps (w : world) :
  boot_steps (events ARMC.__rt_entry w) = claimed_boot_order.
Proof.
  unfold ARMC.__rt_entry.
  set (w0 := run (call "__user_setup_stackheap") w).
  set (w1 := run mbed_set_stack_heap w0).
  set (w2 := run cpy_nvic_unless_uvisor w1).
  set (w3 := run mbed_sdk_init w2).
  set (w4 := run ARMC._platform_post_stackheap_init w3).
  destruct (mbed_start_main_boot_steps w4) as (r & t & Hstart & Hsteps).
  pose proof (emits_seq _ _ w3 _ _ _ (platform_post_stackheap_init_emits w3) Hstart) as H4.
  pose proof (emits_after_step _ _ _ w2 _ _ mbed_sdk_init_boot_step H4) as H3.
  pose proof (emits_seq _ _ w1 _ _ _ (proj1 (cpy_nvic_unless_uvisor_emits w1)) H3) as H2.
  pose proof (emits_after_step _ _ _ w0 _ _ mbed_set_stack_heap_boot_step H2) as H1.
  pose proof (emits_after_step _ _ _ w _ _ (call_boot_step "__user_setup_stackheap") H1) as H0.
  rewrite (emits_events _ _ _ _ H0).
  change (Call "__user_setup_stackheap" :: Call "mbed_set_stack_heap" :: ?l)
    with ([Call "__user_setup_stackheap"; Call "mbed_set_stack_heap"] ++ l).
  change (Call "mbed_sdk_init" :: ?l) with ([Call "mbed_sdk_init"] ++ l).
  rewrite !boot_steps_app, boot_steps_relocator, Hsteps. reflexivity.
Qed.

(** The uVisor check of [software_init_hook] (lines 496-503). *)
Lemma uvisor_check_emits (w : world) :
  ∃ t,
    emits (if FEATURE_UVISOR then
             return_code ← GCC.uvisor_lib_init;
             if decide (return_code = 0) then mret tt else mbed_die
           else mret tt) w
          (if FEATURE_UVISOR && negb (bool_decide (next_ret "uvisor_lib_init" w = 0))
           then NoReturn else Done tt) t ∧
    boot_steps t = [].
Proof.
  destruct FEATURE_UVISOR; simpl.
  - unfold GCC.uvisor_lib_init.
    destruct (decide (next_ret "uvisor_lib_init" w = 0)) as [Hz | Hnz].
    + rewrite bool_decide_eq_true_2 by exact Hz. simpl.
      exists ([Call "uvisor_lib_init"] ++ []). split; [|reflexivity].
      eapply emits_bind_done; [apply emits_extern|].
      destruct (decide _); [apply emits_ret | contradiction].
    + rewrite bool_decide_eq_false_2 by exact Hnz. simpl.
      exists ([Call "uvisor_lib_init"] ++ [Call "mbed_die"]). split; [|reflexivity].
      eapply emits_bind_done; [apply emits_extern|].
      destruct (decide _); [contradiction|].
      unfold mbed_die. split; reflexivity.
  - exists []. split; [apply emits_ret | reflexivity].
Qed.

(** The steps of [software_init_hook]. *)
Lemma GCC_software_init_hook_steps (w : world) :
  boot_steps (events GCC.software_init_hook w) =
    if FEATURE_UVISOR && negb (bool_decide (next_ret "uvisor_lib_init" w = 0))
    then [SetStackHeap] ++ relocator_steps ++ [SdkInit; KernelInit]
    else claimed_boot_order.
Proof.
  unfold GCC.software_init_hook.
  set (w1 := run mbed_set_stack_heap w).
  set (w2 := run cpy_nvic_unless_uvisor w1).
  set (w3 := run mbed_sdk_init w2).
  set (w4 := run osKernelInitialize w3).
  assert (Hrets : next_ret "uvisor_lib_init" w4 = next_ret "uvisor_lib_init" w).
  { unfold next_ret. f_equal. f_equal. f_equal. subst w4 w3 w2 w1.
    rewrite (proj2 (osKernelInitialize_boot_step _)), (proj2 (mbed_sdk_init_boot_step _)),
      (proj2 (cpy_nvic_unless_uvisor_emits _)), (proj2 (mbed_set_stack_heap_boot_step _)).
    reflexivity. }
  destruct (uvisor_check_emits w4) as (tg & Hgate & Hgsteps). rewrite Hrets in Hgate.
  assert (Hrest : ∃ t, emits
            ((if FEATURE_UVISOR then
                return_code ← GCC.uvisor_lib_init;
                if decide (return_code = 0) then mret tt else mbed_die
              else mret tt);; mbed_start_main) w4
            (if FEATURE_UVISOR && negb (bool_decide (next_ret "uvisor_lib_init" w = 0))
             then NoReturn else outcome mbed_start_main
               (run (if FEATURE_UVISOR then
                       return_code ← GCC.uvisor_lib_init;
                       if decide (return_code = 0) then mret tt else mbed_die
                     else mret tt) w4)) t ∧
            boot_steps t =
              if FEATURE_UVISOR && negb (bool_decide (next_ret "uvisor_lib_init" w = 0))
              then [] else [StartMain]).
  { destruct (FEATURE_UVISOR && negb (bool_decide (next_ret "uvisor_lib_init" w = 0))).
    - exists tg. split; [apply emits_bind_stop; exact Hgate | exact Hgsteps].
    - match goal with
      | |- context [outcome mbed_start_main ?w5] =>
          destruct (mbed_start_main_boot_steps w5) as (r & t & Hstart & Hsteps)
      end.
      exists (tg ++ t). split.
      + destruct Hstart as [Hout Htr]. rewrite Hout.
        exact (emits_seq _ _ w4 _ _ _ Hgate (conj Hout Htr)).
      + rewrite boot_steps_app, Hgsteps, Hsteps. reflexivity. }
  destruct Hrest as (t & Hrest & Hsteps).
  pose proof (emits_after_step _ _ _ w3 _ _ osKernelInitialize_boot_step Hrest) as H4.
  pose proof (emits_after_step _ _ _ w2 _ _ mbed_sdk_init_boot_step H4) as H3.
  pose proof (emits_seq _ _ w1 _ _ _ (proj1 (cpy_nvic_unless_uvisor_emits w1)) H3) as H2.
  pose proof (emits_after_step _ _ _ w _ _ mbed_set_stack_heap_boot_step H2) as H1.
  rewrite (emits_events _ _ _ _ H1).
  change (Call "mbed_set_stack_heap" :: ?l) with ([Call "mbed_set_stack_heap"] ++ l).
  change (Call "mbed_sdk_init" :: Call "osKernelInitialize" :: t)
    with ([Call "mbed_sdk_init"; Call "osKernelInitialize"] ++ t).
  rewrite !boot_steps_app, boot_steps_relocator, Hsteps.
  destruct (FEATURE_UVISOR && negb (bool_decide (next_ret "uvisor_lib_init" w = 0)));
    reflexivity.
Qed.

(** The part of [__iar_program_start] that [__low_level_init] guards. *)
Lemma iar_guarded_part_emits (needed : Z) (w : world) :
  ∃ t,
    emits (if decide (needed = 0) then mret tt
           else call "__iar_data_init3";; cpy_nvic_unless_uvisor;; mbed_sdk_init)
          w (Done tt) t ∧
    boot_steps t = if decide (needed = 0) then [] else relocator_steps ++ [SdkInit].
Proof.
  destruct (decide (needed = 0)).
  - exists []. split; [apply emits_ret | reflexivity].
  - set (w1 := run (call "__iar_data_init3") w).
    set (w2 := run cpy_nvic_unless_uvisor w1).
    pose proof (proj1 (mbed_sdk_init_boot_step w2)) as H3.
    pose proof (emits_seq _ _ w1 _ _ _ (proj1 (cpy_nvic_unless_uvisor_emits w1)) H3) as H2.
    pose proof (emits_after_step _ _ _ w _ _ (call_boot_step "__iar_data_init3") H2) as H1.
    eexists. split; [exact H1|].
    change (Call "__iar_data_init3" :: ?l) with ([Call "__iar_data_init3"] ++ l).
    rewrite !boot_steps_app, boot_steps_relocator. reflexivity.
Qed.

(** The end of [__iar_program_start], from [mbed_set_stack_heap] on. *)
Lemma iar_tail_emits (needed : Z) (w : world) :
  ∃ r t,
    emits (mbed_set_stack_heap;; store (set_low_level_init_needed needed);;
           osKernelInitialize;; mbed_start_main) w r t ∧
    boot_steps t = [SetStackHeap; KernelInit; StartMain].
Proof.
  set (w1 := run mbed_set_stack_heap w).
  set (w2 := run (store (set_low_level_init_needed needed)) w1).
  set (w3 := run osKernelInitialize w2).
  destruct (mbed_start_main_boot_steps w3) as (r & t & Hstart & Hsteps).
  pose proof (emits_after_step _ _ _ w2 _ _ osKernelInitialize_boot_step Hstart) as H3.
  pose proof (emits_seq _ _ w1 _ _ _
                (emits_store (set_low_level_init_needed needed) w1 eq_refl) H3) as H2.
  pose proof (emits_after_step _ _ _ w _ _ mbed_set_stack_heap_boot_step H2) as H1.
  exists r. eexists. split; [exact H1|].
  change (Call "mbed_set_stack_heap" :: [] ++ Call "osKernelInitialize" :: t)
    with ([Call "mbed_set_stack_heap"; Call "osKernelInitialize"] ++ t).
  rewrite boot_steps_app, Hsteps. reflexivity.
Qed.

(** The steps of [__iar_program_start]. *)
Lemma IAR_program_start_steps (w : world) :
  boot_steps (events IAR.__iar_program_start w) =
    (if decide (next_ret "__low_level_init" w mod 2 ^ 8 = 0) then []
     else relocator_steps ++ [SdkInit]) ++ [SetStackHeap; KernelInit; StartMain].
Proof.
  set (w0 := run (call "__iar_init_core") w).
  set (w1 := run (call "__iar_init_vfp") w0).
  set (w2 := run IAR.__low_level_init w1).
  set (needed := next_ret "__low_level_init" w mod 2 ^ 8).
  destruct (iar_guarded_part_emits needed w2) as (tg & Hguard & Hgsteps).
  match type of Hguard with
  | emits ?m _ _ _ => set (w3 := run m w2)
  end.
  destruct (iar_tail_emits needed w3) as (r & t & Htail & Htsteps).
  pose proof (emits_seq _ _ w2 _ _ _ Hguard Htail) as H2.
  assert (Hlow : emits IAR.__low_level_init w1 (Done (next_ret "__low_level_init" w))
                   [Call "__low_level_init"])
    by (split; reflexivity).
  assert (H : emits IAR.__iar_program_start w r
                ([Call "__iar_init_core"; Call "__iar_init_vfp"; Call "__low_level_init"]
                   ++ tg ++ t)).
  { unfold IAR.__iar_program_start.
    eapply (emits_after_step _ _ _ w); [apply call_boot_step|].
    eapply (emits_after_step _ _ _ w0); [apply call_boot_step|].
    apply (emits_bind_done _ _ w1 _ [Call "__low_level_init"] r (tg ++ t) Hlow).
    exact H2. }
  fold IAR.__iar_program_start. rewrite (emits_events _ _ _ _ H).
  rewrite !boot_steps_app, Hgsteps, Htsteps. reflexivity.
Qed.

Lemma claimed_boot_order_sorted : in_boot_order claimed_boot_order.
Proof.
  unfold in_boot_order, claimed_boot_order, relocator_steps.
  destruct uvisor_owns_vectors; simpl;
    repeat (constructor; simpl; repeat (constructor; try lia)).
Qed.

(** C3, amended. The GCC, ARM and MICROLIB entry routines run the boot
    steps in the order resolver, relocator (unless uVisor owns the vector
    table), SDK hook, kernel initialization, [mbed_start_main], an order in
    which no step comes before one that must precede it; the GCC routine
    stops after kernel initialization when uVisor is enabled and
    [uvisor_lib_init] fails. The IAR routine runs the relocator and the SDK
    hook first, and only when [__low_level_init] answers non-zero (as a
    [uint8_t]); the resolver comes after them, followed by kernel
    initialization and [mbed_start_main]. *)
Theorem entry_routines_boot_order (w : world) :
  boot_steps (events MICROLIB._main_init w) = claimed_boot_order ∧
  boot_steps (events ARMC.__rt_entry w) = claimed_boot_order ∧
  boot_steps (events GCC.software_init_hook w) =
    (if FEATURE_UVISOR && negb (bool_decide (next_ret "uvisor_lib_init" w = 0))
     then [SetStackHeap] ++ relocator_steps ++ [SdkInit; KernelInit]
     else claimed_boot_order) ∧
  boot_steps (events IAR.__iar_program_start w) =
    (if decide (next_ret "__low_level_init" w mod 2 ^ 8 = 0) then []
     else relocator_steps ++ [SdkInit]) ++ [SetStackHeap; KernelInit; StartMain] ∧
  in_boot_order claimed_boot_order.
Proof.
  split; [apply MICROLIB_main_init_steps|].
  split; [apply ARMC_rt_entry_steps|].
  split; [apply GCC_software_init_hook_steps|].
  split; [apply IAR_program_start_steps | apply claimed_boot_order_sorted].
Qed.

(** C4. In every run of [mbed_start_main]: when [osThreadNew] answers a
    null handle, the fatal-error reporter is called exactly once, with the
    message "Pre main thread not created", [osKernelStart] is not called
    and the routine does not return; when it answers a handle, the
    reporter is not called and [osKernelStart] is called exactly once. *)
Theorem mbed_start_main_thread_creation (w : world) :
  let t := events mbed_start_main w in
  if decide (next_ret "osThreadNew" w = NULL)
  then reported t = ["Pre main thread not created"] ∧
       calls "osKernelStart" t = 0%nat ∧
       outcome mbed_start_main w = NoReturn
  else reported t = [] ∧
       calls "osKernelStart" t = 1%nat ∧
       outcome mbed_start_main w = Done tt.
Proof.
  intros t. subst t.
  pose proof (mbed_start_main_emits w) as H. cbv zeta in H.
  destruct (decide (next_ret "osThreadNew" w = NULL)) as [Hnull | Hnull];
    rewrite (emits_events _ _ _ _ H); destruct H as [Hout _]; rewrite Hout; repeat split.
Qed.

End Bootstrap.

(** ** The per-thread reentrancy accessor *)

Section Libspace.
Context `{cfg : Config}.

(** The loop, as a function of the id table. *)
Lemma libspace_scan_run (id : Z) (fuel : nat) :
  ∀ (n : nat) (w : world),
    GCC.libspace_scan id fuel n w =
      match find_slot (os_libspace_id w) id fuel n with
      | Some k => (Done (inl (os_libspace_at k)), claim_slot id k w)
      | None => (Done (inr (n + fuel)%nat), w)
      end.
Proof.
  induction fuel as [| fuel IH]; intros n w; simpl.
  - rewrite Nat.add_0_r. reflexivity.
  - rewrite bind_unfold. unfold read at 1. cbv iota beta.
    unfold claim_slot.
    destruct (decide (os_libspace_id w !!! n = NULL)) as [Hfree | Hused].
    + rewrite decide_True by exact Hfree. reflexivity.
    + rewrite bind_unfold. unfold read at 1. cbv iota beta.
      destruct (decide (os_libspace_id w !!! n = id)) as [Hmine | Hother].
      * rewrite decide_False by exact Hused. reflexivity.
      * rewrite IH. replace (S n + fuel)%nat with (n + S fuel)%nat by lia. reflexivity.
Qed.

(** The accessor, as a function of the state. *)
Lemma user_perthread_libspace_run (id : Z) (w : world) :
  GCC.__user_perthread_libspace id w =
    if decide (main_running w = 0) then (Done _global_impure_ptr, w)
    else if decide (id = addr sym__main_obj) then (Done _global_impure_ptr, w)
    else match find_slot (os_libspace_id w) id OS_THREAD_LIBSPACE_NUM 0 with
         | Some k => (Done (os_libspace_at k), claim_slot id k w)
         | None => (Done _global_impure_ptr,
                    set_trace (trace w ++ [ErrorNotify osRtxErrorClibSpace id]) w)
         end.
Proof.
  unfold GCC.__user_perthread_libspace.
  rewrite bind_unfold. unfold read at 1. cbv iota beta.
  destruct (decide (main_running w = 0)); [reflexivity|].
  destruct (decide (id = addr sym__main_obj)); [reflexivity|].
  rewrite bind_unfold, libspace_scan_run.
  destruct (find_slot (os_libspace_id w) id OS_THREAD_LIBSPACE_NUM 0); [reflexivity|].
  simpl. rewrite decide_True by reflexivity. reflexivity.
Qed.

(** Where the loop stops, and what it has passed over. *)
Lemma find_slot_Some (table : list Z) (id : Z) (fuel : nat) :
  ∀ n k, find_slot table id fuel n = Some k ->
    (n <= k < n + fuel)%nat ∧
    (table !!! k = NULL ∨ table !!! k = id) ∧
    ∀ j, (n <= j < k)%nat -> table !!! j ≠ NULL ∧ table !!! j ≠ id.
Proof.
  induction fuel as [| fuel IH]; intros n k; simpl; [discriminate|].
  destruct (decide (table !!! n = NULL)) as [Hfree | Hused].
  - intros [= <-]. split; [lia|]. split; [left; exact Hfree|]. intros j Hj. lia.
  - destruct (decide (table !!! n = id)) as [Hmine | Hother].
    + intros [= <-]. split; [lia|]. split; [right; exact Hmine|]. intros j Hj. lia.
    + intros Hfind. destruct (IH _ _ Hfind) as (Hrange & Hk & Hbefore).
      split; [lia|]. split; [exact Hk|].
      intros j Hj. destruct (decide (j = n)) as [-> | Hne]; [auto|].
      apply Hbefore. lia.
Qed.

Lemma find_slot_None (table : list Z) (id : Z) (fuel : nat) :
  ∀ n, find_slot table id fuel n = None ->
    ∀ j, (n <= j < n + fuel)%nat -> table !!! j ≠ NULL ∧ table !!! j ≠ id.
Proof.
  induction fuel as [| fuel IH]; intros n; simpl; [intros _ j Hj; lia|].
  destruct (decide (table !!! n = NULL)) as [Hfree | Hused]; [discriminate|].
  destruct (decide (table !!! n = id)) as [Hmine | Hother]; [discriminate|].
  intros Hfind j Hj. destruct (decide (j = n)) as [-> | Hne]; [auto|].
  apply (IH _ Hfind). lia.
Qed.

(** The first slot that is free or holds [id] is where the loop stops. *)
Lemma find_slot_first (table : list Z) (id : Z) (fuel : nat) :
  ∀ n k, (n <= k < n + fuel)%nat ->
    (table !!! k = NULL ∨ table !!! k = id) ->
    (∀ j, (n <= j < k)%nat -> table !!! j ≠ NULL ∧ table !!! j ≠ id) ->
    find_slot table id fuel n = Some k.
Proof.
  induction fuel as [| fuel IH]; intros n k Hrange Hk Hbefore; simpl; [lia|].
  destruct (decide (n = k)) as [-> | Hne].
  - destruct Hk as [Hk | Hk].
    + rewrite decide_True by exact Hk. reflexivity.
    + destruct (decide (table !!! k = NULL)); [reflexivity|].
      rewrite decide_True by exact Hk. reflexivity.
  - destruct (Hbefore n ltac:(lia)) as [Hused Hother].
    rewrite decide_False by exact Hused. rewrite decide_False by exact Hother.
    apply IH; [lia | exact Hk |]. intros j Hj. apply Hbefore. lia.
Qed.

Lemma find_slot_none (table : list Z) (id : Z) (fuel : nat) :
  ∀ n, (∀ j, (n <= j < n + fuel)%nat -> table !!! j ≠ NULL ∧ table !!! j ≠ id) ->
    find_slot table id fuel n = None.
Proof.
  induction fuel as [| fuel IH]; intros n Hall; simpl; [reflexivity|].
  destruct (Hall n ltac:(lia)) as [Hused Hother].
  rewrite decide_False by exact Hused. rewrite decide_False by exact Hother.
  apply IH. intros j Hj. apply Hall. lia.
Qed.

Lemma claim_slot_table (id : Z) (k : nat) (w : world) :
  os_libspace_id (claim_slot id k w) =
    if decide (os_libspace_id w !!! k = NULL) then <[k := id]> (os_libspace_id w)
    else os_libspace_id w.
Proof. unfold claim_slot. destruct (decide _); reflexivity. Qed.

Lemma claim_slot_main_running (id : Z) (k : nat) (w : world) :
  main_running (claim_slot id k w) = main_running w.
Proof. unfold claim_slot. destruct (decide _); reflexivity. Qed.

(** The accessor always returns. *)
Lemma user_perthread_libspace_returns (id : Z) (w : world) :
  ∃ p, outcome (GCC.__user_perthread_libspace id) w = Done p.
Proof.
  unfold outcome. rewrite user_perthread_libspace_run.
  repeat destruct (decide _); [eexists; reflexivity..|].
  destruct (find_slot _ _ _ _); eexists; reflexivity.
Qed.

Lemma user_perthread_libspace_main_running (id : Z) (w : world) :
  main_running (run (GCC.__user_perthread_libspace id) w) = main_running w.
Proof.
  unfold run. rewrite user_perthread_libspace_run.
  repeat destruct (decide _); [reflexivity..|].
  destruct (find_slot _ _ _ _); [apply claim_slot_main_running | reflexivity].
Qed.

(** A claimed slot is never released nor given to another identity. *)
Lemma claimed_slot_kept (id : Z) (w : world) (j : nat) :
  os_libspace_id w !!! j ≠ NULL ->
  os_libspace_id (run (GCC.__user_perthread_libspace id) w) !!! j = os_libspace_id w !!! j.
Proof.
  intros Hclaimed. unfold run. rewrite user_perthread_libspace_run.
  repeat destruct (decide _); [reflexivity..|].
  destruct (find_slot _ _ _ _) as [k|] eqn:Hfind; [|reflexivity].
  simpl. rewrite claim_slot_table.
  destruct (decide (os_libspace_id w !!! k = NULL)) as [Hfree | Hused]; [|reflexivity].
  apply list_lookup_total_insert_ne. intros ->. contradiction.
Qed.

(** In a full table the loop runs to its end for an identity not in it. *)
Lemma find_slot_full (w : world) (id : Z) :
  table_full w -> id ∉ os_libspace_id w ->
  find_slot (os_libspace_id w) id OS_THREAD_LIBSPACE_NUM 0 = None.
Proof.
  intros [Hlen Hall] Hnew. apply find_slot_none. intros j Hj.
  assert (Hlt : (j < length (os_libspace_id w))%nat) by lia.
  destruct (lookup_lt_is_Some_2 _ _ Hlt) as [x Hx].
  rewrite (list_lookup_total_correct _ _ _ Hx). split.
  - exact (proj1 (Forall_lookup _ _) Hall _ _ Hx).
  - intros ->. apply Hnew. exact (list_elem_of_lookup_2 _ _ _ Hx).
Qed.

(** C6. When the scheduler has started, every slot of the table is
    claimed (whether or not by distinct identities) and an identity that
    is neither the main thread's nor in the table asks for its state, the
    accessor calls [osRtxErrorNotify(osRtxErrorClibSpace, id)], once and
    nothing else, and returns [_global_impure_ptr]; the identities and the
    states of the slots are left as they were. *)
Theorem user_perthread_libspace_table_full (id : Z) (w : world) :
  main_running w ≠ 0 ->
  id ≠ addr sym__main_obj ->
  table_full w ->
  id ∉ os_libspace_id w ->
  let w' := run (GCC.__user_perthread_libspace id) w in
  outcome (GCC.__user_perthread_libspace id) w = Done _global_impure_ptr ∧
  events (GCC.__user_perthread_libspace id) w = [ErrorNotify osRtxErrorClibSpace id] ∧
  os_libspace_id w' = os_libspace_id w ∧
  os_libspace w' = os_libspace w.
Proof.
  intros Hrunning Hmain Hfull Hnew w'. subst w'.
  unfold outcome, events, run. rewrite user_perthread_libspace_run.
  rewrite decide_False by exact Hrunning. rewrite decide_False by exact Hmain.
  rewrite (find_slot_full w id Hfull Hnew). simpl.
  repeat split. apply drop_app_length.
Qed.

(** After the loop has stopped at slot [k], it stops there again. *)
Lemma find_slot_after_claim (table : list Z) (id : Z) (fuel n k : nat) :
  find_slot table id fuel n = Some k ->
  find_slot (if decide (table !!! k = NULL) then <[k := id]> table else table) id fuel n
    = Some k.
Proof.
  intros Hfind. destruct (find_slot_Some _ _ _ _ _ Hfind) as (Hrange & Hk & Hbefore).
  apply find_slot_first; [exact Hrange| |].
  - destruct (decide (table !!! k = NULL)) as [Hfree | Hused]; [|exact Hk].
    rewrite list_lookup_total_insert. destruct (decide _); [right; reflexivity | left; exact Hfree].
  - intros j Hj. destruct (decide (table !!! k = NULL)); [|apply Hbefore; exact Hj].
    rewrite list_lookup_total_insert_ne by lia. apply Hbefore. exact Hj.
Qed.

Lemma claim_slot_twice (id : Z) (k : nat) (w : world) :
  os_libspace_id (claim_slot id k (claim_slot id k w)) = os_libspace_id (claim_slot id k w) ∧
  os_libspace (claim_slot id k (claim_slot id k w)) = os_libspace (claim_slot id k w).
Proof.
  unfold claim_slot.
  destruct (decide (os_libspace_id w !!! k = NULL)) as [Hfree | Hused].
  - simpl. destruct (decide _); simpl; [|split; reflexivity].
    rewrite !list_insert_insert_eq. split; reflexivity.
  - rewrite decide_False by exact Hused. split; reflexivity.
Qed.

(** What the accessor answers once the scheduler runs, for an identity
    other than the main thread's. *)
Lemma user_perthread_libspace_outcome (id : Z) (w : world) :
  main_running w ≠ 0 -> id ≠ addr sym__main_obj ->
  outcome (GCC.__user_perthread_libspace id) w =
    Done (match find_slot (os_libspace_id w) id OS_THREAD_LIBSPACE_NUM 0 with
          | Some k => os_libspace_at k
          | None => _global_impure_ptr
          end).
Proof.
  intros Hrunning Hmain. unfold outcome. rewrite user_perthread_libspace_run.
  rewrite decide_False by exact Hrunning. rewrite decide_False by exact Hmain.
  destruct (find_slot _ _ _ _); reflexivity.
Qed.

(** Two calls in a row. *)
Lemma user_perthread_libspace_twice (id : Z) (w : world) :
  let w1 := run (GCC.__user_perthread_libspace id) w in
  let w2 := run (GCC.__user_perthread_libspace id) w1 in
  outcome (GCC.__user_perthread_libspace id) w1 = outcome (GCC.__user_perthread_libspace id) w ∧
  os_libspace_id w2 = os_libspace_id w1 ∧
  os_libspace w2 = os_libspace w1.
Proof.
  intros w1 w2. subst w2 w1. unfold outcome, run.
  rewrite (user_perthread_libspace_run id w).
  destruct (decide (main_running w = 0)) as [Hstopped | Hrunning].
  { simpl. rewrite user_perthread_libspace_run, decide_True by exact Hstopped. auto. }
  destruct (decide (id = addr sym__main_obj)) as [Hmain | Hother].
  { simpl. rewrite user_perthread_libspace_run, decide_False by exact Hrunning.
    rewrite decide_True by exact Hmain. auto. }
  destruct (find_slot (os_libspace_id w) id OS_THREAD_LIBSPACE_NUM 0) as [k|] eqn:Hfind; simpl.
  - rewrite user_perthread_libspace_run, claim_slot_main_running.
    rewrite decide_False by exact Hrunning. rewrite decide_False by exact Hother.
    pose proof (find_slot_after_claim _ _ _ _ _ Hfind) as Hagain.
    rewrite <- claim_slot_table in Hagain. rewrite Hagain. simpl.
    split; [reflexivity | apply claim_slot_twice].
  - rewrite user_perthread_libspace_run. simpl.
    rewrite decide_False by exact Hrunning. rewrite decide_False by exact Hother.
    rewrite Hfind. simpl. auto.
Qed.

(** Calls by any identities keep the claimed slots and [main_running]. *)
Lemma libspace_calls_keep (ids : list Z) :
  ∀ w : world,
    main_running (run (libspace_calls ids) w) = main_running w ∧
    ∀ j, os_libspace_id w !!! j ≠ NULL ->
         os_libspace_id (run (libspace_calls ids) w) !!! j = os_libspace_id w !!! j.
Proof.
  induction ids as [| id' ids IH]; intros w; simpl.
  - split; [reflexivity | intros; reflexivity].
  - destruct (user_perthread_libspace_returns id' w) as [p Hp].
    rewrite (run_bind_done _ _ _ _ Hp).
    destruct (IH (run (GCC.__user_perthread_libspace id') w)) as [Hrun Hkept].
    split.
    + rewrite Hrun. apply user_perthread_libspace_main_running.
    + intros j Hj. rewrite Hkept; rewrite claimed_slot_kept; auto.
Qed.

(** A slot that holds [id] stays the answer when other slots get claimed. *)
Lemma find_slot_settled (table table' : list Z) (id : Z) (fuel n : nat) :
  (∀ j, table !!! j ≠ NULL -> table' !!! j = table !!! j) ->
  match find_slot table id fuel n with
  | Some k => table !!! k ≠ NULL
  | None => True
  end ->
  find_slot table' id fuel n = find_slot table id fuel n.
Proof.
  intros Hkept. destruct (find_slot table id fuel n) as [k|] eqn:Hfind; intros Hclaimed.
  - destruct (find_slot_Some _ _ _ _ _ Hfind) as (Hrange & Hk & Hbefore).
    apply find_slot_first; [exact Hrange| |].
    + rewrite (Hkept _ Hclaimed). exact Hk.
    + intros j Hj. destruct (Hbefore j Hj) as [Hused Hother].
      rewrite (Hkept _ Hused). auto.
  - apply find_slot_none. intros j Hj.
    destruct (find_slot_None _ _ _ _ Hfind j Hj) as [Hused Hother].
    rewrite (Hkept _ Hused). auto.
Qed.

(** C5. (a) For the main thread's identity, and for any identity while
    [main_running] is still 0, the accessor returns [_global_impure_ptr]
    and leaves the whole state as it was, whatever the slot table holds: the
    table is neither read nor written. (b) A second call in a row with the
    same identity returns what the first returned and leaves the identities
    and the states of the slots as the first call left them. (c) For a
    non-null identity and a table of [OS_THREAD_LIBSPACE_NUM] entries, a
    later call returns what the first returned whatever calls, by whatever
    identities, came in between. *)
Theorem user_perthread_libspace_same_instance (id : Z) (w : world) :
  (main_running w = 0 ∨ id = addr sym__main_obj ->
   GCC.__user_perthread_libspace id w = (Done _global_impure_ptr, w)) ∧
  (let w1 := run (GCC.__user_perthread_libspace id) w in
   let w2 := run (GCC.__user_perthread_libspace id) w1 in
   outcome (GCC.__user_perthread_libspace id) w1
     = outcome (GCC.__user_perthread_libspace id) w ∧
   os_libspace_id w2 = os_libspace_id w1 ∧
   os_libspace w2 = os_libspace w1) ∧
  (id ≠ NULL -> length (os_libspace_id w) = OS_THREAD_LIBSPACE_NUM ->
   ∀ others : list Z,
     outcome (GCC.__user_perthread_libspace id)
       (run (libspace_calls others) (run (GCC.__user_perthread_libspace id) w))
     = outcome (GCC.__user_perthread_libspace id) w).
Proof.
  split; [|split].
  - intros Hearly. rewrite user_perthread_libspace_run.
    destruct (decide (main_running w = 0)); [reflexivity|].
    destruct Hearly as [Hstopped | Hmain]; [contradiction|].
    rewrite decide_True by exact Hmain. reflexivity.
  - apply user_perthread_libspace_twice.
  - intros Hid Hlen others.
    set (w1 := run (GCC.__user_perthread_libspace id) w).
    destruct (libspace_calls_keep others w1) as [Hrun Hkept].
    pose proof (user_perthread_libspace_main_running id w) as Hrun1. fold w1 in Hrun1.
    unfold outcome at 1 2. rewrite !user_perthread_libspace_run. rewrite Hrun, Hrun1.
    destruct (decide (main_running w = 0)) as [Hstopped | Hrunning]; [reflexivity|].
    destruct (decide (id = addr sym__main_obj)) as [Hmain | Hother]; [reflexivity|].
    assert (Hsame : find_slot (os_libspace_id (run (libspace_calls others) w1)) id
                      OS_THREAD_LIBSPACE_NUM 0
                    = find_slot (os_libspace_id w) id OS_THREAD_LIBSPACE_NUM 0).
    { assert (Hw1 : os_libspace_id w1 =
                match find_slot (os_libspace_id w) id OS_THREAD_LIBSPACE_NUM 0 with
                | Some k => if decide (os_libspace_id w !!! k = NULL)
                            then <[k := id]> (os_libspace_id w) else os_libspace_id w
                | None => os_libspace_id w
                end).
      { subst w1. unfold run. rewrite user_perthread_libspace_run.
        rewrite decide_False by exact Hrunning. rewrite decide_False by exact Hother.
        destruct (find_slot _ _ _ _); [apply claim_slot_table | reflexivity]. }
      destruct (find_slot (os_libspace_id w) id OS_THREAD_LIBSPACE_NUM 0) as [k|] eqn:Hfind.
      - pose proof (find_slot_after_claim _ _ _ _ _ Hfind) as Hagain.
        rewrite <- Hw1 in Hagain.
        rewrite (find_slot_settled (os_libspace_id w1) _ id _ _ Hkept); [exact Hagain|].
        rewrite Hagain, Hw1.
        destruct (find_slot_Some _ _ _ _ _ Hfind) as (Hrange & Hk & _).
        destruct (decide (os_libspace_id w !!! k = NULL)) as [Hfree | Hused]; [|exact Hused].
        rewrite list_lookup_total_insert_eq by lia. exact Hid.
      - rewrite (find_slot_settled (os_libspace_id w1) _ id _ _ Hkept);
          rewrite Hw1; [exact Hfind | rewrite Hfind; exact I]. }
    rewrite Hsame.
    destruct (find_slot (os_libspace_id w) id OS_THREAD_LIBSPACE_NUM 0); reflexivity.
Qed.

(** [pre_main] does not touch the slot table. *)
Lemma pre_main_table (w : world) :
  os_libspace_id (run GCC.pre_main w) = os_libspace_id w.
Proof. reflexivity. Qed.

Lemma user_perthread_libspace_length (id : Z) (w : world) :
  length (os_libspace_id (run (GCC.__user_perthread_libspace id) w))
    = length (os_libspace_id w).
Proof.
  unfold run. rewrite user_perthread_libspace_run.
  repeat destruct (decide _); [reflexivity..|].
  destruct (find_slot _ _ _ _); [|reflexivity].
  simpl. rewrite claim_slot_table. destruct (decide _); [apply length_insert | reflexivity].
Qed.

(** The invariant holds after reset. *)
Lemma reset_claimed_prefix (m : gmap Z Z) (r : gmap string (list Z)) :
  claimed_prefix (os_libspace_id (reset_world m r)) 0.
Proof.
  unfold claimed_prefix. simpl.
  split; [apply length_replicate|]. split; [lia|]. split; [intros j Hj; lia|].
  split; [|intros i j Hi; lia].
  intros j Hj. apply lookup_total_replicate_2. lia.
Qed.

(** A call of the accessor keeps the invariant; the prefix may grow by one. *)
Lemma user_perthread_libspace_claimed_prefix (id : Z) (w : world) (k : nat) :
  claimed_prefix (os_libspace_id w) k ->
  ∃ k', claimed_prefix (os_libspace_id (run (GCC.__user_perthread_libspace id) w)) k'.
Proof.
  intros Hinv. unfold run. rewrite user_perthread_libspace_run.
  destruct (decide (main_running w = 0)); [exists k; exact Hinv|].
  destruct (decide (id = addr sym__main_obj)) as [Hmain | Hother]; [exists k; exact Hinv|].
  destruct (find_slot _ _ _ _) as [k0|] eqn:Hfind; [|exists k; exact Hinv].
  simpl. rewrite claim_slot_table.
  destruct (decide (os_libspace_id w !!! k0 = NULL)) as [Hfree | Hused];
    [|exists k; exact Hinv].
  destruct Hinv as (Hlen & Hk & Hclaimed & Hrest & Hinj).
  destruct (find_slot_Some _ _ _ _ _ Hfind) as (Hrange & _ & Hbefore).
  assert (Hk0 : k0 = k).
  { destruct (Nat.lt_trichotomy k0 k) as [Hlt | [Heq | Hgt]]; [|exact Heq|].
    - destruct (Hclaimed k0 Hlt) as [Hne _]. contradiction.
    - destruct (Hbefore k ltac:(lia)) as [Hne _].
      exfalso. apply Hne, Hrest. lia. }
  subst k0.
  destruct (decide (id = NULL)) as [-> | Hid].
  - exists k. rewrite list_insert_id.
    + unfold claimed_prefix. auto.
    + rewrite list_lookup_lookup_total_lt by lia. f_equal. exact Hfree.
  - exists (S k). unfold claimed_prefix. rewrite length_insert.
    split; [exact Hlen|]. split; [lia|]. split; [|split].
    + intros j Hj. destruct (decide (j = k)) as [-> | Hne].
      * rewrite list_lookup_total_insert_eq by lia. auto.
      * rewrite list_lookup_total_insert_ne by lia. apply Hclaimed. lia.
    + intros j Hj. rewrite list_lookup_total_insert_ne by lia. apply Hrest. lia.
    + intros i j Hi Hj.
      destruct (decide (i = k)) as [-> | Hik]; destruct (decide (j = k)) as [-> | Hjk];
        [reflexivity | | |].
      * rewrite list_lookup_total_insert_eq, list_lookup_total_insert_ne by lia.
        intros Heq. destruct (Hbefore j ltac:(lia)) as [_ Hne]. congruence.
      * rewrite list_lookup_total_insert_eq, list_lookup_total_insert_ne by lia.
        intros Heq. destruct (Hbefore i ltac:(lia)) as [_ Hne]. congruence.
      * rewrite !list_lookup_total_insert_ne by lia. apply Hinj; lia.
Qed.

(** The invariant holds in every reachable state. *)
Lemma reachable_claimed_prefix (w : world) :
  reachable w -> ∃ k, claimed_prefix (os_libspace_id w) k.
Proof.
  induction 1 as [m r | w Hreach [k IH] | w id Hreach [k IH]].
  - exists 0%nat. apply reset_claimed_prefix.
  - exists k. rewrite pre_main_table. exact IH.
  - exact (user_perthread_libspace_claimed_prefix id w k IH).
Qed.

(** C7. In every state reached from reset by running [pre_main] and
    calling the accessor one call after the other, with any identities:
    the table has its [OS_THREAD_LIBSPACE_NUM] entries; no two slots hold
    the same non-null identity; the claimed slots are exactly the first
    [k] ones, for some [k]; the main thread's identity (an address, hence
    not null) is in no slot; and one more call leaves every claimed slot
    with the identity it holds. *)
Theorem slot_table_invariant (w : world) :
  addr sym__main_obj ≠ NULL ->
  reachable w ->
  let table := os_libspace_id w in
  length table = OS_THREAD_LIBSPACE_NUM ∧
  (∀ i j x, x ≠ NULL -> table !! i = Some x -> table !! j = Some x -> i = j) ∧
  (∃ k, ∀ j x, table !! j = Some x -> (x ≠ NULL <-> (j < k)%nat)) ∧
  (addr sym__main_obj ∉ table) ∧
  (∀ id j x, x ≠ NULL -> table !! j = Some x ->
     os_libspace_id (run (GCC.__user_perthread_libspace id) w) !! j = Some x).
Proof.
  intros Hmain Hreach table. subst table.
  destruct (reachable_claimed_prefix w Hreach) as (k & Hlen & Hk & Hclaimed & Hrest & Hinj).
  assert (Hin : ∀ j x, os_libspace_id w !! j = Some x ->
                  (j < OS_THREAD_LIBSPACE_NUM)%nat ∧ os_libspace_id w !!! j = x).
  { intros j x Hj. split.
    - rewrite <- Hlen. exact (lookup_lt_Some _ _ _ Hj).
    - exact (list_lookup_total_correct _ _ _ Hj). }
  assert (Hprefix : ∀ j x, os_libspace_id w !! j = Some x -> (x ≠ NULL <-> (j < k)%nat)).
  { intros j x Hj. destruct (Hin j x Hj) as [Hlt Hx]. split.
    - intros Hne. destruct (Nat.lt_ge_cases j k) as [Hjk | Hjk]; [exact Hjk|].
      exfalso. apply Hne. rewrite <- Hx. apply Hrest. lia.
    - intros Hjk. rewrite <- Hx. apply Hclaimed. exact Hjk. }
  split; [exact Hlen|]. split; [|split; [|split]].
  - intros i j x Hx Hi Hj. apply Hinj.
    + apply (Hprefix i x Hi). exact Hx.
    + apply (Hprefix j x Hj). exact Hx.
    + destruct (Hin i x Hi) as [_ ->]. destruct (Hin j x Hj) as [_ ->]. reflexivity.
  - exists k. exact Hprefix.
  - intros Hel. destruct (list_elem_of_lookup_1 _ _ Hel) as [i Hi].
    destruct (Hin i _ Hi) as [_ Hx].
    destruct (Hclaimed i) as [_ Hne]; [apply (Hprefix i _ Hi); exact Hmain | contradiction].
  - intros id j x Hx Hj. destruct (Hin j x Hj) as [Hlt Hval].
    rewrite list_lookup_lookup_total_lt
      by (rewrite user_perthread_libspace_length; lia).
    rewrite claimed_slot_kept by (rewrite Hval; exact Hx). rewrite Hval. reflexivity.
Qed.

End Libspace.

(** ** The locks *)

Section Locks.
Context `{cfg : Config}.

Lemma has_flag_lor_r (a b : Z) : has_flag (Z.lor a b) b.
Proof.
  unfold has_flag. apply Z.bits_inj'. intros n Hn.
  rewrite Z.land_spec, Z.lor_spec. destruct (Z.testbit a n), (Z.testbit b n); reflexivity.
Qed.

Lemma has_flag_lor_l (a b c : Z) : has_flag a c -> has_flag (Z.lor a b) c.
Proof.
  unfold has_flag. intros H. apply Z.bits_inj'. intros n Hn.
  assert (Hbit : Z.testbit (Z.land a c) n = Z.testbit c n) by (rewrite H; reflexivity).
  rewrite Z.land_spec in Hbit. rewrite Z.land_spec, Z.lor_spec.
  destruct (Z.testbit a n), (Z.testbit b n), (Z.testbit c n); simpl in *; congruence.
Qed.

Lemma emits_read {A} (f : world -> A) (w : world) : emits (read f) w (Done (f w)) [].
Proof. split; [reflexivity|]. symmetry. apply app_nil_r. Qed.

Lemma emits_emit (e : event) (w : world) : emits (emit e) w (Done tt) [e].
Proof. split; reflexivity. Qed.

Lemma emits_error {A} (msg : string) (w : world) :
  emits (error (A := A) msg) w NoReturn [Error msg].
Proof. split; reflexivity. Qed.

Lemma new_singleton_mutex_emits (w : world) :
  emits new_singleton_mutex w (Done tt) [MutexNew singleton_attr].
Proof. split; reflexivity. Qed.

Lemma init_lock_common_emits (pLock : Z) (pName : string) (attributeBits : Z) (w : world) :
  emits (GCC.init_lock_common pLock pName attributeBits) w (Done tt)
    [MutexNew (lock_attr_of pLock pName attributeBits)].
Proof.
  unfold GCC.init_lock_common.
  match goal with
  | |- emits (store ?F;; _) _ _ _ =>
      apply (emits_seq (store F) _ w [] (Done tt) _ (emits_store F w eq_refl));
      set (w1 := run (store F) w)
  end.
  match goal with
  | |- emits (read ?G ≫= _) _ _ _ =>
      apply (emits_bind_done (read G) _ w1 (G w1) [] (Done tt) _ (emits_read G w1))
  end.
  replace (lock_attr (locks w1 !!! pLock)) with (lock_attr_of pLock pName attributeBits)
    by (subst w1; unfold run, store; simpl; rewrite lookup_total_insert_eq; reflexivity).
  match goal with
  | |- emits (osMutexNew ?a ≫= _) ?w2 _ _ =>
      apply (emits_bind_done (osMutexNew a) _ w2 _ [MutexNew a] (Done tt) []
               (emits_extern "osMutexNew" (MutexNew a) w2))
  end.
  apply emits_store. reflexivity.
Qed.

Lemma init_lock_emits (pLock : Z) (pName : string) (w : world) :
  emits (GCC.init_lock pLock pName) w (Done tt)
    [MutexNew (lock_attr_of pLock pName plain_bits)].
Proof. apply init_lock_common_emits. Qed.

Lemma init_recursive_lock_emits (pLock : Z) (pName : string) (w : world) :
  emits (GCC.init_recursive_lock pLock pName) w (Done tt)
    [MutexNew (lock_attr_of pLock pName recursive_bits)].
Proof. apply init_lock_common_emits. Qed.

Create HintDb emits.

#[local] Hint Resolve new_singleton_mutex_emits init_lock_emits init_recursive_lock_emits
  emits_call emits_ret emits_emit emits_read : emits.
#[local] Hint Extern 1 (emits (store _) _ _ _) => apply emits_store; reflexivity : emits.

(** One statement after the other. *)
Ltac emits_chain :=
  repeat (eapply emits_seq; [solve [eauto with emits]|]);
  repeat (eapply emits_bind_done; [solve [eauto with emits]|]; cbv beta).

Lemma MICROLIB_pre_main_emits (w : world) :
  ∃ t, emits MICROLIB.pre_main w (Done tt) t ∧ mutexes_created t = [singleton_attr].
Proof.
  eexists. split.
  - unfold MICROLIB.pre_main. emits_chain. apply emits_call.
  - reflexivity.
Qed.

Lemma ARMC_pre_main_emits (w : world) :
  ∃ t, emits ARMC.pre_main w (Done tt) t ∧ mutexes_created t = [singleton_attr].
Proof.
  eexists. split.
  - unfold ARMC.pre_main. emits_chain. emits_chain. apply emits_call.
  - reflexivity.
Qed.

Lemma GCC_pre_main_emits (w : world) :
  ∃ t, emits GCC.pre_main w (Done tt) t ∧
    mutexes_created t =
      [singleton_attr;
       lock_attr_of (addr sym___lock___sinit_recursive_mutex) "sinit_mutex" recursive_bits;
       lock_attr_of (addr sym___lock___sfp_recursive_mutex) "sfp_mutex" recursive_bits;
       lock_attr_of (addr sym___lock___malloc_recursive_mutex) "malloc_mutex" recursive_bits;
       lock_attr_of (addr sym___lock___env_recursive_mutex) "env_mutex" recursive_bits;
       lock_attr_of (addr sym___lock___at_quick_exit_mutex) "at_quick_exit_mutex" plain_bits;
       lock_attr_of (addr sym___lock___tz_mutex) "tz_mutex" plain_bits;
       lock_attr_of (addr sym___lock___arc4random_mutex) "arc4random_mutex" plain_bits].
Proof.
  eexists. split.
  - unfold GCC.pre_main. emits_chain. apply emits_call.
  - reflexivity.
Qed.

Lemma IAR_pre_main_emits (w : world) :
  ∃ t, emits IAR.pre_main w (Done tt) t ∧ mutexes_created t = [singleton_attr].
Proof.
  assert (Hinit : ∀ (needed : Z) (w' : world), ∃ t,
            emits (if decide (needed = 0) then mret tt
                   else call "__iar_dynamic_initialization") w' (Done tt) t ∧
            mutexes_created t = []).
  { intros needed w'. destruct (decide (needed = 0)); eexists; split;
      first [apply emits_ret | apply emits_call | reflexivity]. }
  unfold IAR.pre_main.
  set (w1 := run new_singleton_mutex w).
  destruct (Hinit (low_level_init_needed w1) w1) as (ti & Hi & Hmi).
  eexists. split.
  - eapply emits_seq; [apply new_singleton_mutex_emits|]. fold w1.
    eapply emits_bind_done; [apply emits_read|]. cbv beta.
    eapply emits_seq; [exact Hi|].
    eapply emits_seq; [apply emits_call | apply emits_call].
  - change ([MutexNew singleton_attr] ++ [] ++ ti ++ [Call "mbed_main"] ++ [Call "main"])
      with ([MutexNew singleton_attr] ++ (ti ++ [Call "mbed_main"; Call "main"])).
    unfold mutexes_created in *. rewrite !omap_app, Hmi. reflexivity.
Qed.

(** The lock object [init_lock_common] leaves at [pLock]. *)
Lemma init_lock_common_locks (pLock : Z) (pName : string) (attributeBits : Z) (w : world) :
  let w' := run (GCC.init_lock_common pLock pName attributeBits) w in
  locks w' = <[pLock := {| lock_id := next_ret "osMutexNew" w;
                           lock_attr := lock_attr_of pLock pName attributeBits |}]> (locks w) ∧
  mem w' = mem w.
Proof.
  unfold run, GCC.init_lock_common, osMutexNew, extern, emit, store, read, next_ret.
  exec. rewrite insert_insert_eq, !lookup_total_insert_eq. split; reflexivity.
Qed.

(** What the two dynamic initialisers do, by the answer of [malloc]. *)
Lemma retarget_lock_init_emits (lock : Z) (name : string) (bits : Z) (w : world) :
  let body :=
    p ← malloc sizeof___lock;
    store (fun w => set_mem (<[lock := p]> (mem w)) w);;
    p ← read (fun w => default 0 (mem w !! lock));
    if decide (p = NULL)
    then error ("newlib mutex init is out of memory" +:+ CR +:+ LF)
    else GCC.init_lock_common p name bits in
  let p := next_ret "malloc" w in
  if decide (p = NULL)
  then emits body w NoReturn
         [Malloc sizeof___lock; Error ("newlib mutex init is out of memory" +:+ CR +:+ LF)]
       ∧ locks (run body w) = locks w
  else emits body w (Done tt) [Malloc sizeof___lock; MutexNew (lock_attr_of p name bits)]
       ∧ locks (run body w) !! p =
           Some {| lock_id := next_ret "osMutexNew" w; lock_attr := lock_attr_of p name bits |}
       ∧ mem (run body w) !! lock = Some p.
Proof.
  intros body p. subst body.
  set (w1 := run (malloc sizeof___lock) w).
  set (w2 := run (store (fun w => set_mem (<[lock := p]> (mem w)) w)) w1).
  assert (Hread : default 0 (mem w2 !! lock) = p).
  { subst w2 w1. unfold run, store. simpl. rewrite lookup_insert_eq. reflexivity. }
  assert (Hstep : ∀ r t,
            emits (if decide (p = NULL)
                   then error ("newlib mutex init is out of memory" +:+ CR +:+ LF)
                   else GCC.init_lock_common p name bits) w2 r t ->
            emits (p ← malloc sizeof___lock;
                   store (fun w => set_mem (<[lock := p]> (mem w)) w);;
                   p ← read (fun w => default 0 (mem w !! lock));
                   if decide (p = NULL)
                   then error ("newlib mutex init is out of memory" +:+ CR +:+ LF)
                   else GCC.init_lock_common p name bits) w r (Malloc sizeof___lock :: t)).
  { intros r t Hrest.
    change (Malloc sizeof___lock :: t) with ([Malloc sizeof___lock] ++ ([] ++ ([] ++ t))).
    eapply emits_bind_done; [apply (emits_extern "malloc" (Malloc sizeof___lock) w)|].
    eapply emits_seq; [apply emits_store; reflexivity|].
    eapply emits_bind_done; [apply emits_read|].
    fold p. fold w1. fold w2. rewrite Hread. exact Hrest. }
  assert (Hrun : ∀ w3,
            run (if decide (p = NULL)
                 then error ("newlib mutex init is out of memory" +:+ CR +:+ LF)
                 else GCC.init_lock_common p name bits) w2 = w3 ->
            run (p ← malloc sizeof___lock;
                 store (fun w => set_mem (<[lock := p]> (mem w)) w);;
                 p ← read (fun w => default 0 (mem w !! lock));
                 if decide (p = NULL)
                 then error ("newlib mutex init is out of memory" +:+ CR +:+ LF)
                 else GCC.init_lock_common p name bits) w = w3).
  { intros w3 <-.
    rewrite (run_bind_done (malloc sizeof___lock) _ w p eq_refl). cbv beta.
    change (run (malloc sizeof___lock) w) with w1.
    rewrite (run_bind_done (store _) _ w1 tt eq_refl).
    change (run (store (fun w => set_mem (<[lock := p]> (mem w)) w)) w1) with w2.
    rewrite (run_bind_done (read _) _ w2 _ eq_refl). cbv beta.
    rewrite Hread. reflexivity. }
  destruct (decide (p = NULL)) as [Hnull | Hnull].
  - split; [apply Hstep, emits_error|]. rewrite (Hrun _ eq_refl). reflexivity.
  - split; [apply Hstep, init_lock_common_emits|].
    rewrite (Hrun _ eq_refl).
    destruct (init_lock_common_locks p name bits w2) as [Hlocks Hmem].
    assert (Hid : next_ret "osMutexNew" w2 = next_ret "osMutexNew" w).
    { subst w2 w1. unfold next_ret, run, store. simpl.
      rewrite lookup_insert_ne by discriminate. reflexivity. }
    rewrite Hlocks, Hmem, Hid. split.
    + rewrite lookup_insert_eq. reflexivity.
    + subst w2 w1. unfold run, store. simpl. apply lookup_insert_eq.
Qed.

(** C9. [__retarget_lock_init] and [__retarget_lock_init_recursive] first
    ask [malloc] for [sizeof(struct __lock)] bytes. When [malloc] answers a
    null pointer the fatal-error reporter is called (with the out of memory
    message), no kernel mutex is created, no lock object is written and the
    function does not return. Otherwise one kernel mutex is created for the
    storage, with the attributes of [init_lock] (of [init_recursive_lock]
    for the recursive variant); the lock object at the allocated address
    holds these attributes and the id the kernel answered, and [*lock]
    holds the address. *)
Theorem retarget_lock_init_allocates (lock : Z) (w : world) :
  let p := next_ret "malloc" w in
  let oom := "newlib mutex init is out of memory" +:+ CR +:+ LF in
  let created name bits :=
    {| lock_id := next_ret "osMutexNew" w; lock_attr := lock_attr_of p name bits |} in
  (if decide (p = NULL)
   then emits (GCC.__retarget_lock_init lock) w NoReturn [Malloc sizeof___lock; Error oom]
        ∧ locks (run (GCC.__retarget_lock_init lock) w) = locks w
   else emits (GCC.__retarget_lock_init lock) w (Done tt)
          [Malloc sizeof___lock; MutexNew (lock_attr_of p "newlib_dynamic_mutex" plain_bits)]
        ∧ locks (run (GCC.__retarget_lock_init lock) w) !! p
            = Some (created "newlib_dynamic_mutex" plain_bits)
        ∧ mem (run (GCC.__retarget_lock_init lock) w) !! lock = Some p) ∧
  (if decide (p = NULL)
   then emits (GCC.__retarget_lock_init_recursive lock) w NoReturn
          [Malloc sizeof___lock; Error oom]
        ∧ locks (run (GCC.__retarget_lock_init_recursive lock) w) = locks w
   else emits (GCC.__retarget_lock_init_recursive lock) w (Done tt)
          [Malloc sizeof___lock;
           MutexNew (lock_attr_of p "newlib_dynamic_recursive_mutex" recursive_bits)]
        ∧ locks (run (GCC.__retarget_lock_init_recursive lock) w) !! p
            = Some (created "newlib_dynamic_recursive_mutex" recursive_bits)
        ∧ mem (run (GCC.__retarget_lock_init_recursive lock) w) !! lock = Some p).
Proof.
  intros p oom created. split.
  - exact (retarget_lock_init_emits lock "newlib_dynamic_mutex" plain_bits w).
  - exact (retarget_lock_init_emits lock "newlib_dynamic_recursive_mutex" recursive_bits w).
Qed.

(** C10. [__retarget_lock_close] and [__retarget_lock_close_recursive]
    with a null pointer return at once and leave the state as it was (no
    call is made); with a non-null pointer they call [osMutexDelete] on the
    id stored in the lock and then [free] on the lock, in that order, and
    nothing else. *)
Theorem retarget_lock_close_frees (lock : Z) (w : world) :
  (if decide (lock = NULL)
   then GCC.__retarget_lock_close lock w = (Done tt, w)
   else emits (GCC.__retarget_lock_close lock) w (Done tt)
          [MutexDelete (lock_id (locks w !!! lock)); Free lock]) ∧
  (if decide (lock = NULL)
   then GCC.__retarget_lock_close_recursive lock w = (Done tt, w)
   else emits (GCC.__retarget_lock_close_recursive lock) w (Done tt)
          [MutexDelete (lock_id (locks w !!! lock)); Free lock]).
Proof.
  unfold GCC.__retarget_lock_close, GCC.__retarget_lock_close_recursive.
  destruct (decide (lock = NULL)) as [Hnull | Hnull]; [split; reflexivity|].
  assert (H : emits (id ← read (fun w => lock_id (locks w !!! lock));
                     osMutexDelete id;; free lock) w (Done tt)
                ([] ++ [MutexDelete (lock_id (locks w !!! lock))] ++ [Free lock])).
  { eapply emits_bind_done; [apply emits_read|]. cbv beta.
    eapply emits_seq; apply emits_emit. }
  split; exact H.
Qed.

(** The loop of the IAR initialisers creates one mutex, for the first
    free entry of the table, or none. *)
Lemma Mtxinit_scan_emits (table : world -> list Z) (set_table : list Z -> world -> world)
    (id_base storage_base : Z) (name : string) (mutex : Z) (fuel : nat) :
  (∀ l w, trace (set_table l w) = trace w) ->
  ∀ (index : nat) (w : world),
    emits (IAR.Mtxinit_scan table set_table id_base storage_base name mutex fuel index) w
      (Done (match find_slot (table w) NULL fuel index with
             | Some _ => Some tt
             | None => None
             end))
      (match find_slot (table w) NULL fuel index with
       | Some i => [MutexNew (iar_attr_of storage_base name i)]
       | None => []
       end).
Proof.
  intros Hset. induction fuel as [| fuel IH]; intros index w; simpl.
  - apply emits_ret.
  - apply (emits_bind_done (read (fun w => table w !!! index)) _ w _ [] _ _
             (emits_read _ w)).
    destruct (decide (table w !!! index = NULL)) as [Hfree | Hused].
    + rewrite (decide_True (P := 0 = table w !!! index)) by (symmetry; exact Hfree).
      change [MutexNew (iar_attr_of storage_base name index)]
        with ([MutexNew (iar_attr_of storage_base name index)] ++ [] ++ [] ++ []).
      eapply emits_bind_done; [apply emits_extern|]. cbv beta.
      eapply emits_seq; [apply emits_store; apply Hset|].
      eapply emits_seq; [apply emits_store; reflexivity|].
      apply emits_ret.
    + destruct (decide (0 = table w !!! index)) as [Hzero | _];
        [exfalso; apply Hused; symmetry; exact Hzero|].
      apply IH.
Qed.

Lemma iar_system_Mtxinit_emits (mutex : Z) (w : world) :
  ∃ r t, emits (IAR.__iar_system_Mtxinit mutex) w r t ∧
    mutexes_created t =
      match find_slot (std_mutex_id_sys w) NULL _MAX_LOCK 0 with
      | Some i => [iar_attr_of (addr sym_std_mutex_sys) "system_mutex" i]
      | None => []
      end.
Proof.
  pose proof (Mtxinit_scan_emits std_mutex_id_sys set_std_mutex_id_sys
                (addr sym_std_mutex_id_sys) (addr sym_std_mutex_sys) "system_mutex" mutex
                _MAX_LOCK (fun _ _ => eq_refl) 0%nat w) as H.
  unfold IAR.__iar_system_Mtxinit.
  destruct (find_slot (std_mutex_id_sys w) NULL _MAX_LOCK 0) as [i|].
  - eexists _, _. split; [|shelve].
    eapply emits_bind_done; [exact H|]. apply emits_ret.
    Unshelve. reflexivity.
  - eexists _, _. split; [|shelve].
    eapply emits_bind_done; [exact H|]. apply emits_error.
    Unshelve. reflexivity.
Qed.

Lemma iar_file_Mtxinit_emits (mutex : Z) (w : world) :
  ∃ r t, emits (IAR.__iar_file_Mtxinit mutex) w r t ∧
    mutexes_created t =
      match find_slot (std_mutex_id_file w) NULL _FOPEN_MAX 0 with
      | Some i => [iar_attr_of (addr sym_std_mutex_file) "file_mutex" i]
      | None => []
      end.
Proof.
  pose proof (Mtxinit_scan_emits std_mutex_id_file set_std_mutex_id_file
                (addr sym_std_mutex_id_file) (addr sym_std_mutex_file) "file_mutex" mutex
                _FOPEN_MAX (fun _ _ => eq_refl) 0%nat w) as H.
  unfold IAR.__iar_file_Mtxinit.
  destruct (find_slot (std_mutex_id_file w) NULL _FOPEN_MAX 0) as [i|].
  - eexists _, _. split; [|shelve].
    eapply emits_bind_done; [exact H|]. apply emits_ret.
    Unshelve. reflexivity.
  - eexists _, _. split; [|shelve].
    eapply emits_bind_done; [exact H|]. apply emits_error.
    Unshelve. reflexivity.
Qed.

Lemma recursive_bits_robust (a : osMutexAttr_t) :
  m_attr_bits a = recursive_bits -> robust_prio_inherit a.
Proof.
  unfold robust_prio_inherit, recursive_bits. intros ->. split.
  - apply has_flag_lor_r.
  - apply has_flag_lor_l, has_flag_lor_r.
Qed.

Lemma plain_bits_robust (a : osMutexAttr_t) :
  m_attr_bits a = plain_bits -> robust_prio_inherit a.
Proof.
  unfold robust_prio_inherit, plain_bits. intros ->. split.
  - apply has_flag_lor_r.
  - apply has_flag_lor_l. unfold has_flag. apply Z.land_diag.
Qed.

#[local] Hint Resolve recursive_bits_robust plain_bits_robust : emits.

Lemma retarget_lock_init_robust (lock : Z) (name : string) (bits : Z) (w : world) (m : M unit) :
  (let p := next_ret "malloc" w in
   if decide (p = NULL)
   then emits m w NoReturn
          [Malloc sizeof___lock; Error ("newlib mutex init is out of memory" +:+ CR +:+ LF)]
        ∧ locks (run m w) = locks w
   else emits m w (Done tt) [Malloc sizeof___lock; MutexNew (lock_attr_of p name bits)]
        ∧ locks (run m w) !! p =
            Some {| lock_id := next_ret "osMutexNew" w; lock_attr := lock_attr_of p name bits |}
        ∧ mem (run m w) !! lock = Some p) ->
  bits = recursive_bits ∨ bits = plain_bits ->
  creates_robust_mutexes m w.
Proof.
  cbv zeta. intros H Hbits. unfold creates_robust_mutexes.
  destruct (decide _); destruct H as [Hem _]; rewrite (emits_events _ _ _ _ Hem); simpl.
  - apply List.Forall_nil.
  - apply List.Forall_cons; [|apply List.Forall_nil].
    destruct Hbits as [-> | ->]; auto with emits.
Qed.

(** Each attribute of a list carries one of the two sets of bits. *)
Ltac bits_known :=
  repeat (apply List.Forall_cons; [first [left; reflexivity | right; reflexivity]|]);
  apply List.Forall_nil.

(** C8. Every kernel mutex this layer creates has the robust and the
    priority-inheritance bits set: the singleton mutex of each of the four
    [pre_main] routines (the only mutex the MICROLIB, ARM and IAR ones
    create), the seven static locks of the GCC [pre_main] (eight mutexes
    with the singleton), the dynamic locks of [__retarget_lock_init] and
    [__retarget_lock_init_recursive], and the IAR system and file mutexes. *)
Theorem every_mutex_robust_prio_inherit (w : world) (lock mutex : Z) :
  (creates_robust_mutexes MICROLIB.pre_main w ∧
   length (mutexes_created (events MICROLIB.pre_main w)) = 1%nat) ∧
  (creates_robust_mutexes ARMC.pre_main w ∧
   length (mutexes_created (events ARMC.pre_main w)) = 1%nat) ∧
  (creates_robust_mutexes GCC.pre_main w ∧
   length (mutexes_created (events GCC.pre_main w)) = 8%nat) ∧
  (creates_robust_mutexes IAR.pre_main w ∧
   length (mutexes_created (events IAR.pre_main w)) = 1%nat) ∧
  creates_robust_mutexes (GCC.__retarget_lock_init lock) w ∧
  creates_robust_mutexes (GCC.__retarget_lock_init_recursive lock) w ∧
  creates_robust_mutexes (IAR.__iar_system_Mtxinit mutex) w ∧
  creates_robust_mutexes (IAR.__iar_file_Mtxinit mutex) w.
Proof.
  unfold creates_robust_mutexes.
  destruct (MICROLIB_pre_main_emits w) as (t1 & He1 & Hm1).
  destruct (ARMC_pre_main_emits w) as (t2 & He2 & Hm2).
  destruct (GCC_pre_main_emits w) as (t3 & He3 & Hm3).
  destruct (IAR_pre_main_emits w) as (t4 & He4 & Hm4).
  destruct (iar_system_Mtxinit_emits mutex w) as (r5 & t5 & He5 & Hm5).
  destruct (iar_file_Mtxinit_emits mutex w) as (r6 & t6 & He6 & Hm6).
  rewrite (emits_events _ _ _ _ He1), (emits_events _ _ _ _ He2),
    (emits_events _ _ _ _ He3), (emits_events _ _ _ _ He4),
    (emits_events _ _ _ _ He5), (emits_events _ _ _ _ He6).
  rewrite Hm1, Hm2, Hm3, Hm4, Hm5, Hm6.
  assert (Hall : ∀ l : list osMutexAttr_t,
            Forall (fun a => m_attr_bits a = recursive_bits ∨ m_attr_bits a = plain_bits) l ->
            Forall robust_prio_inherit l).
  { intros l Hl. apply (Forall_impl _ _ _ Hl). intros a [Ha | Ha]; auto with emits. }
  split; [split; [apply Hall; bits_known | reflexivity]|].
  split; [split; [apply Hall; bits_known | reflexivity]|].
  split; [split; [apply Hall; bits_known | reflexivity]|].
  split; [split; [apply Hall; bits_known | reflexivity]|].
  split.
  { exact (retarget_lock_init_robust lock _ _ w _
             (retarget_lock_init_emits lock "newlib_dynamic_mutex" plain_bits w)
             (or_intror eq_refl)). }
  split.
  { exact (retarget_lock_init_robust lock _ _ w _
             (retarget_lock_init_emits lock "newlib_dynamic_recursive_mutex" recursive_bits w)
             (or_introl eq_refl)). }
  split.
  - destruct (find_slot (std_mutex_id_sys w) _ _ _); apply Hall; bits_known.
  - destruct (find_slot (std_mutex_id_file w) _ _ _); apply Hall; bits_known.
Qed.

End Locks.

(** ** More on the memory layout *)

Section LayoutMore.
Context `{cfg : Config}.

(** What [mbed_set_stack_heap] leaves in the four variables when the
    interrupt stack is placed explicitly. *)
Lemma mbed_set_stack_heap_placed (w : world) (isr_start : Z) :
  ISR_STACK_START macros = Some isr_start ->
  outcome mbed_set_stack_heap w = Done tt ∧
  layout_vars (run mbed_set_stack_heap w) =
    (HEAP_START macros, wrap32 (HEAP_SIZE macros), isr_start, wrap32 (ISR_STACK_SIZE macros)).
Proof.
  intros Hplaced. unfold layout_vars, outcome, run, mbed_set_stack_heap.
  rewrite Hplaced. split; reflexivity.
Qed.

(** X1. With [ISR_STACK_START] defined, [mbed_set_stack_heap] takes the
    interrupt stack as given and gives the heap the whole free span:
    nothing is carved out of it, wherever the stack lies. *)
Theorem mbed_set_stack_heap_placed_stack (w : world) (isr_start : Z) :
  ISR_STACK_START macros = Some isr_start ->
  0 <= HEAP_SIZE macros < 2 ^ 32 ->
  0 <= ISR_STACK_SIZE macros < 2 ^ 32 ->
  let w' := run mbed_set_stack_heap w in
  outcome mbed_set_stack_heap w = Done tt ∧
  mbed_stack_isr_start w' = isr_start ∧
  mbed_stack_isr_size w' = ISR_STACK_SIZE macros ∧
  mbed_heap_start w' = HEAP_START macros ∧
  mbed_heap_size w' = HEAP_SIZE macros.
Proof.
  intros Hplaced Hheap Hisr w'. subst w'.
  destruct (mbed_set_stack_heap_placed w isr_start Hplaced) as [Hout Hvars].
  unfold layout_vars in Hvars. injection Hvars as Hhs Hhz Hss Hsz.
  rewrite wrap32_small in Hhz, Hsz by assumption. auto.
Qed.

(** X2. A GCC or ARM build that defines [INITIAL_SP] and neither a heap
    nor a stack placement: the free span runs from the end of the static
    data to [INITIAL_SP]; the interrupt stack ends at [INITIAL_SP] and has
    the requested size (1024 bytes unless [ISR_STACK_SIZE] is defined), or
    the whole span when that is smaller; the heap starts at the end of the
    static data and ends where the stack starts. *)
Theorem default_layout_stack_below_initial_sp
    (tc : toolchain) (d : defines) (s : link_map) (sp : Z) (w : world) :
  tc ≠ ICCARM ->
  D_HEAP_START d = None -> D_HEAP_SIZE d = None -> D_ISR_STACK_START d = None ->
  D_INITIAL_SP d = Some sp ->
  resolve_layout tc d s = Some macros ->
  0 <= free_base s <= sp -> sp < 2 ^ 32 ->
  0 <= default 1024 (D_ISR_STACK_SIZE d) < 2 ^ 32 ->
  let w' := run mbed_set_stack_heap w in
  mbed_heap_start w' = free_base s ∧
  mbed_heap_start w' + mbed_heap_size w' = mbed_stack_isr_start w' ∧
  mbed_stack_isr_start w' + mbed_stack_isr_size w' = sp ∧
  mbed_stack_isr_size w' = Z.min (default 1024 (D_ISR_STACK_SIZE d)) (sp - free_base s).
Proof.
  intros Htc Hhs Hhz Hss Hsp Hres Hbase Hsp32 Hreq w'. subst w'.
  assert (Hmacros : macros =
            {| HEAP_START := free_base s;
               HEAP_SIZE := wrap32 (wrap32 sp - wrap32 (free_base s));
               ISR_STACK_START := None;
               ISR_STACK_SIZE := default 1024 (D_ISR_STACK_SIZE d) |}).
  { unfold resolve_layout, defined in Hres. rewrite Hhs, Hhz, Hss, Hsp in Hres.
    destruct tc; [contradiction| |]; simpl in Hres; congruence. }
  assert (Hnone : ISR_STACK_START macros = None) by (rewrite Hmacros; reflexivity).
  destruct (mbed_set_stack_heap_default w Hnone) as (_ & Hstart & Hsize & Histart & Hisize).
  rewrite Hmacros in Hstart, Hsize, Histart, Hisize. simpl in *.
  rewrite (wrap32_small sp), (wrap32_small (free_base s)) in Hsize, Histart, Hisize by lia.
  rewrite (wrap32_small (sp - free_base s)) in Hsize, Histart, Hisize by lia.
  rewrite (wrap32_small (sp - free_base s)) in Hsize, Histart, Hisize by lia.
  rewrite (wrap32_small (default 1024 (D_ISR_STACK_SIZE d))) in Hsize, Histart, Hisize
    by lia.
  set (req := default 1024 (D_ISR_STACK_SIZE d)) in *.
  set (isr := if req <? sp - free_base s then req else sp - free_base s) in *.
  assert (Hisr : isr = Z.min req (sp - free_base s)).
  { subst isr. destruct (Z.ltb_spec req (sp - free_base s)); lia. }
  rewrite wrap32_small in Hsize, Histart by lia.
  rewrite Hstart, Hsize, Histart, Hisize. lia.
Qed.

(** X3. An IAR build: the heap is the HEAP section and the interrupt stack
    the CSTACK section of the linker file, as they are. *)
Theorem iar_layout_from_sections (d : defines) (s : link_map) (w : world) :
  resolve_layout ICCARM d s = Some macros ->
  0 <= sec_HEAP_size s < 2 ^ 32 ->
  0 <= sec_CSTACK_size s < 2 ^ 32 ->
  let w' := run mbed_set_stack_heap w in
  mbed_heap_start w' = sec_HEAP_begin s ∧
  mbed_heap_size w' = sec_HEAP_size s ∧
  mbed_stack_isr_start w' = sec_CSTACK_begin s ∧
  mbed_stack_isr_size w' = sec_CSTACK_size s.
Proof.
  intros Hres Hheap Hstack w'. subst w'.
  assert (Hmacros : macros =
            {| HEAP_START := sec_HEAP_begin s;
               HEAP_SIZE := wrap32 (sec_HEAP_size s);
               ISR_STACK_START := Some (sec_CSTACK_begin s);
               ISR_STACK_SIZE := wrap32 (sec_CSTACK_size s) |}).
  { unfold resolve_layout in Hres.
    destruct (true && _); [discriminate|].
    repeat (destruct (_ && _); [discriminate|]).
    simpl in Hres. destruct (D_ISR_STACK_SIZE d); congruence. }
  assert (Hplaced : ISR_STACK_START macros = Some (sec_CSTACK_begin s))
    by (rewrite Hmacros; reflexivity).
  destruct (mbed_set_stack_heap_placed w _ Hplaced) as [_ Hvars].
  unfold layout_vars in Hvars. injection Hvars as Hhs Hhz Hss Hsz.
  rewrite Hmacros in Hhs, Hhz, Hsz. simpl in *.
  rewrite !wrap32_small in Hhz, Hsz by (rewrite ?wrap32_small; lia).
  auto.
Qed.

(** X26. Nothing relates [INITIAL_SP] to the end of the static data: in a
    GCC or ARM build that places neither heap nor stack, the size of the
    free span is their difference as a [uint32_t]. When the static data end
    above [INITIAL_SP], heap and interrupt stack together are given all of
    the address space but the bytes in between, and the routine returns as
    usual. *)
Theorem default_layout_wraps_past_initial_sp
    (tc : toolchain) (d : defines) (s : link_map) (sp : Z) (w : world) :
  tc ≠ ICCARM ->
  D_HEAP_START d = None -> D_HEAP_SIZE d = None -> D_ISR_STACK_START d = None ->
  D_INITIAL_SP d = Some sp ->
  resolve_layout tc d s = Some macros ->
  0 <= sp < free_base s -> free_base s < 2 ^ 32 ->
  0 <= default 1024 (D_ISR_STACK_SIZE d) < 2 ^ 32 ->
  let w' := run mbed_set_stack_heap w in
  outcome mbed_set_stack_heap w = Done tt ∧
  mbed_heap_start w' = free_base s ∧
  mbed_heap_size w' + mbed_stack_isr_size w' = 2 ^ 32 - (free_base s - sp).
Proof.
  intros Htc Hhs Hhz Hss Hsp Hres Hbase Hbase32 Hreq w'. subst w'.
  assert (Hmacros : macros =
            {| HEAP_START := free_base s;
               HEAP_SIZE := wrap32 (wrap32 sp - wrap32 (free_base s));
               ISR_STACK_START := None;
               ISR_STACK_SIZE := default 1024 (D_ISR_STACK_SIZE d) |}).
  { unfold resolve_layout, defined in Hres. rewrite Hhs, Hhz, Hss, Hsp in Hres.
    destruct tc; [contradiction| |]; simpl in Hres; congruence. }
  assert (Hnone : ISR_STACK_START macros = None) by (rewrite Hmacros; reflexivity).
  destruct (mbed_set_stack_heap_default w Hnone) as (Hout & Hstart & Hsize & _ & Hisize).
  rewrite Hmacros in Hstart, Hsize, Hisize. simpl in *.
  rewrite (wrap32_small sp), (wrap32_small (free_base s)) in Hsize, Hisize by lia.
  assert (Hspan : wrap32 (sp - free_base s) = 2 ^ 32 - (free_base s - sp)).
  { unfold wrap32. replace (sp - free_base s) with (2 ^ 32 - (free_base s - sp) + -1 * 2 ^ 32)
      by lia. rewrite Z_mod_plus_full. apply Z.mod_small. lia. }
  rewrite Hspan in Hsize, Hisize.
  rewrite (wrap32_small (2 ^ 32 - (free_base s - sp))) in Hsize, Hisize by lia.
  rewrite (wrap32_small (default 1024 (D_ISR_STACK_SIZE d))) in Hsize, Hisize by lia.
  set (req := default 1024 (D_ISR_STACK_SIZE d)) in *.
  set (span := 2 ^ 32 - (free_base s - sp)) in *.
  set (isr := if req <? span then req else span) in *.
  assert (Hisr : 0 <= isr <= span).
  { subst isr. destruct (Z.ltb_spec req span); lia. }
  rewrite wrap32_small in Hsize by lia.
  split; [exact Hout|]. split; [exact Hstart|]. rewrite Hsize, Hisize. lia.
Qed.

End LayoutMore.

(** X4. What the sanity checks of lines 196-215 let through: a build
    defines [HEAP_START] and [HEAP_SIZE] together, [ISR_STACK_SIZE] whenever
    it defines [ISR_STACK_START], [INITIAL_SP] or a heap placement unless it
    is an IAR build, and no heap or stack placement when it is one. *)
Theorem resolve_layout_accepted (tc : toolchain) (d : defines) (s : link_map) (l : layout) :
  resolve_layout tc d s = Some l ->
  (is_Some (D_HEAP_START d) <-> is_Some (D_HEAP_SIZE d)) ∧
  (is_Some (D_ISR_STACK_START d) -> is_Some (D_ISR_STACK_SIZE d)) ∧
  (tc ≠ ICCARM -> is_Some (D_INITIAL_SP d) ∨ is_Some (D_HEAP_START d)) ∧
  (tc = ICCARM ->
   D_HEAP_START d = None ∧ D_HEAP_SIZE d = None ∧ D_ISR_STACK_START d = None) ∧
  (tc ≠ ICCARM -> ISR_STACK_START l = D_ISR_STACK_START d).
Proof.
  unfold resolve_layout, defined.
  destruct tc, d as [[hs|] [hz|] [ss|] [sz|] [sp|]]; simpl; intros H;
    try discriminate H; injection H as <-; simpl;
    repeat split; try (intros; eauto; congruence); try (intros [x Hx]; discriminate Hx).
Qed.

(** ** What a computation leaves alone *)

Section Frames.
Context `{cfg : Config}.

Lemma run_bind {A B} (m : M A) (f : A -> M B) (w : world) :
  run (m ≫= f) w = match outcome m w with
                   | Done a => run (f a) (run m w)
                   | NoReturn => run m w
                   end.
Proof.
  unfold run, outcome. rewrite bind_unfold. destruct (m w) as [[a|] w']; reflexivity.
Qed.

Lemma keeps_bind {A B C} (f : world -> C) (m : M A) (k : A -> M B) :
  keeps f m -> (∀ a, keeps f (k a)) -> keeps f (m ≫= k).
Proof.
  intros Hm Hk w. rewrite run_bind. destruct (outcome m w) as [a|].
  - rewrite Hk. apply Hm.
  - apply Hm.
Qed.

Lemma copy_vectors_keeps {C} (f : world -> C) (old_vectors vectors : Z) (count : nat) :
  (∀ m w, f (set_mem m w) = f w) ->
  ∀ i, keeps f (copy_vectors old_vectors vectors i count).
Proof.
  intros Hf i w. destruct (copy_vectors_run old_vectors vectors count i w) as [m' Hm'].
  unfold run. rewrite Hm'. apply Hf.
Qed.

End Frames.

(** Splits a sequence into its statements and closes the leaves by
    computation. *)
Ltac keeps_seq :=
  first [ assumption
        | solve [intros ?; reflexivity]
        | apply keeps_bind; [keeps_seq | intro; keeps_seq]
        | match goal with
          | |- keeps _ (if ?c then _ else _) => destruct c; keeps_seq
          | |- keeps _ (match ?c with _ => _ end) => destruct c; keeps_seq
          end ].

Section FramesOfRoutines.
Context `{cfg : Config}.

Lemma mbed_cpy_nvic_keeps_layout : keeps layout_vars mbed_cpy_nvic.
Proof.
  unfold mbed_cpy_nvic. apply keeps_bind; [keeps_seq | intros _].
  destruct CORTEX_M0_or_A9; [keeps_seq|].
  destruct NVIC_RAM_VECTOR_ADDRESS; [|keeps_seq].
  apply keeps_bind; [keeps_seq | intros old].
  apply keeps_bind; [|intros _; keeps_seq].
  apply copy_vectors_keeps. reflexivity.
Qed.

Lemma cpy_nvic_unless_uvisor_keeps_layout : keeps layout_vars cpy_nvic_unless_uvisor.
Proof.
  unfold cpy_nvic_unless_uvisor. destruct uvisor_owns_vectors;
    [keeps_seq | apply mbed_cpy_nvic_keeps_layout].
Qed.

Lemma mbed_start_main_keeps_layout : keeps layout_vars mbed_start_main.
Proof. unfold mbed_start_main. keeps_seq. Qed.

(** The four variables after [mbed_set_stack_heap] depend on the macros only. *)
Lemma mbed_set_stack_heap_vars (w w0 : world) :
  outcome mbed_set_stack_heap w = Done tt ∧
  layout_vars (run mbed_set_stack_heap w) = layout_vars (run mbed_set_stack_heap w0).
Proof.
  unfold outcome, run, layout_vars, mbed_set_stack_heap.
  destruct (ISR_STACK_START macros); split; reflexivity.
Qed.

(** After [mbed_set_stack_heap], a computation that keeps the four
    variables leaves them as the resolver set them. *)
Lemma set_stack_heap_then_keeps {B} (k : M B) (w w0 : world) :
  keeps layout_vars k ->
  layout_vars (run (mbed_set_stack_heap;; k) w) = layout_vars (run mbed_set_stack_heap w0).
Proof.
  intros Hk.
  rewrite (run_bind_done mbed_set_stack_heap _ w tt (proj1 (mbed_set_stack_heap_vars w w0))).
  rewrite Hk. apply mbed_set_stack_heap_vars.
Qed.

Lemma MICROLIB_main_init_layout (w w0 : world) :
  layout_vars (run MICROLIB._main_init w) = layout_vars (run mbed_set_stack_heap w0).
Proof.
  pose proof cpy_nvic_unless_uvisor_keeps_layout as Hcpy.
  pose proof mbed_start_main_keeps_layout as Hstart.
  apply set_stack_heap_then_keeps. unfold mbed_sdk_init, osKernelInitialize. keeps_seq.
Qed.

Lemma ARMC_rt_entry_layout (w w0 : world) :
  layout_vars (run ARMC.__rt_entry w) = layout_vars (run mbed_set_stack_heap w0).
Proof.
  pose proof cpy_nvic_unless_uvisor_keeps_layout as Hcpy.
  pose proof mbed_start_main_keeps_layout as Hstart.
  unfold ARMC.__rt_entry.
  rewrite (run_bind_done (call "__user_setup_stackheap") _ w tt eq_refl).
  apply set_stack_heap_then_keeps.
  unfold mbed_sdk_init, ARMC._platform_post_stackheap_init, osKernelInitialize. keeps_seq.
Qed.

Lemma GCC_software_init_hook_layout (w w0 : world) :
  layout_vars (run GCC.software_init_hook w) = layout_vars (run mbed_set_stack_heap w0).
Proof.
  pose proof cpy_nvic_unless_uvisor_keeps_layout as Hcpy.
  pose proof mbed_start_main_keeps_layout as Hstart.
  apply set_stack_heap_then_keeps.
  unfold mbed_sdk_init, osKernelInitialize, GCC.uvisor_lib_init, mbed_die. keeps_seq.
Qed.

Lemma IAR_program_start_layout (w w0 : world) :
  layout_vars (run IAR.__iar_program_start w) = layout_vars (run mbed_set_stack_heap w0).
Proof.
  pose proof mbed_start_main_keeps_layout as Hstart.
  unfold IAR.__iar_program_start.
  rewrite (run_bind_done (call "__iar_init_core") _ w tt eq_refl).
  rewrite (run_bind_done (call "__iar_init_vfp") _ _ tt eq_refl).
  rewrite (run_bind_done IAR.__low_level_init _ _ _ eq_refl). cbv zeta.
  match goal with
  | |- context [run ((if decide (?n = 0) then _ else _) ≫= _) ?w2] =>
      destruct (iar_guarded_part_emits n w2) as (t & [Hout _] & _);
      rewrite (run_bind_done _ _ w2 tt Hout)
  end.
  apply set_stack_heap_then_keeps. unfold osKernelInitialize. keeps_seq.
Qed.

(** X5. Every entry routine leaves in [mbed_heap_start], [mbed_heap_size],
    [mbed_stack_isr_start] and [mbed_stack_isr_size] what
    [mbed_set_stack_heap] computes from the macros, whatever state it
    started from and whatever the environment answers, also when the boot
    stops at a fatal error: no later step touches the four variables. *)
Theorem entry_routines_publish_layout (w w0 : world) :
  layout_vars (run MICROLIB._main_init w) = layout_vars (run mbed_set_stack_heap w0) ∧
  layout_vars (run ARMC.__rt_entry w) = layout_vars (run mbed_set_stack_heap w0) ∧
  layout_vars (run GCC.software_init_hook w) = layout_vars (run mbed_set_stack_heap w0) ∧
  layout_vars (run IAR.__iar_program_start w) = layout_vars (run mbed_set_stack_heap w0).
Proof.
  split; [apply MICROLIB_main_init_layout|].
  split; [apply ARMC_rt_entry_layout|].
  split; [apply GCC_software_init_hook_layout | apply IAR_program_start_layout].
Qed.

End FramesOfRoutines.

(** ** The calls of the entry routines *)

Section Shapes.
Context `{cfg : Config}.

Lemma extern_keeps_next_ret (f g : string) (e : event) :
  f ≠ g -> keeps (next_ret f) (extern g e).
Proof.
  intros Hne w. unfold next_ret, run, extern. simpl.
  rewrite lookup_insert_ne by congruence. reflexivity.
Qed.

Lemma mbed_set_stack_heap_keeps_next_ret (f : string) :
  keeps (next_ret f) mbed_set_stack_heap.
Proof. intros w. apply (f_equal (fun r => hd 0 (default [] (r !! f)))),
  (proj2 (mbed_set_stack_heap_boot_step w)). Qed.

Lemma cpy_nvic_unless_uvisor_keeps_next_ret (f : string) :
  keeps (next_ret f) cpy_nvic_unless_uvisor.
Proof. intros w. apply (f_equal (fun r => hd 0 (default [] (r !! f)))),
  (proj2 (cpy_nvic_unless_uvisor_emits w)). Qed.

Lemma mbed_start_main_shape (w : world) :
  emits mbed_start_main w (start_main_result (next_ret "osThreadNew" w))
    (start_main_events (next_ret "osThreadNew" w)).
Proof.
  pose proof (mbed_start_main_emits w) as H. cbv zeta in H.
  unfold start_main_result, start_main_events.
  destruct (decide (next_ret "osThreadNew" w = NULL)); exact H.
Qed.

(** [mbed_start_main] at the end of a routine whose earlier part [m] keeps
    the answer of [osThreadNew]. *)
Lemma mbed_start_main_after (w w' : world) :
  next_ret "osThreadNew" w' = next_ret "osThreadNew" w ->
  emits mbed_start_main w' (start_main_result (next_ret "osThreadNew" w))
    (start_main_events (next_ret "osThreadNew" w)).
Proof. intros <-. apply mbed_start_main_shape. Qed.

Lemma MICROLIB_main_init_shape (w : world) :
  emits MICROLIB._main_init w NoReturn
    ([Call "mbed_set_stack_heap"] ++ relocator_events ++
     [Call "mbed_sdk_init"; Call "osKernelInitialize"] ++
     start_main_events (next_ret "osThreadNew" w)).
Proof.
  unfold MICROLIB._main_init.
  set (w1 := run mbed_set_stack_heap w).
  set (w2 := run cpy_nvic_unless_uvisor w1).
  set (w3 := run mbed_sdk_init w2).
  set (w4 := run osKernelInitialize w3).
  assert (Hret : next_ret "osThreadNew" w4 = next_ret "osThreadNew" w).
  { subst w4 w3 w2 w1. change (next_ret "osThreadNew"
      (run osKernelInitialize (run mbed_sdk_init ?x))) with (next_ret "osThreadNew" x).
    rewrite cpy_nvic_unless_uvisor_keeps_next_ret. apply mbed_set_stack_heap_keeps_next_ret. }
  pose proof (emits_then_halt _ _ _ _ (mbed_start_main_after w w4 Hret)) as H5.
  pose proof (emits_after_step _ _ _ w3 _ _ osKernelInitialize_boot_step H5) as H4.
  pose proof (emits_after_step _ _ _ w2 _ _ mbed_sdk_init_boot_step H4) as H3.
  pose proof (emits_seq _ _ w1 _ _ _ (proj1 (cpy_nvic_unless_uvisor_emits w1)) H3) as H2.
  exact (emits_after_step _ _ _ w _ _ mbed_set_stack_heap_boot_step H2).
Qed.

Lemma ARMC_rt_entry_shape (w : world) :
  emits ARMC.__rt_entry w (start_main_result (next_ret "osThreadNew" w))
    ([Call "__user_setup_stackheap"; Call "mbed_set_stack_heap"] ++ relocator_events ++
     [Call "mbed_sdk_init"; Call "_platform_post_stackheap_init"; Call "osKernelInitialize"] ++
     start_main_events (next_ret "osThreadNew" w)).
Proof.
  unfold ARMC.__rt_entry.
  set (w0 := run (call "__user_setup_stackheap") w).
  set (w1 := run mbed_set_stack_heap w0).
  set (w2 := run cpy_nvic_unless_uvisor w1).
  set (w3 := run mbed_sdk_init w2).
  set (w4 := run ARMC._platform_post_stackheap_init w3).
  assert (Hret : next_ret "osThreadNew" w4 = next_ret "osThreadNew" w).
  { subst w4 w3 w2 w1. change (next_ret "osThreadNew"
      (run ARMC._platform_post_stackheap_init (run mbed_sdk_init ?x)))
      with (next_ret "osThreadNew" x).
    rewrite cpy_nvic_unless_uvisor_keeps_next_ret, mbed_set_stack_heap_keeps_next_ret.
    reflexivity. }
  pose proof (emits_seq _ _ w3 _ _ _ (platform_post_stackheap_init_emits w3)
                (mbed_start_main_after w w4 Hret)) as H4.
  pose proof (emits_after_step _ _ _ w2 _ _ mbed_sdk_init_boot_step H4) as H3.
  pose proof (emits_seq _ _ w1 _ _ _ (proj1 (cpy_nvic_unless_uvisor_emits w1)) H3) as H2.
  pose proof (emits_after_step _ _ _ w0 _ _ mbed_set_stack_heap_boot_step H2) as H1.
  exact (emits_after_step _ _ _ w _ _ (call_boot_step "__user_setup_stackheap") H1).
Qed.

Lemma GCC_software_init_hook_shape (w : world) :
  let rc := next_ret "uvisor_lib_init" w in
  let result := next_ret "osThreadNew" w in
  emits GCC.software_init_hook w
    (if FEATURE_UVISOR then
       if decide (rc = 0) then start_main_result result else NoReturn
     else start_main_result result)
    ([Call "mbed_set_stack_heap"] ++ relocator_events ++
     [Call "mbed_sdk_init"; Call "osKernelInitialize"] ++
     (if FEATURE_UVISOR then
        [Call "uvisor_lib_init"] ++
        (if decide (rc = 0) then start_main_events result else [Call "mbed_die"])
      else start_main_events result)).
Proof.
  intros rc result. unfold GCC.software_init_hook.
  set (w1 := run mbed_set_stack_heap w).
  set (w2 := run cpy_nvic_unless_uvisor w1).
  set (w3 := run mbed_sdk_init w2).
  set (w4 := run osKernelInitialize w3).
  assert (Hret : ∀ f, next_ret f w4 = next_ret f w).
  { intros f. subst w4 w3 w2 w1. change (next_ret f
      (run osKernelInitialize (run mbed_sdk_init ?x))) with (next_ret f x).
    rewrite cpy_nvic_unless_uvisor_keeps_next_ret. apply mbed_set_stack_heap_keeps_next_ret. }
  assert (Hrest : emits
            ((if FEATURE_UVISOR then
                return_code ← GCC.uvisor_lib_init;
                if decide (return_code = 0) then mret tt else mbed_die
              else mret tt);; mbed_start_main) w4
            (if FEATURE_UVISOR then
               if decide (rc = 0) then start_main_result result else NoReturn
             else start_main_result result)
            (if FEATURE_UVISOR then
               [Call "uvisor_lib_init"] ++
               (if decide (rc = 0) then start_main_events result else [Call "mbed_die"])
             else start_main_events result)).
  { destruct FEATURE_UVISOR.
    - unfold GCC.uvisor_lib_init.
      assert (Hrc : next_ret "uvisor_lib_init" w4 = rc) by apply Hret.
      set (w5 := run (extern "uvisor_lib_init" (Call "uvisor_lib_init")) w4).
      assert (Hres : next_ret "osThreadNew" w5 = result).
      { subst w5. rewrite extern_keeps_next_ret by discriminate. apply Hret. }
      destruct (decide (rc = 0)) as [Hz | Hnz].
      + eapply emits_seq.
        * change [Call "uvisor_lib_init"] with ([Call "uvisor_lib_init"] ++ []).
          eapply emits_bind_done; [apply emits_extern|]. rewrite Hrc.
          rewrite decide_True by exact Hz. apply emits_ret.
        * apply mbed_start_main_after.
          rewrite (run_bind_done _ _ w4 _ (proj1 (emits_extern _ _ w4))).
          rewrite Hrc, decide_True by exact Hz. exact Hres.
      + apply emits_bind_stop.
        eapply emits_bind_done; [apply emits_extern|]. rewrite Hrc.
        rewrite decide_False by exact Hnz. split; reflexivity.
    - change (start_main_events result) with ([] ++ start_main_events result).
      eapply emits_seq; [apply emits_ret|]. apply mbed_start_main_after, Hret. }
  pose proof (emits_after_step _ _ _ w3 _ _ osKernelInitialize_boot_step Hrest) as H4.
  pose proof (emits_after_step _ _ _ w2 _ _ mbed_sdk_init_boot_step H4) as H3.
  pose proof (emits_seq _ _ w1 _ _ _ (proj1 (cpy_nvic_unless_uvisor_emits w1)) H3) as H2.
  exact (emits_after_step _ _ _ w _ _ mbed_set_stack_heap_boot_step H2).
Qed.

Lemma iar_guarded_part_shape (needed : Z) (w : world) :
  emits (if decide (needed = 0) then mret tt
         else call "__iar_data_init3";; cpy_nvic_unless_uvisor;; mbed_sdk_init)
    w (Done tt)
    (if decide (needed = 0) then []
     else [Call "__iar_data_init3"] ++ relocator_events ++ [Call "mbed_sdk_init"]).
Proof.
  destruct (decide (needed = 0)); [apply emits_ret|].
  set (w1 := run (call "__iar_data_init3") w).
  set (w2 := run cpy_nvic_unless_uvisor w1).
  pose proof (proj1 (mbed_sdk_init_boot_step w2)) as H3.
  pose proof (emits_seq _ _ w1 _ _ _ (proj1 (cpy_nvic_unless_uvisor_emits w1)) H3) as H2.
  exact (emits_after_step _ _ _ w _ _ (call_boot_step "__iar_data_init3") H2).
Qed.

Lemma IAR_program_start_shape (w : world) :
  let needed := next_ret "__low_level_init" w mod 2 ^ 8 in
  let result := next_ret "osThreadNew" w in
  emits IAR.__iar_program_start w (start_main_result result)
    ([Call "__iar_init_core"; Call "__iar_init_vfp"; Call "__low_level_init"] ++
     (if decide (needed = 0) then []
      else [Call "__iar_data_init3"] ++ relocator_events ++ [Call "mbed_sdk_init"]) ++
     [Call "mbed_set_stack_heap"; Call "osKernelInitialize"] ++
     start_main_events result).
Proof.
  intros needed result. unfold IAR.__iar_program_start.
  pose proof (cpy_nvic_unless_uvisor_keeps_next_ret "osThreadNew") as Hcpy.
  pose proof (mbed_set_stack_heap_keeps_next_ret "osThreadNew") as Hset.
  set (w0 := run (call "__iar_init_core") w).
  set (w1 := run (call "__iar_init_vfp") w0).
  set (w2 := run IAR.__low_level_init w1).
  assert (Hw2 : next_ret "osThreadNew" w2 = result).
  { subst w2 w1 w0. unfold IAR.__low_level_init.
    rewrite extern_keeps_next_ret by discriminate. reflexivity. }
  pose proof (iar_guarded_part_shape needed w2) as Hguard.
  match type of Hguard with emits ?m _ _ _ => set (guard := m) in *; set (w3 := run guard w2) end.
  assert (Hw3 : next_ret "osThreadNew" w3 = result).
  { rewrite <- Hw2. subst w3.
    assert (Hk : keeps (next_ret "osThreadNew") guard)
      by (subst guard; unfold mbed_sdk_init; keeps_seq).
    apply Hk. }
  set (w4 := run mbed_set_stack_heap w3).
  set (w5 := run (store (set_low_level_init_needed needed)) w4).
  set (w6 := run osKernelInitialize w5).
  assert (Hw6 : next_ret "osThreadNew" w6 = next_ret "osThreadNew" w).
  { subst w6 w5 w4. change (next_ret "osThreadNew" (run osKernelInitialize
      (run (store (set_low_level_init_needed needed)) ?x))) with (next_ret "osThreadNew" x).
    rewrite Hset. exact Hw3. }
  pose proof (emits_after_step _ _ _ w5 _ _ osKernelInitialize_boot_step
                (mbed_start_main_after w w6 Hw6)) as H5.
  pose proof (emits_seq _ _ w4 _ _ _
                (emits_store (set_low_level_init_needed needed) w4 eq_refl) H5) as H4.
  pose proof (emits_after_step _ _ _ w3 _ _ mbed_set_stack_heap_boot_step H4) as H3.
  pose proof (emits_seq _ _ w2 _ _ _ Hguard H3) as H2.
  assert (Hlow : emits IAR.__low_level_init w1 (Done (next_ret "__low_level_init" w))
                   [Call "__low_level_init"])
    by (split; reflexivity).
  eapply (emits_after_step _ _ _ w); [apply call_boot_step|].
  eapply (emits_after_step _ _ _ w0); [apply call_boot_step|].
  exact (emits_bind_done _ _ w1 _ [Call "__low_level_init"] _ _ Hlow H2).
Qed.


Lemma kernel_steps_app (t1 t2 : list event) :
  kernel_steps (t1 ++ t2) = kernel_steps t1 ++ kernel_steps t2.
Proof. apply omap_app. Qed.

Lemma kernel_steps_relocator : kernel_steps relocator_events = [].
Proof. unfold relocator_events. destruct uvisor_owns_vectors; reflexivity. Qed.

Lemma kernel_steps_start_main (result : Z) :
  kernel_steps (start_main_events result) =
    KThreadNew :: if decide (result = NULL) then [] else [KStart].
Proof. unfold start_main_events. destruct (decide (result = NULL)); reflexivity. Qed.

(** X7. The kernel goes through its states in order in every entry
    routine: [osKernelInitialize] is called once and first, then
    [osThreadNew] once, then [osKernelStart] once and only when the thread
    was created; the GCC routine stops after [osKernelInitialize] when
    uVisor is enabled and [uvisor_lib_init] fails. No thread is created
    before the kernel is initialized, and the scheduler is not started
    without the main thread. *)
Theorem entry_routines_kernel_protocol (w : world) :
  let result := next_ret "osThreadNew" w in
  let created := KThreadNew :: if decide (result = NULL) then [] else [KStart] in
  kernel_steps (events MICROLIB._main_init w) = KInitialize :: created ∧
  kernel_steps (events ARMC.__rt_entry w) = KInitialize :: created ∧
  kernel_steps (events GCC.software_init_hook w) =
    (KInitialize ::
     if FEATURE_UVISOR && negb (bool_decide (next_ret "uvisor_lib_init" w = 0))
     then [] else created) ∧
  kernel_steps (events IAR.__iar_program_start w) = KInitialize :: created.
Proof.
  intros result created. subst created result.
  rewrite (emits_events _ _ _ _ (MICROLIB_main_init_shape w)),
    (emits_events _ _ _ _ (ARMC_rt_entry_shape w)),
    (emits_events _ _ _ _ (GCC_software_init_hook_shape w)),
    (emits_events _ _ _ _ (IAR_program_start_shape w)).
  rewrite !kernel_steps_app, !kernel_steps_relocator.
  split; [rewrite kernel_steps_start_main; reflexivity|].
  split; [rewrite kernel_steps_start_main; reflexivity|].
  split.
  - destruct FEATURE_UVISOR; cbn [andb]; [|rewrite kernel_steps_start_main; reflexivity].
    destruct (decide (next_ret "uvisor_lib_init" w = 0)) as [Hz | Hnz].
    + rewrite bool_decide_eq_true_2 by exact Hz. cbn [negb].
      rewrite kernel_steps_app, kernel_steps_start_main. reflexivity.
    + rewrite bool_decide_eq_false_2 by exact Hnz. reflexivity.
  - destruct (decide (_ mod _ = 0)); rewrite ?kernel_steps_app, ?kernel_steps_relocator,
      kernel_steps_start_main; reflexivity.
Qed.

End Shapes.

(** ** The vector table relocator *)

Section Relocator.
Context `{cfg : Config}.

Lemma copy_vectors_step (old_vectors vectors i : Z) (count : nat) (w : world) :
  run (copy_vectors old_vectors vectors i (S count)) w =
    run (copy_vectors old_vectors vectors (i + 1) count)
      (set_mem (<[wrap32 (vectors + 4 * i) :=
                    default 0 (mem w !! wrap32 (old_vectors + 4 * i))]> (mem w)) w).
Proof. reflexivity. Qed.

Lemma copy_vectors_outcome (old_vectors vectors i : Z) (count : nat) (w : world) :
  outcome (copy_vectors old_vectors vectors i count) w = Done tt.
Proof.
  destruct (copy_vectors_run old_vectors vectors count i w) as [m' Hm'].
  unfold outcome. rewrite Hm'. reflexivity.
Qed.

(** The loop, entry by entry: the words of the destination hold what the
    source held when the loop started, and no other word changes. The
    destination may overlap the source from below. *)
Lemma copy_vectors_mem (old_vectors vectors n : Z) :
  0 <= old_vectors -> old_vectors + 4 * n <= 2 ^ 32 ->
  0 <= vectors -> vectors + 4 * n <= 2 ^ 32 ->
  vectors <= old_vectors ∨ old_vectors + 4 * n <= vectors ->
  ∀ (count : nat) (i : Z) (w : world),
    0 <= i -> i + Z.of_nat count = n ->
    (∀ j, i <= j < n ->
       mem (run (copy_vectors old_vectors vectors i count) w) !! (vectors + 4 * j)
         = Some (default 0 (mem w !! (old_vectors + 4 * j)))) ∧
    (∀ a, (∀ j, i <= j < n -> a ≠ vectors + 4 * j) ->
       mem (run (copy_vectors old_vectors vectors i count) w) !! a = mem w !! a).
Proof.
  intros Hold Holdn Hvec Hvecn Hover.
  induction count as [|count IH]; intros i w Hi Hn.
  - split; [intros j Hj; lia | reflexivity].
  - rewrite copy_vectors_step.
    rewrite (wrap32_small (vectors + 4 * i)), (wrap32_small (old_vectors + 4 * i)) by lia.
    set (w1 := set_mem _ w).
    assert (Hmem1 : mem w1 = <[vectors + 4 * i :=
                                 default 0 (mem w !! (old_vectors + 4 * i))]> (mem w))
      by (destruct w; reflexivity).
    destruct (IH (i + 1) w1 ltac:(lia) ltac:(lia)) as [IHin IHout].
    split.
    + intros j Hj. destruct (decide (j = i)) as [-> | Hne].
      * rewrite IHout by (intros j' Hj'; lia).
        rewrite Hmem1. apply lookup_insert_eq.
      * rewrite IHin by lia. rewrite Hmem1, lookup_insert_ne by lia. reflexivity.
    + intros a Ha. rewrite IHout by (intros j Hj; apply Ha; lia).
      rewrite Hmem1. apply lookup_insert_ne. intros Heq. apply (Ha i); [lia | congruence].
Qed.

Lemma mbed_cpy_nvic_run (ram_vectors : Z) (w : world) :
  CORTEX_M0_or_A9 = false ->
  NVIC_RAM_VECTOR_ADDRESS = Some ram_vectors ->
  run mbed_cpy_nvic w =
    set_SCB_VTOR (wrap32 ram_vectors)
      (run (copy_vectors (SCB_VTOR w) (wrap32 ram_vectors) 0 NVIC_NUM_VECTORS)
         (run (call "mbed_cpy_nvic") w)).
Proof.
  intros Hcore Hram. unfold mbed_cpy_nvic. rewrite Hcore, Hram.
  rewrite (run_bind_done (call "mbed_cpy_nvic") _ w tt eq_refl).
  set (w1 := run (call "mbed_cpy_nvic") w).
  rewrite (run_bind_done (read SCB_VTOR) _ w1 (SCB_VTOR w1) eq_refl).
  change (run (read SCB_VTOR) w1) with w1.
  rewrite (run_bind_done _ _ w1 tt (copy_vectors_outcome _ _ _ _ w1)).
  destruct w; reflexivity.
Qed.

(** X8. [mbed_cpy_nvic] on a core with a VTOR register and a RAM vector
    address: when both tables lie inside the 32-bit address space and the
    RAM table does not overlap the active one from above, every entry of the
    RAM table holds afterwards what the same entry of the active table held
    (0 for a word never written), no other word of memory changes, and VTOR
    points at the RAM table. *)
Theorem mbed_cpy_nvic_copies_vectors (ram_vectors : Z) (w : world) :
  CORTEX_M0_or_A9 = false ->
  NVIC_RAM_VECTOR_ADDRESS = Some ram_vectors ->
  let n := Z.of_nat NVIC_NUM_VECTORS in
  let old_vectors := SCB_VTOR w in
  0 <= old_vectors -> old_vectors + 4 * n <= 2 ^ 32 ->
  0 <= ram_vectors < 2 ^ 32 -> ram_vectors + 4 * n <= 2 ^ 32 ->
  ram_vectors <= old_vectors ∨ old_vectors + 4 * n <= ram_vectors ->
  let w' := run mbed_cpy_nvic w in
  SCB_VTOR w' = ram_vectors ∧
  (∀ j, 0 <= j < n ->
     mem w' !! (ram_vectors + 4 * j) = Some (default 0 (mem w !! (old_vectors + 4 * j)))) ∧
  (∀ a, (∀ j, 0 <= j < n -> a ≠ ram_vectors + 4 * j) -> mem w' !! a = mem w !! a).
Proof.
  intros Hcore Hram n old_vectors Hold Holdn Hvec Hvecn Hover w'. subst w'.
  rewrite (mbed_cpy_nvic_run ram_vectors w Hcore Hram).
  fold old_vectors. rewrite (wrap32_small _ Hvec).
  pose proof (eq_refl : n = Z.of_nat NVIC_NUM_VECTORS) as Hn. clearbody n old_vectors.
  assert (Hcount : 0 + Z.of_nat NVIC_NUM_VECTORS = n) by lia.
  destruct (copy_vectors_mem old_vectors ram_vectors n Hold Holdn (proj1 Hvec) Hvecn Hover
              NVIC_NUM_VECTORS 0 (run (call "mbed_cpy_nvic") w) (Z.le_refl 0) Hcount)
    as [Hin Hout].
  assert (Hmem : ∀ v w1, mem (set_SCB_VTOR v w1) = mem w1) by (intros v []; reflexivity).
  assert (Hcall : mem (run (call "mbed_cpy_nvic") w) = mem w) by (destruct w; reflexivity).
  split; [|split].
  - set (w1 := run (copy_vectors _ _ _ _) _). destruct w1; reflexivity.
  - intros j Hj. rewrite Hmem, Hin, Hcall by exact Hj. reflexivity.
  - intros a Ha. rewrite Hmem, Hout, Hcall by exact Ha. reflexivity.
Qed.

(** A word the loop finds written stays written. *)
Lemma copy_vectors_defined (old_vectors vectors : Z) (count : nat) :
  ∀ (i : Z) (w : world),
    (∀ a, is_Some (mem w !! a) ->
          is_Some (mem (run (copy_vectors old_vectors vectors i count) w) !! a)) ∧
    (∀ j, i <= j < i + Z.of_nat count ->
          is_Some (mem (run (copy_vectors old_vectors vectors i count) w)
                     !! wrap32 (vectors + 4 * j))).
Proof.
  induction count as [|count IH]; intros i w.
  - split; [intros a Ha; exact Ha | intros j Hj; lia].
  - rewrite copy_vectors_step. set (w1 := set_mem _ w).
    assert (Hmem1 : mem w1 = <[wrap32 (vectors + 4 * i) :=
                                 default 0 (mem w !! wrap32 (old_vectors + 4 * i))]> (mem w))
      by (destruct w; reflexivity).
    destruct (IH (i + 1) w1) as [IHkeep IHnew].
    split.
    + intros a Ha. apply IHkeep. rewrite Hmem1.
      destruct (decide (wrap32 (vectors + 4 * i) = a)) as [-> | Hne].
      * rewrite lookup_insert_eq. eauto.
      * rewrite lookup_insert_ne by exact Hne. exact Ha.
    + intros j Hj. destruct (decide (j = i)) as [-> | Hne].
      * apply IHkeep. rewrite Hmem1, lookup_insert_eq. eauto.
      * apply IHnew. lia.
Qed.

(** Copying a written table onto itself changes nothing. *)
Lemma copy_vectors_self (vectors : Z) (count : nat) :
  ∀ (i : Z) (w : world),
    (∀ j, i <= j < i + Z.of_nat count -> is_Some (mem w !! wrap32 (vectors + 4 * j))) ->
    mem (run (copy_vectors vectors vectors i count) w) = mem w.
Proof.
  induction count as [|count IH]; intros i w Hw.
  - reflexivity.
  - rewrite copy_vectors_step. set (w1 := set_mem _ w).
    assert (Hmem1 : mem w1 = mem w).
    { destruct (Hw i ltac:(lia)) as [x Hx].
      transitivity (<[wrap32 (vectors + 4 * i) :=
                        default 0 (mem w !! wrap32 (vectors + 4 * i))]> (mem w));
        [destruct w; reflexivity|].
      rewrite Hx. apply insert_id. exact Hx. }
    rewrite IH; [exact Hmem1|].
    intros j Hj. rewrite Hmem1. apply Hw. lia.
Qed.

(** X9. Relocating twice is relocating once: a second call of
    [mbed_cpy_nvic] leaves memory and VTOR as the first one left them, on
    every core, for every RAM vector address and every state. *)
Theorem mbed_cpy_nvic_idempotent (w : world) :
  let w1 := run mbed_cpy_nvic w in
  let w2 := run mbed_cpy_nvic w1 in
  mem w2 = mem w1 ∧ SCB_VTOR w2 = SCB_VTOR w1 ∧
  outcome mbed_cpy_nvic w1 = Done tt.
Proof.
  intros w1 w2.
  assert (Hout : outcome mbed_cpy_nvic w1 = Done tt)
    by apply (proj1 (proj1 (mbed_cpy_nvic_boot_step w1))).
  split; [|split; [|exact Hout]]; subst w2;
    (destruct CORTEX_M0_or_A9 eqn:Hcore;
     [unfold mbed_cpy_nvic; rewrite Hcore; destruct w1; reflexivity|]);
    (destruct NVIC_RAM_VECTOR_ADDRESS as [ram_vectors|] eqn:Hram;
     [|unfold mbed_cpy_nvic; rewrite Hcore, Hram; destruct w1; reflexivity]).
  - assert (Hvtor : SCB_VTOR w1 = wrap32 ram_vectors).
    { subst w1. rewrite (mbed_cpy_nvic_run ram_vectors w Hcore Hram).
      set (w0 := run (copy_vectors _ _ _ _) _). destruct w0; reflexivity. }
    assert (Hwritten : ∀ j, 0 <= j < 0 + Z.of_nat NVIC_NUM_VECTORS ->
              is_Some (mem w1 !! wrap32 (wrap32 ram_vectors + 4 * j))).
    { intros j Hj. subst w1. rewrite (mbed_cpy_nvic_run ram_vectors w Hcore Hram).
      set (w0 := run (call "mbed_cpy_nvic") w).
      pose proof (proj2 (copy_vectors_defined (SCB_VTOR w) (wrap32 ram_vectors)
                           NVIC_NUM_VECTORS 0 w0) j Hj) as Hsome.
      set (w3 := run (copy_vectors _ _ _ _) _) in *. destruct w3; exact Hsome. }
    rewrite (mbed_cpy_nvic_run ram_vectors w1 Hcore Hram), Hvtor.
    set (w0 := run (call "mbed_cpy_nvic") w1).
    assert (Hmem0 : mem w0 = mem w1) by (subst w0; destruct w1; reflexivity).
    transitivity (mem (run (copy_vectors (wrap32 ram_vectors) (wrap32 ram_vectors) 0
                             NVIC_NUM_VECTORS) w0)).
    { set (w3 := run (copy_vectors _ _ _ _) _). destruct w3; reflexivity. }
    rewrite copy_vectors_self; [exact Hmem0|].
    intros j Hj. rewrite Hmem0. apply Hwritten. exact Hj.
  - rewrite (mbed_cpy_nvic_run ram_vectors w1 Hcore Hram).
    set (w0 := run (copy_vectors _ _ _ _) _).
    transitivity (wrap32 ram_vectors); [destruct w0; reflexivity|].
    subst w1. rewrite (mbed_cpy_nvic_run ram_vectors w Hcore Hram).
    set (w3 := run (copy_vectors _ _ _ _) _). destruct w3; reflexivity.
Qed.

End Relocator.

(** ** The main thread *)

(** One statement after the other, the leaves being single calls. *)
Ltac emits_leaf :=
  match goal with
  | |- emits new_singleton_mutex _ _ _ => apply new_singleton_mutex_emits
  | |- emits (GCC.init_lock _ _) _ _ _ => apply init_lock_emits
  | |- emits (GCC.init_recursive_lock _ _) _ _ _ => apply init_recursive_lock_emits
  | |- emits (call _) _ _ _ => apply emits_call
  | |- emits (mret _) _ _ _ => apply emits_ret
  | |- emits (emit _) _ _ _ => apply emits_emit
  | |- emits (read _) _ _ _ => apply emits_read
  | |- emits (extern _ _) _ _ _ => apply emits_extern
  | |- emits (store _) _ _ _ => apply emits_store; reflexivity
  end.

Ltac emits_steps :=
  repeat match goal with
         | |- emits (_ ≫= _) _ _ _ =>
             first [ eapply emits_seq; [solve [emits_leaf]|]
                   | eapply emits_bind_done; [solve [emits_leaf]|]; cbv beta ]
         end.

Section MainThread.
Context `{cfg : Config}.

Lemma new_singleton_mutex_keeps {C} (f : world -> C) :
  (∀ a w, f (set_singleton_mutex_attr a w) = f w) ->
  (∀ i w, f (set_singleton_mutex_id i w) = f w) ->
  (∀ t w, f (set_trace t w) = f w) ->
  (∀ r w, f (set_rets r w) = f w) ->
  keeps f new_singleton_mutex.
Proof.
  intros Ha Hi Ht Hr w. unfold new_singleton_mutex, run, osMutexNew, extern, emit, store, read.
  simpl. rewrite Hi, Hr, Ht, Ha. reflexivity.
Qed.

Lemma IAR_pre_main_shape (w : world) :
  emits IAR.pre_main w (Done tt)
    ([MutexNew singleton_attr] ++
     (if decide (low_level_init_needed w = 0) then []
      else [Call "__iar_dynamic_initialization"]) ++
     [Call "mbed_main"; Call "main"]).
Proof.
  unfold IAR.pre_main.
  eapply emits_seq; [apply new_singleton_mutex_emits|].
  set (w1 := run new_singleton_mutex w).
  assert (Hneeded : low_level_init_needed w1 = low_level_init_needed w).
  { apply new_singleton_mutex_keeps; intros ? []; reflexivity. }
  change (emits (_ ≫= _) w1 (Done tt) ?t) with
    (emits (read low_level_init_needed ≫= λ needed,
              (if decide (needed = 0) then mret tt
               else call "__iar_dynamic_initialization");; mbed_main;; call "main")
       w1 (Done tt) ([] ++ t)).
  eapply emits_bind_done; [apply emits_read|]. cbv beta. rewrite Hneeded.
  eapply emits_seq;
    [|apply (emits_seq _ _ _ [Call "mbed_main"] _ [Call "main"]); apply emits_call].
  destruct (decide (low_level_init_needed w = 0)); [apply emits_ret | apply emits_call].
Qed.

Lemma IAR_program_start_needed (w : world) :
  low_level_init_needed (run IAR.__iar_program_start w)
    = next_ret "__low_level_init" w mod 2 ^ 8.
Proof.
  unfold IAR.__iar_program_start.
  rewrite (run_bind_done (call "__iar_init_core") _ w tt eq_refl).
  rewrite (run_bind_done (call "__iar_init_vfp") _ _ tt eq_refl).
  rewrite (run_bind_done IAR.__low_level_init _ _ _ eq_refl). cbv zeta.
  change (hd 0 (default [] (rets _ !! "__low_level_init")))
    with (next_ret "__low_level_init" w).
  set (needed := next_ret "__low_level_init" w mod 2 ^ 8).
  match goal with
  | |- context [run ((if decide (needed = 0) then _ else _) ≫= _) ?w2] =>
      destruct (iar_guarded_part_emits needed w2) as (t & [Hout _] & _);
      rewrite (run_bind_done _ _ w2 tt Hout);
      set (w3 := run (if decide (needed = 0) then _ else _) w2)
  end.
  rewrite (run_bind_done mbed_set_stack_heap _ w3 tt
             (proj1 (proj1 (mbed_set_stack_heap_boot_step w3)))).
  set (w4 := run mbed_set_stack_heap w3).
  rewrite (run_bind_done (store (set_low_level_init_needed needed)) _ w4 tt eq_refl).
  set (w5 := run (store (set_low_level_init_needed needed)) w4).
  assert (Hw5 : low_level_init_needed w5 = needed) by (subst w5; destruct w4; reflexivity).
  rewrite <- Hw5.
  assert (Hk : keeps low_level_init_needed (osKernelInitialize;; mbed_start_main))
    by (unfold osKernelInitialize, mbed_start_main; keeps_seq).
  apply Hk.
Qed.

(** X10. The IAR start-up keeps what [__low_level_init] answered, as a
    [uint8_t], for the main thread: [pre_main] runs the static constructors
    ([__iar_dynamic_initialization]) exactly when [__iar_program_start]
    initialized the data ([__iar_data_init3]), that is when the answer was
    not a multiple of 256; either way it creates the singleton mutex first
    and calls [mbed_main] and then [main] last. *)
Theorem iar_low_level_init_handshake (w : world) :
  let needed := next_ret "__low_level_init" w mod 2 ^ 8 in
  let w' := run IAR.__iar_program_start w in
  low_level_init_needed w' = needed ∧
  emits IAR.pre_main w' (Done tt)
    ([MutexNew singleton_attr] ++
     (if decide (needed = 0) then [] else [Call "__iar_dynamic_initialization"]) ++
     [Call "mbed_main"; Call "main"]) ∧
  calls "__iar_dynamic_initialization" (events IAR.pre_main w')
    = calls "__iar_data_init3" (events IAR.__iar_program_start w) ∧
  calls "__iar_data_init3" (events IAR.__iar_program_start w)
    = if decide (needed = 0) then 0%nat else 1%nat.
Proof.
  intros needed w'.
  pose proof (IAR_program_start_needed w) as Hneeded. fold needed w' in Hneeded.
  pose proof (IAR_pre_main_shape w') as Hpre. rewrite Hneeded in Hpre.
  pose proof (emits_events _ _ _ _ (IAR_program_start_shape w)) as Hstart.
  cbv zeta in Hstart. fold needed in Hstart.
  split; [exact Hneeded|]. split; [exact Hpre|].
  rewrite (emits_events _ _ _ _ Hpre), Hstart.
  unfold calls, relocator_events, start_main_events.
  destruct (decide (needed = 0)), uvisor_owns_vectors,
    (decide (next_ret "osThreadNew" w = NULL)); split; reflexivity.
Qed.

Lemma ARMC_pre_main_shape (w : world) :
  emits ARMC.pre_main w (Done tt)
    [MutexNew singleton_attr;
     RtLibInit (mbed_heap_start w) (wrap32 (mbed_heap_start w + mbed_heap_size w));
     Call "main"].
Proof.
  unfold ARMC.pre_main.
  apply (emits_seq _ _ w [MutexNew singleton_attr] _ [_; _]);
    [apply new_singleton_mutex_emits|].
  set (w1 := run new_singleton_mutex w).
  apply (emits_bind_done _ _ w1 _ [] _ [_; _] (emits_read mbed_heap_start w1)).
  apply (emits_bind_done _ _ _ _ [] _ [_; _] (emits_read mbed_heap_size _)).
  set (heap := RtLibInit (mbed_heap_start w) (wrap32 (mbed_heap_start w + mbed_heap_size w))).
  change (emits (emit heap;; call "main") w1 (Done tt) ([heap] ++ [Call "main"])).
  eapply emits_seq; [apply emits_emit | apply emits_call].
Qed.

(** X11. The ARM standard library gets its heap from the resolver: run
    after [__rt_entry], [pre_main] creates the singleton mutex, then hands
    [__rt_lib_init] the heap from [HEAP_START] to the end of
    [mbed_heap_size] bytes, then calls [main]. When the interrupt stack is
    carved from the free span, the heap top passed is the start of the
    interrupt stack, whatever the sizes. *)
Theorem armc_rt_lib_init_heap (w : world) :
  let w' := run ARMC.__rt_entry w in
  let heaptop := wrap32 (HEAP_START macros + mbed_heap_size w') in
  emits ARMC.pre_main w' (Done tt)
    [MutexNew singleton_attr; RtLibInit (HEAP_START macros) heaptop; Call "main"] ∧
  (ISR_STACK_START macros = None -> heaptop = mbed_stack_isr_start w').
Proof.
  intros w' heaptop.
  pose proof (ARMC_rt_entry_layout w w) as Hvars. fold w' in Hvars.
  assert (Hstart : mbed_heap_start w' = HEAP_START macros).
  { apply (f_equal (fun v => fst (fst (fst v)))) in Hvars. simpl in Hvars.
    rewrite Hvars. unfold run, mbed_set_stack_heap.
    destruct (ISR_STACK_START macros); reflexivity. }
  split.
  - pose proof (ARMC_pre_main_shape w') as Hpre. rewrite Hstart in Hpre. exact Hpre.
  - intros Hnone. subst heaptop.
    destruct (mbed_set_stack_heap_default w Hnone) as (_ & _ & Hsize & Histart & _).
    cbv zeta in Hsize, Histart.
    injection Hvars as _ Hsize' Histart' _.
    rewrite Hsize', Histart', Hsize, Histart.
    unfold wrap32. rewrite Zplus_mod_idemp_r. f_equal. lia.
Qed.

(** X25. The static constructors run in the main thread once the mutexes
    exist: the MICROLIB [pre_main] creates the singleton mutex, then runs
    the C++ initializers, then [main]; the GCC [pre_main] creates the
    singleton mutex and the seven static locks of newlib, each with its
    name and attribute bits, then runs [__libc_init_array], then [main];
    both return when [main] does. *)
Theorem pre_main_constructors_after_mutexes (w : world) :
  emits MICROLIB.pre_main w (Done tt)
    [MutexNew singleton_attr; Call "$Super$$__cpp_initialize__aeabi_"; Call "main"] ∧
  emits GCC.pre_main w (Done tt)
    ([MutexNew singleton_attr] ++
     map (fun l => MutexNew (lock_attr_of (addr l.1.1) l.1.2 l.2)) static_locks ++
     [Call "__libc_init_array"; Call "main"]).
Proof.
  split.
  - eassert (H : emits MICROLIB.pre_main w (Done tt) _).
    { unfold MICROLIB.pre_main. emits_steps. apply emits_call. }
    exact H.
  - eassert (H : emits GCC.pre_main w (Done tt) _).
    { unfold GCC.pre_main. emits_steps. apply emits_call. }
    exact H.
Qed.

End MainThread.

(** ** The state the GCC main thread sets up *)

Section StaticLocks.
Context `{cfg : Config}.

Lemma answer_next_ret (f : string) (w : world) : answer f 0 w = next_ret f w.
Proof. unfold answer, next_ret. destruct (default [] (rets w !! f)); reflexivity. Qed.

Lemma nth_tail (l : list Z) (k : nat) : nth k (tail l) 0 = nth (S k) l 0.
Proof. destruct l; [destruct k|]; reflexivity. Qed.

Lemma extern_answer (f : string) (e : event) (k : nat) (w : world) :
  answer f k (run (extern f e) w) = answer f (S k) w.
Proof.
  unfold answer, run, extern. simpl. rewrite lookup_insert_eq. simpl.
  rewrite nth_tail. destruct w; reflexivity.
Qed.

Lemma new_singleton_mutex_state (w : world) :
  let w' := run new_singleton_mutex w in
  singleton_mutex_id w' = next_ret "osMutexNew" w ∧
  singleton_mutex_attr w' = singleton_attr ∧
  locks w' = locks w ∧ main_running w' = main_running w ∧
  ∀ k, answer "osMutexNew" k w' = answer "osMutexNew" (S k) w.
Proof.
  repeat split. intros k.
  unfold answer, run, new_singleton_mutex, osMutexNew, extern. simpl.
  rewrite lookup_insert_eq. simpl. rewrite nth_tail. destruct w; reflexivity.
Qed.

Lemma init_lock_common_state (pLock : Z) (pName : string) (attributeBits : Z) (w : world) :
  let w' := run (GCC.init_lock_common pLock pName attributeBits) w in
  locks w' = <[pLock := {| lock_id := next_ret "osMutexNew" w;
                           lock_attr := lock_attr_of pLock pName attributeBits |}]> (locks w) ∧
  singleton_mutex_id w' = singleton_mutex_id w ∧
  main_running w' = main_running w ∧
  ∀ k, answer "osMutexNew" k w' = answer "osMutexNew" (S k) w.
Proof.
  split; [apply init_lock_common_locks|].
  repeat split. intros k.
  unfold answer, run, GCC.init_lock_common, osMutexNew, extern. simpl.
  rewrite lookup_insert_eq. simpl. rewrite nth_tail. destruct w; reflexivity.
Qed.

(** The lock objects after [pre_main], as a chain of updates. *)
Lemma GCC_pre_main_run (w : world) :
  let lock_of k (sym : symbol) name bits :=
    {| lock_id := answer "osMutexNew" k w; lock_attr := lock_attr_of (addr sym) name bits |} in
  let w' := run GCC.pre_main w in
  main_running w' = 1 ∧
  singleton_mutex_id w' = answer "osMutexNew" 0 w ∧
  locks w' =
    <[addr sym___lock___arc4random_mutex :=
        lock_of 7%nat sym___lock___arc4random_mutex "arc4random_mutex" plain_bits]>
    (<[addr sym___lock___tz_mutex :=
        lock_of 6%nat sym___lock___tz_mutex "tz_mutex" plain_bits]>
    (<[addr sym___lock___at_quick_exit_mutex :=
        lock_of 5%nat sym___lock___at_quick_exit_mutex "at_quick_exit_mutex" plain_bits]>
    (<[addr sym___lock___env_recursive_mutex :=
        lock_of 4%nat sym___lock___env_recursive_mutex "env_mutex" recursive_bits]>
    (<[addr sym___lock___malloc_recursive_mutex :=
        lock_of 3%nat sym___lock___malloc_recursive_mutex "malloc_mutex" recursive_bits]>
    (<[addr sym___lock___sfp_recursive_mutex :=
        lock_of 2%nat sym___lock___sfp_recursive_mutex "sfp_mutex" recursive_bits]>
    (<[addr sym___lock___sinit_recursive_mutex :=
        lock_of 1%nat sym___lock___sinit_recursive_mutex "sinit_mutex" recursive_bits]>
       (locks w))))))).
Proof.
  intros lock_of w'. subst w' lock_of. unfold GCC.pre_main.
  rewrite (run_bind_done (store (set_main_running 1)) _ w tt eq_refl).
  set (w0 := run (store (set_main_running 1)) w).
  assert (H0 : main_running w0 = 1 ∧ locks w0 = locks w ∧
               ∀ k, answer "osMutexNew" k w0 = answer "osMutexNew" k w)
    by (subst w0; destruct w; repeat split).
  destruct H0 as (Hrun0 & Hlocks0 & Hans0).
  rewrite (run_bind_done new_singleton_mutex _ w0 tt (proj1 (new_singleton_mutex_emits w0))).
  destruct (new_singleton_mutex_state w0) as (Hid1 & _ & Hlocks1 & Hrun1 & Hans1).
  set (w1 := run new_singleton_mutex w0) in *.
  rewrite <- answer_next_ret, Hans0 in Hid1.
  unfold GCC.init_recursive_lock, GCC.init_lock.
  fold recursive_bits. fold plain_bits.
  repeat match goal with
  | |- context [run (GCC.init_lock_common ?a ?n ?b ≫= ?k) ?v] =>
      rewrite (run_bind_done (GCC.init_lock_common a n b) k v tt
                 (proj1 (init_lock_common_emits a n b v)));
      let Hl := fresh "Hlocks" in let Hi := fresh "Hid" in
      let Hr := fresh "Hrun" in let Ha := fresh "Hans" in
      destruct (init_lock_common_state a n b v) as (Hl & Hi & Hr & Ha);
      rewrite <- answer_next_ret in Hl;
      let v' := fresh "w" in set (v' := run (GCC.init_lock_common a n b) v) in *
  end.
  set (w9 := run _ _).
  match goal with
  | w8 := run (GCC.init_lock_common _ "arc4random_mutex" _) _ |- _ =>
      assert (H9 : main_running w9 = main_running w8 ∧
                   singleton_mutex_id w9 = singleton_mutex_id w8 ∧
                   locks w9 = locks w8) by (subst w9; destruct w8; repeat split)
  end.
  destruct H9 as (Hrun9 & Hid9 & Hlocks9).
  repeat match goal with v := _ : world |- _ => clearbody v end.
  repeat match goal with
  | H : main_running ?v = _ |- context [main_running ?v] => rewrite H
  | H : singleton_mutex_id ?v = _ |- context [singleton_mutex_id ?v] => rewrite H
  | H : locks ?v = _ |- context [locks ?v] => rewrite H
  | H : ∀ k, answer _ k ?v = _ |- context [answer _ _ ?v] => rewrite !H
  end.
  repeat split.
Qed.

(** Each static lock holds the id the kernel answered for it. *)
Lemma GCC_pre_main_lock_ids (w : world) :
  NoDup static_lock_addresses ->
  ∀ k sym name bits,
    static_locks !! k = Some (sym, name, bits) ->
    locks (run GCC.pre_main w) !! addr sym =
      Some {| lock_id := answer "osMutexNew" (S k) w;
              lock_attr := lock_attr_of (addr sym) name bits |}.
Proof.
  intros Hdistinct.
  destruct (GCC_pre_main_run w) as (_ & _ & Hlocks). cbv zeta in Hlocks.
  unfold static_lock_addresses, static_locks in *. simpl in Hdistinct.
  rewrite !NoDup_cons, !not_elem_of_cons in Hdistinct.
  destruct Hdistinct as
    ((H12 & H13 & H14 & H15 & H16 & H17 & _) & (H23 & H24 & H25 & H26 & H27 & _) &
     (H34 & H35 & H36 & H37 & _) & (H45 & H46 & H47 & _) & (H56 & H57 & _) &
     (H67 & _) & _).
  intros k sym name bits Hk. rewrite Hlocks.
  do 7 (destruct k as [|k];
        [injection Hk as <- <- <-;
         rewrite ?lookup_insert_ne by (first [assumption | apply not_eq_sym; assumption]);
         apply lookup_insert_eq|]).
  discriminate Hk.
Qed.

(** X12. What the GCC [pre_main] leaves behind before it runs the static
    constructors and [main]: [main_running] is set; the singleton mutex is
    the first mutex the kernel handed out; the seven static locks of newlib,
    no two of which share an address, hold the next seven, in the order of
    the source, each with the name and the attribute bits given there and
    its own storage as control block; no other lock object is touched. *)
Theorem GCC_pre_main_initializes_static_locks (w : world) :
  NoDup static_lock_addresses ->
  let w' := run GCC.pre_main w in
  outcome GCC.pre_main w = Done tt ∧
  main_running w' = 1 ∧
  singleton_mutex_id w' = answer "osMutexNew" 0 w ∧
  (∀ k sym name bits,
     static_locks !! k = Some (sym, name, bits) ->
     locks w' !! addr sym =
       Some {| lock_id := answer "osMutexNew" (S k) w;
               lock_attr := lock_attr_of (addr sym) name bits |}) ∧
  (∀ a, a ∉ static_lock_addresses -> locks w' !! a = locks w !! a).
Proof.
  intros Hdistinct w'.
  destruct (GCC_pre_main_run w) as (Hrun & Hid & Hlocks). fold w' in Hrun, Hid, Hlocks.
  cbv zeta in Hlocks.
  destruct (GCC_pre_main_emits w) as (t & [Hout _] & _).
  split; [exact Hout|]. split; [exact Hrun|]. split; [exact Hid|].
  split; [exact (GCC_pre_main_lock_ids w Hdistinct)|].
  intros a Ha. unfold static_lock_addresses, static_locks in Ha. simpl in Ha.
  rewrite !not_elem_of_cons in Ha.
  destruct Ha as (H1 & H2 & H3 & H4 & H5 & H6 & H7 & _).
  rewrite Hlocks.
  rewrite !lookup_insert_ne by (apply not_eq_sym; assumption). reflexivity.
Qed.

End StaticLocks.

(** ** Dynamic locks, from creation to deletion *)

Section DynamicLocks.
Context `{cfg : Config}.

Lemma retarget_lock_close_emits (lock : Z) (w : world) :
  lock ≠ NULL ->
  emits (GCC.__retarget_lock_close lock) w (Done tt)
    [MutexDelete (lock_id (locks w !!! lock)); Free lock] ∧
  locks (run (GCC.__retarget_lock_close lock) w) = locks w ∧
  mem (run (GCC.__retarget_lock_close lock) w) = mem w.
Proof.
  intros Hlock. unfold GCC.__retarget_lock_close, emits, outcome, run.
  rewrite decide_False by exact Hlock. destruct w. simpl.
  rewrite <- app_assoc. repeat split.
Qed.

Lemma retarget_lock_init_created (lock : Z) (name : string) (bits : Z) (w : world) :
  let body :=
    p ← malloc sizeof___lock;
    store (fun w => set_mem (<[lock := p]> (mem w)) w);;
    p ← read (fun w => default 0 (mem w !! lock));
    if decide (p = NULL)
    then error ("newlib mutex init is out of memory" +:+ CR +:+ LF)
    else GCC.init_lock_common p name bits in
  let p := next_ret "malloc" w in
  let id := next_ret "osMutexNew" w in
  p ≠ NULL ->
  mem (run body w) !! lock = Some p ∧
  emits (body;; GCC.__retarget_lock_close p) w (Done tt)
    [Malloc sizeof___lock; MutexNew (lock_attr_of p name bits); MutexDelete id; Free p].
Proof.
  intros body p id Hp.
  pose proof (retarget_lock_init_emits lock name bits w) as Hinit.
  cbv zeta in Hinit. fold body p in Hinit.
  rewrite decide_False in Hinit by exact Hp.
  destruct Hinit as (Hemits & Hlock & Hmem).
  split; [exact Hmem|].
  destruct (retarget_lock_close_emits p (run body w) Hp) as (Hclose & _).
  rewrite (lookup_total_correct _ _ _ Hlock) in Hclose. simpl in Hclose.
  exact (emits_seq body _ w [_; _] _ [_; _] Hemits Hclose).
Qed.

(** X13. A dynamic lock from creation to deletion: when [malloc] answers a
    block, [__retarget_lock_init] stores its address in the caller's
    pointer, and [__retarget_lock_close] on that address deletes the very
    mutex the kernel created for it and frees the very block; the same for
    the recursive pair. Nothing else leaves the file in between. *)
Theorem retarget_lock_init_then_close (lock : Z) (w : world) :
  let p := next_ret "malloc" w in
  let id := next_ret "osMutexNew" w in
  p ≠ NULL ->
  (mem (run (GCC.__retarget_lock_init lock) w) !! lock = Some p ∧
   emits (GCC.__retarget_lock_init lock;; GCC.__retarget_lock_close p) w (Done tt)
     [Malloc sizeof___lock; MutexNew (lock_attr_of p "newlib_dynamic_mutex" plain_bits);
      MutexDelete id; Free p]) ∧
  (mem (run (GCC.__retarget_lock_init_recursive lock) w) !! lock = Some p ∧
   emits (GCC.__retarget_lock_init_recursive lock;; GCC.__retarget_lock_close_recursive p)
     w (Done tt)
     [Malloc sizeof___lock;
      MutexNew (lock_attr_of p "newlib_dynamic_recursive_mutex" recursive_bits);
      MutexDelete id; Free p]).
Proof.
  intros p id Hp. split.
  - exact (retarget_lock_init_created lock "newlib_dynamic_mutex" plain_bits w Hp).
  - exact (retarget_lock_init_created lock "newlib_dynamic_recursive_mutex"
             recursive_bits w Hp).
Qed.


End DynamicLocks.

(** ** More on the per-thread reentrancy accessor *)

Section LibspaceMore.
Context `{cfg : Config}.

(** A free slot is a slot of the table. *)
Lemma free_slot_in_table (table : list Z) (k : nat) :
  table !!! k = NULL -> (k < length table)%nat.
Proof.
  intros Hfree. destruct (decide (k < length table)%nat) as [Hlt | Hge]; [exact Hlt|].
  rewrite list_lookup_total_alt, lookup_ge_None_2 in Hfree by lia. discriminate Hfree.
Qed.

(** The accessor returned slot [k]: that is where the loop stopped, and the
    slot now belongs to [id]. *)
Lemma user_perthread_libspace_slot (id : Z) (k : nat) (w : world) :
  outcome (GCC.__user_perthread_libspace id) w = Done (os_libspace_at k) ->
  main_running w ≠ 0 ∧ id ≠ addr sym__main_obj ∧
  find_slot (os_libspace_id w) id OS_THREAD_LIBSPACE_NUM 0 = Some k ∧
  run (GCC.__user_perthread_libspace id) w = claim_slot id k w ∧
  os_libspace_id (run (GCC.__user_perthread_libspace id) w) !!! k = id.
Proof.
  unfold outcome, run. rewrite user_perthread_libspace_run.
  destruct (decide (main_running w = 0)) as [|Hrunning]; [discriminate|].
  destruct (decide (id = addr sym__main_obj)) as [|Hmain]; [discriminate|].
  destruct (find_slot _ _ _ _) as [k'|] eqn:Hfind; [|discriminate].
  simpl. intros Hk. injection Hk as ->.
  repeat split; try assumption.
  rewrite claim_slot_table.
  destruct (find_slot_Some _ _ _ _ _ Hfind) as (_ & Hslot & _).
  destruct (decide (os_libspace_id w !!! k = NULL)) as [Hfree | Hheld].
  - apply list_lookup_total_insert_eq, free_slot_in_table, Hfree.
  - destruct Hslot; [contradiction | assumption].
Qed.

(** X15. Two threads never share a per-thread reentrancy structure: if the
    accessor hands the same instance to a thread with a non-null identity
    and, any number of calls later, to a thread with another identity, that
    instance is the global one. *)
Theorem libspace_threads_never_share
    (id1 id2 : Z) (others : list Z) (p : reent_ptr) (w : world) :
  id1 ≠ NULL -> id1 ≠ id2 ->
  outcome (GCC.__user_perthread_libspace id1) w = Done p ->
  outcome (GCC.__user_perthread_libspace id2)
    (run (libspace_calls others) (run (GCC.__user_perthread_libspace id1) w)) = Done p ->
  p = _global_impure_ptr.
Proof.
  intros Hnull Hne Hfirst Hsecond. destruct p as [|k]; [reflexivity|]. exfalso.
  destruct (user_perthread_libspace_slot id1 k w Hfirst) as (_ & _ & _ & _ & Hmine).
  set (w1 := run (GCC.__user_perthread_libspace id1) w) in *.
  destruct (libspace_calls_keep others w1) as [_ Hkept].
  specialize (Hkept k ltac:(congruence)).
  set (w2 := run (libspace_calls others) w1) in *.
  destruct (user_perthread_libspace_slot id2 k w2 Hsecond) as (_ & _ & Hfind & _ & _).
  destruct (find_slot_Some _ _ _ _ _ Hfind) as (_ & Hslot & _).
  destruct Hslot; congruence.
Qed.

Lemma libspace_calls_cons (id : Z) (ids : list Z) (w : world) :
  run (libspace_calls (id :: ids)) w =
    run (libspace_calls ids) (run (GCC.__user_perthread_libspace id) w).
Proof.
  destruct (user_perthread_libspace_returns id w) as [p Hp].
  apply (run_bind_done _ _ w p Hp).
Qed.

(** A new thread takes the first free slot. *)
Lemma libspace_claims_next (id : Z) (claimed : list Z) (free : nat) (w : world) :
  main_running w ≠ 0 -> id ≠ addr sym__main_obj -> id ≠ NULL ->
  os_libspace_id w = claimed ++ replicate (S free) NULL ->
  (length claimed + S free = OS_THREAD_LIBSPACE_NUM)%nat ->
  Forall (fun x => x ≠ NULL) claimed -> id ∉ claimed ->
  let w' := run (GCC.__user_perthread_libspace id) w in
  outcome (GCC.__user_perthread_libspace id) w = Done (os_libspace_at (length claimed)) ∧
  os_libspace_id w' = (claimed ++ [id]) ++ replicate free NULL ∧
  main_running w' = main_running w.
Proof.
  intros Hrunning Hmain Hnull Htable Hlen Hclaimed Hnew w'.
  assert (Hat : os_libspace_id w !!! length claimed = NULL).
  { rewrite Htable, lookup_total_app_r by lia. rewrite Nat.sub_diag. reflexivity. }
  assert (Hfind : find_slot (os_libspace_id w) id OS_THREAD_LIBSPACE_NUM 0
                  = Some (length claimed)).
  { apply find_slot_first; [lia | left; exact Hat |].
    intros j Hj. rewrite Htable, lookup_total_app_l by lia.
    assert (Hin : claimed !!! j ∈ claimed) by (apply list_elem_of_lookup_total_2; lia).
    split; [exact (proj1 (Forall_forall _ _) Hclaimed _ Hin) | congruence]. }
  split; [|split].
  - rewrite user_perthread_libspace_outcome by assumption. rewrite Hfind. reflexivity.
  - subst w'. unfold run. rewrite user_perthread_libspace_run.
    rewrite decide_False by exact Hrunning. rewrite decide_False by exact Hmain.
    rewrite Hfind. simpl. rewrite claim_slot_table, decide_True by exact Hat.
    rewrite Htable. rewrite insert_app_r_alt by lia. rewrite Nat.sub_diag.
    rewrite <- app_assoc. reflexivity.
  - apply user_perthread_libspace_main_running.
Qed.

Lemma libspace_calls_fill (ids : list Z) :
  ∀ (claimed : list Z) (free : nat) (w : world),
    main_running w ≠ 0 ->
    os_libspace_id w = claimed ++ replicate (length ids + free) NULL ->
    (length claimed + length ids + free = OS_THREAD_LIBSPACE_NUM)%nat ->
    Forall (fun x => x ≠ NULL) claimed ->
    Forall (fun id => id ≠ NULL ∧ id ≠ addr sym__main_obj) ids ->
    NoDup (claimed ++ ids) ->
    os_libspace_id (run (libspace_calls ids) w) = claimed ++ ids ++ replicate free NULL ∧
    main_running (run (libspace_calls ids) w) = main_running w.
Proof.
  induction ids as [|id ids IH]; intros claimed free w Hrunning Htable Hlen Hclaimed Hids Hdup.
  - split; [exact Htable | reflexivity].
  - rewrite libspace_calls_cons.
    apply List.Forall_cons_iff in Hids as [[Hnull Hmain] Hids].
    assert (Hnew : id ∉ claimed).
    { apply NoDup_app in Hdup as (_ & Hdisjoint & _). intros Hin.
      apply (Hdisjoint id Hin). left. }
    destruct (libspace_claims_next id claimed (length ids + free) w
                Hrunning Hmain Hnull Htable ltac:(simpl in Hlen; lia) Hclaimed Hnew)
      as (_ & Htable1 & Hrunning1).
    set (w1 := run (GCC.__user_perthread_libspace id) w) in *.
    destruct (IH (claimed ++ [id]) free w1) as [Hfinal Hrunning2].
    + congruence.
    + exact Htable1.
    + rewrite length_app. simpl in *. lia.
    + apply Forall_app. split; [exact Hclaimed | repeat constructor; exact Hnull].
    + exact Hids.
    + rewrite <- app_assoc. exact Hdup.
    + split; [|congruence]. rewrite Hfinal, <- app_assoc. reflexivity.
Qed.

(** X16. First come, first served: on an empty table, threads with
    pairwise distinct identities, none of them null or the main thread's
    and no more than the table has slots, get the slots in the order of
    their first calls; from then on thread number [i] is handed slot [i]. *)
Theorem libspace_first_come_first_served (ids : list Z) (w : world) :
  main_running w ≠ 0 ->
  os_libspace_id w = replicate OS_THREAD_LIBSPACE_NUM NULL ->
  NoDup ids ->
  Forall (fun id => id ≠ NULL ∧ id ≠ addr sym__main_obj) ids ->
  (length ids <= OS_THREAD_LIBSPACE_NUM)%nat ->
  let w' := run (libspace_calls ids) w in
  os_libspace_id w' = ids ++ replicate (OS_THREAD_LIBSPACE_NUM - length ids) NULL ∧
  ∀ i id, ids !! i = Some id ->
    outcome (GCC.__user_perthread_libspace id) w' = Done (os_libspace_at i).
Proof.
  intros Hrunning Hempty Hdup Hids Hlen w'.
  destruct (libspace_calls_fill ids [] (OS_THREAD_LIBSPACE_NUM - length ids) w)
    as [Htable Hrunning'];
    [exact Hrunning | | simpl; lia | constructor | exact Hids | exact Hdup |].
  { rewrite Hempty. simpl. f_equal. lia. }
  fold w' in Htable, Hrunning'. simpl in Htable.
  split; [exact Htable|].
  intros i id Hi.
  assert (Hlt : (i < length ids)%nat) by (apply lookup_lt_is_Some; eauto).
  assert (Hid : id ≠ NULL ∧ id ≠ addr sym__main_obj).
  { apply (proj1 (Forall_forall _ _) Hids). apply list_elem_of_lookup. eauto. }
  rewrite user_perthread_libspace_outcome by (first [congruence | apply Hid]).
  rewrite (find_slot_first (os_libspace_id w') id OS_THREAD_LIBSPACE_NUM 0 i);
    [reflexivity | lia | |].
  - right. rewrite Htable, lookup_total_app_l by exact Hlt.
    apply list_lookup_total_correct, Hi.
  - intros j Hj. rewrite Htable, lookup_total_app_l by lia.
    assert (Hj' : ids !! j = Some (ids !!! j)) by (apply list_lookup_lookup_total_lt; lia).
    split.
    + apply (proj1 (Forall_forall _ _) Hids). apply list_elem_of_lookup. eauto.
    + intros Heq. rewrite Heq in Hj'.
      pose proof (NoDup_lookup _ _ _ _ Hdup Hj' Hi). lia.
Qed.

(** X17. A reentrancy structure is initialized when its slot is claimed and
    at no other time: a call of the accessor, by any thread, leaves the
    structure of every claimed slot as it is; a call that claims slot [k]
    sets that structure to [_REENT_INIT] and leaves all the others. *)
Theorem libspace_reent_initialized_once (id : Z) (w : world) :
  let w' := run (GCC.__user_perthread_libspace id) w in
  (∀ j, os_libspace_id w !!! j ≠ NULL -> os_libspace w' !! j = os_libspace w !! j) ∧
  (∀ k, outcome (GCC.__user_perthread_libspace id) w = Done (os_libspace_at k) ->
        os_libspace_id w !!! k = NULL ->
        (k < length (os_libspace w))%nat ->
        os_libspace w' !! k = Some (_REENT_INIT k) ∧
        ∀ j, j ≠ k -> os_libspace w' !! j = os_libspace w !! j).
Proof.
  intros w'. split.
  - intros j Hheld. subst w'. unfold run. rewrite user_perthread_libspace_run.
    destruct (decide (main_running w = 0)); [reflexivity|].
    destruct (decide (id = addr sym__main_obj)); [reflexivity|].
    destruct (find_slot _ _ _ _) as [k|]; [|destruct w; reflexivity].
    simpl. unfold claim_slot.
    destruct (decide (os_libspace_id w !!! k = NULL)) as [Hfree|]; [|reflexivity].
    assert (Hne : k ≠ j) by congruence.
    destruct w; simpl in *. apply list_lookup_insert_ne, Hne.
  - intros k Hout Hfree Hlt.
    destruct (user_perthread_libspace_slot id k w Hout) as (_ & _ & _ & Hrun & _).
    subst w'. rewrite Hrun. unfold claim_slot. rewrite decide_True by exact Hfree.
    destruct w; simpl in *. split.
    + apply list_lookup_insert_eq, Hlt.
    + intros j Hne. apply list_lookup_insert_ne. congruence.
Qed.

End LibspaceMore.

(** ** The IAR lock tables *)

Section IarTables.
Context `{cfg : Config}.

(** The loop of the two [Mtxinit] routines, as a state change. *)
Lemma Mtxinit_scan_state (table : world -> list Z) (set_table : list Z -> world -> world)
    (id_base storage_base : Z) (name : string) (mutex : Z) (fuel : nat) :
  (∀ l w, table (set_table l w) = l) ->
  (∀ l w, mem (set_table l w) = mem w) ->
  (∀ m w, table (set_mem m w) = table w) ->
  (∀ t w, table (set_trace t w) = table w) ->
  (∀ r w, table (set_rets r w) = table w) ->
  ∀ (index : nat) (w : world),
    let w' := run (IAR.Mtxinit_scan table set_table id_base storage_base name mutex
                     fuel index) w in
    match find_slot (table w) NULL fuel index with
    | Some i =>
        table w' = <[i := next_ret "osMutexNew" w]> (table w) ∧
        mem w' = <[mutex := wrap32 (id_base + sizeof_mutex_id * Z.of_nat i)]> (mem w)
    | None => w' = w
    end.
Proof.
  intros Hget Hmem Htm Htt Htr.
  induction fuel as [|fuel IH]; intros index w; [reflexivity|].
  cbn [find_slot IAR.Mtxinit_scan].
  destruct (decide (table w !!! index = NULL)) as [Hfree | Hused].
  - unfold run. rewrite bind_unfold. cbn [read].
    rewrite (decide_True (P := 0 = table w !!! index)) by (symmetry; exact Hfree).
    unfold osMutexNew, extern, emit, store, read.
    unfold mbind, mret, M_bind, M_ret. simpl.
    split.
    + rewrite Htm, Hget, Htr, Htt. reflexivity.
    + rewrite Hmem. reflexivity.
  - unfold run. rewrite bind_unfold. cbn [read].
    rewrite (decide_False (P := 0 = table w !!! index)) by (intros Hz; apply Hused; symmetry; exact Hz).
    apply IH.
Qed.

Lemma Mtxinit_scan_outcome (table : world -> list Z) (set_table : list Z -> world -> world)
    (id_base storage_base : Z) (name : string) (mutex : Z) (fuel index : nat) (w : world) :
  (∀ l w, trace (set_table l w) = trace w) ->
  outcome (IAR.Mtxinit_scan table set_table id_base storage_base name mutex fuel index) w
    = Done (match find_slot (table w) NULL fuel index with
            | Some _ => Some tt
            | None => None
            end).
Proof.
  intros Hset.
  apply (Mtxinit_scan_emits table set_table id_base storage_base name mutex fuel Hset index w).
Qed.

(** What the loop leaves alone: any part of the state that none of its
    writes reaches. *)
Lemma Mtxinit_scan_keeps {C} (f : world -> C)
    (table : world -> list Z) (set_table : list Z -> world -> world)
    (id_base storage_base : Z) (name : string) (mutex : Z) (fuel : nat) :
  (∀ l w, f (set_table l w) = f w) ->
  (∀ m w, f (set_mem m w) = f w) ->
  (∀ t w, f (set_trace t w) = f w) ->
  (∀ r w, f (set_rets r w) = f w) ->
  ∀ index,
    keeps f (IAR.Mtxinit_scan table set_table id_base storage_base name mutex fuel index).
Proof.
  intros Hft Hfm Hftr Hfr.
  induction fuel as [|fuel IH]; intros index w; [reflexivity|].
  cbn [IAR.Mtxinit_scan]. unfold run. rewrite bind_unfold. cbn [read].
  destruct (decide (0 = table w !!! index)).
  - unfold osMutexNew, extern, emit, store, read.
    unfold mbind, mret, M_bind, M_ret. simpl.
    rewrite Hfm, Hft, Hfr, Hftr. reflexivity.
  - apply IH.
Qed.

(** Either [Mtxinit] routine, whole: the loop and what follows it. *)
Lemma Mtxinit_body (table : world -> list Z) (set_table : list Z -> world -> world)
    (id_base storage_base : Z) (name : string) (mutex : Z) (len : nat) (msg : string)
    (w : world) :
  (∀ l w, table (set_table l w) = l) ->
  (∀ l w, mem (set_table l w) = mem w) ->
  (∀ m w, table (set_mem m w) = table w) ->
  (∀ t w, table (set_trace t w) = table w) ->
  (∀ r w, table (set_rets r w) = table w) ->
  (∀ l w, trace (set_table l w) = trace w) ->
  let m := r ← IAR.Mtxinit_scan table set_table id_base storage_base name mutex len 0;
           match r with
           | Some _ => mret tt
           | None => error msg
           end in
  match find_slot (table w) NULL len 0 with
  | Some i =>
      emits m w (Done tt) [MutexNew (iar_attr_of storage_base name i)] ∧
      table (run m w) = <[i := next_ret "osMutexNew" w]> (table w) ∧
      mem (run m w) = <[mutex := wrap32 (id_base + sizeof_mutex_id * Z.of_nat i)]> (mem w)
  | None =>
      emits m w NoReturn [Error msg] ∧
      table (run m w) = table w ∧ mem (run m w) = mem w
  end.
Proof.
  intros Hget Hmem Htm Htt Htr Htrace m.
  pose proof (Mtxinit_scan_emits table set_table id_base storage_base name mutex len
                Htrace 0%nat w) as Hemits.
  pose proof (Mtxinit_scan_state table set_table id_base storage_base name mutex len
                Hget Hmem Htm Htt Htr 0%nat w) as Hstate.
  cbv zeta in Hstate. subst m.
  destruct (find_slot (table w) NULL len 0) as [i|].
  - destruct Hstate as [Htable Hmemory].
    rewrite (run_bind_done _ _ w _ (proj1 Hemits)).
    split; [|split; [exact Htable | exact Hmemory]].
    change [MutexNew (iar_attr_of storage_base name i)]
      with ([MutexNew (iar_attr_of storage_base name i)] ++ []).
    eapply emits_bind_done; [exact Hemits | apply emits_ret].
  - rewrite (run_bind_done _ _ w _ (proj1 Hemits)), Hstate.
    split; [|split].
    + change [Error msg] with ([] ++ [Error msg]).
      eapply emits_bind_done; [exact Hemits|]. rewrite Hstate. apply emits_error.
    + unfold run, error, emit, store, halt. simpl. apply Htt.
    + destruct w; reflexivity.
Qed.

(** The first free entry of a table: entry [i] is free and no entry before
    it is. *)
Lemma find_slot_first_free (table : list Z) (len i : nat) :
  (i < len)%nat -> table !!! i = NULL ->
  (∀ j, (j < i)%nat -> table !!! j ≠ NULL) ->
  find_slot table NULL len 0 = Some i.
Proof.
  intros Hlt Hfree Hbefore. apply find_slot_first; [lia | left; exact Hfree |].
  intros j Hj. split; apply Hbefore; lia.
Qed.

Lemma find_slot_no_free (table : list Z) (len : nat) :
  (∀ j, (j < len)%nat -> table !!! j ≠ NULL) ->
  find_slot table NULL len 0 = None.
Proof.
  intros Hfull. apply find_slot_none. intros j Hj. split; apply Hfull; lia.
Qed.

(** X18. [__iar_system_Mtxinit] and [__iar_file_Mtxinit] take the first
    free entry of their table: entry [i] being free and every entry before
    it taken, the routine creates one kernel mutex, on the [i]-th control
    block of the table's storage, writes the id the kernel answers into
    entry [i] and the address of entry [i] into the caller's [*mutex],
    returns, and changes no other entry, no other word and not the other
    table. *)
Theorem iar_Mtxinit_takes_first_free_entry (mutex : Z) (i : nat) (w : world) :
  let id := next_ret "osMutexNew" w in
  ((i < _MAX_LOCK)%nat -> std_mutex_id_sys w !!! i = 0 ->
   (∀ j, (j < i)%nat -> std_mutex_id_sys w !!! j ≠ 0) ->
   let w' := run (IAR.__iar_system_Mtxinit mutex) w in
   emits (IAR.__iar_system_Mtxinit mutex) w (Done tt)
     [MutexNew (iar_attr_of (addr sym_std_mutex_sys) "system_mutex" i)] ∧
   std_mutex_id_sys w' = <[i := id]> (std_mutex_id_sys w) ∧
   mem w' = <[mutex := wrap32 (addr sym_std_mutex_id_sys + sizeof_mutex_id * Z.of_nat i)]>
              (mem w) ∧
   std_mutex_id_file w' = std_mutex_id_file w) ∧
  ((i < _FOPEN_MAX)%nat -> std_mutex_id_file w !!! i = 0 ->
   (∀ j, (j < i)%nat -> std_mutex_id_file w !!! j ≠ 0) ->
   let w' := run (IAR.__iar_file_Mtxinit mutex) w in
   emits (IAR.__iar_file_Mtxinit mutex) w (Done tt)
     [MutexNew (iar_attr_of (addr sym_std_mutex_file) "file_mutex" i)] ∧
   std_mutex_id_file w' = <[i := id]> (std_mutex_id_file w) ∧
   mem w' = <[mutex := wrap32 (addr sym_std_mutex_id_file + sizeof_mutex_id * Z.of_nat i)]>
              (mem w) ∧
   std_mutex_id_sys w' = std_mutex_id_sys w).
Proof.
  intros id. split; intros Hlt Hfree Hbefore w'.
  - pose proof (Mtxinit_body std_mutex_id_sys set_std_mutex_id_sys
                  (addr sym_std_mutex_id_sys) (addr sym_std_mutex_sys) "system_mutex" mutex
                  _MAX_LOCK ("Not enough mutexes" +:+ LF) w
                  (fun _ _ => eq_refl) (fun _ _ => eq_refl) (fun _ _ => eq_refl)
                  (fun _ _ => eq_refl) (fun _ _ => eq_refl) (fun _ _ => eq_refl)) as Hbody.
    cbv zeta in Hbody. rewrite (find_slot_first_free _ _ i Hlt Hfree Hbefore) in Hbody.
    destruct Hbody as (Hemits & Htable & Hmemory).
    repeat split; try assumption; try apply Hemits.
    assert (Hkeeps : keeps std_mutex_id_file (IAR.__iar_system_Mtxinit mutex)).
    { unfold IAR.__iar_system_Mtxinit. apply keeps_bind.
      - apply Mtxinit_scan_keeps; reflexivity.
      - intros [[]|]; unfold error; keeps_seq. }
    apply Hkeeps.
  - pose proof (Mtxinit_body std_mutex_id_file set_std_mutex_id_file
                  (addr sym_std_mutex_id_file) (addr sym_std_mutex_file) "file_mutex" mutex
                  _FOPEN_MAX ("Not enough mutexes" +:+ LF) w
                  (fun _ _ => eq_refl) (fun _ _ => eq_refl) (fun _ _ => eq_refl)
                  (fun _ _ => eq_refl) (fun _ _ => eq_refl) (fun _ _ => eq_refl)) as Hbody.
    cbv zeta in Hbody. rewrite (find_slot_first_free _ _ i Hlt Hfree Hbefore) in Hbody.
    destruct Hbody as (Hemits & Htable & Hmemory).
    repeat split; try assumption; try apply Hemits.
    assert (Hkeeps : keeps std_mutex_id_sys (IAR.__iar_file_Mtxinit mutex)).
    { unfold IAR.__iar_file_Mtxinit. apply keeps_bind.
      - apply Mtxinit_scan_keeps; reflexivity.
      - intros [[]|]; unfold error; keeps_seq. }
    apply Hkeeps.
Qed.

(** X19. When no entry of the table is free, [__iar_system_Mtxinit] and
    [__iar_file_Mtxinit] report "Not enough mutexes" to the fatal-error
    handler and do not return; no kernel mutex is created, and neither the
    table nor the caller's [*mutex] is written. *)
Theorem iar_Mtxinit_out_of_entries (mutex : Z) (w : world) :
  ((∀ j, (j < _MAX_LOCK)%nat -> std_mutex_id_sys w !!! j ≠ 0) ->
   let w' := run (IAR.__iar_system_Mtxinit mutex) w in
   emits (IAR.__iar_system_Mtxinit mutex) w NoReturn [Error ("Not enough mutexes" +:+ LF)] ∧
   std_mutex_id_sys w' = std_mutex_id_sys w ∧ mem w' = mem w) ∧
  ((∀ j, (j < _FOPEN_MAX)%nat -> std_mutex_id_file w !!! j ≠ 0) ->
   let w' := run (IAR.__iar_file_Mtxinit mutex) w in
   emits (IAR.__iar_file_Mtxinit mutex) w NoReturn [Error ("Not enough mutexes" +:+ LF)] ∧
   std_mutex_id_file w' = std_mutex_id_file w ∧ mem w' = mem w).
Proof.
  split; intros Hfull w'.
  - pose proof (Mtxinit_body std_mutex_id_sys set_std_mutex_id_sys
                  (addr sym_std_mutex_id_sys) (addr sym_std_mutex_sys) "system_mutex" mutex
                  _MAX_LOCK ("Not enough mutexes" +:+ LF) w
                  (fun _ _ => eq_refl) (fun _ _ => eq_refl) (fun _ _ => eq_refl)
                  (fun _ _ => eq_refl) (fun _ _ => eq_refl) (fun _ _ => eq_refl)) as Hbody.
    cbv zeta in Hbody. rewrite (find_slot_no_free _ _ Hfull) in Hbody. exact Hbody.
  - pose proof (Mtxinit_body std_mutex_id_file set_std_mutex_id_file
                  (addr sym_std_mutex_id_file) (addr sym_std_mutex_file) "file_mutex" mutex
                  _FOPEN_MAX ("Not enough mutexes" +:+ LF) w
                  (fun _ _ => eq_refl) (fun _ _ => eq_refl) (fun _ _ => eq_refl)
                  (fun _ _ => eq_refl) (fun _ _ => eq_refl) (fun _ _ => eq_refl)) as Hbody.
    cbv zeta in Hbody. rewrite (find_slot_no_free _ _ Hfull) in Hbody. exact Hbody.
Qed.

(** What [Mtxinit] does depends on the table only. *)
Lemma Mtxinit_body_same (table : world -> list Z) (set_table : list Z -> world -> world)
    (id_base storage_base : Z) (name : string) (mutex : Z) (len : nat) (msg : string)
    (w1 w2 : world) :
  (∀ l w, table (set_table l w) = l) ->
  (∀ l w, mem (set_table l w) = mem w) ->
  (∀ m w, table (set_mem m w) = table w) ->
  (∀ t w, table (set_trace t w) = table w) ->
  (∀ r w, table (set_rets r w) = table w) ->
  (∀ l w, trace (set_table l w) = trace w) ->
  table w1 = table w2 ->
  let m := r ← IAR.Mtxinit_scan table set_table id_base storage_base name mutex len 0;
           match r with
           | Some _ => mret tt
           | None => error msg
           end in
  outcome m w1 = outcome m w2 ∧ events m w1 = events m w2.
Proof.
  intros Hget Hmem Htm Htt Htr Htrace Hsame m.
  pose proof (Mtxinit_body table set_table id_base storage_base name mutex len msg w1
                Hget Hmem Htm Htt Htr Htrace) as H1.
  pose proof (Mtxinit_body table set_table id_base storage_base name mutex len msg w2
                Hget Hmem Htm Htt Htr Htrace) as H2.
  cbv zeta in H1, H2. fold m in H1, H2. rewrite Hsame in H1.
  destruct (find_slot (table w2) NULL len 0);
    destruct H1 as ([Ho1 Ht1] & _), H2 as ([Ho2 Ht2] & _);
    (split; [congruence|]);
    rewrite (emits_events m w1 _ _ (conj Ho1 Ht1)), (emits_events m w2 _ _ (conj Ho2 Ht2));
    reflexivity.
Qed.

Lemma iar_Mtxdst_keeps_tables (mutex : Z) :
  keeps std_mutex_id_sys (__iar_system_Mtxdst mutex) ∧
  keeps std_mutex_id_file (__iar_system_Mtxdst mutex) ∧
  keeps std_mutex_id_sys (__iar_file_Mtxdst mutex) ∧
  keeps std_mutex_id_file (__iar_file_Mtxdst mutex).
Proof.
  unfold __iar_system_Mtxdst, __iar_file_Mtxdst, osMutexDelete.
  repeat split; intros w; reflexivity.
Qed.

(** X20. Destroying a lock frees no entry: [__iar_system_Mtxdst] and
    [__iar_file_Mtxdst] write neither id table, so the entry of a destroyed
    lock keeps its id, and the next [Mtxinit] ends and calls the kernel
    exactly as it would have without the destruction; a full table stays
    full. *)
Theorem iar_Mtxdst_frees_no_entry (mutex mutex' : Z) (w : world) :
  (let w' := run (__iar_system_Mtxdst mutex) w in
   std_mutex_id_sys w' = std_mutex_id_sys w ∧
   std_mutex_id_file w' = std_mutex_id_file w ∧
   outcome (IAR.__iar_system_Mtxinit mutex') w'
     = outcome (IAR.__iar_system_Mtxinit mutex') w ∧
   events (IAR.__iar_system_Mtxinit mutex') w'
     = events (IAR.__iar_system_Mtxinit mutex') w) ∧
  (let w' := run (__iar_file_Mtxdst mutex) w in
   std_mutex_id_sys w' = std_mutex_id_sys w ∧
   std_mutex_id_file w' = std_mutex_id_file w ∧
   outcome (IAR.__iar_file_Mtxinit mutex') w'
     = outcome (IAR.__iar_file_Mtxinit mutex') w ∧
   events (IAR.__iar_file_Mtxinit mutex') w'
     = events (IAR.__iar_file_Mtxinit mutex') w).
Proof.
  destruct (iar_Mtxdst_keeps_tables mutex) as (Hss & Hsf & Hfs & Hff).
  split; intros w'.
  - split; [apply Hss|]. split; [apply Hsf|]. unfold IAR.__iar_system_Mtxinit.
    apply (Mtxinit_body_same std_mutex_id_sys set_std_mutex_id_sys
             (addr sym_std_mutex_id_sys) (addr sym_std_mutex_sys) "system_mutex" mutex'
             _MAX_LOCK ("Not enough mutexes" +:+ LF) w' w
             (fun _ _ => eq_refl) (fun _ _ => eq_refl) (fun _ _ => eq_refl)
             (fun _ _ => eq_refl) (fun _ _ => eq_refl) (fun _ _ => eq_refl) (Hss w)).
  - split; [apply Hfs|]. split; [apply Hff|]. unfold IAR.__iar_file_Mtxinit.
    apply (Mtxinit_body_same std_mutex_id_file set_std_mutex_id_file
             (addr sym_std_mutex_id_file) (addr sym_std_mutex_file) "file_mutex" mutex'
             _FOPEN_MAX ("Not enough mutexes" +:+ LF) w' w
             (fun _ _ => eq_refl) (fun _ _ => eq_refl) (fun _ _ => eq_refl)
             (fun _ _ => eq_refl) (fun _ _ => eq_refl) (fun _ _ => eq_refl) (Hff w)).
Qed.

Lemma find_seq_first (f : nat -> bool) (len : nat) :
  ∀ start i, (start <= i < start + len)%nat -> f i = true ->
    (∀ j, (start <= j < i)%nat -> f j = false) ->
    find f (seq start len) = Some i.
Proof.
  induction len as [|len IH]; intros start i Hi Hfi Hbefore; [lia|].
  simpl. destruct (decide (start = i)) as [-> | Hne].
  - rewrite Hfi. reflexivity.
  - rewrite (Hbefore start) by lia. apply IH; [lia | exact Hfi |].
    intros j Hj. apply Hbefore. lia.
Qed.

Lemma find_seq_none (f : nat -> bool) (len : nat) :
  ∀ start, (∀ j, (start <= j < start + len)%nat -> f j = false) ->
    find f (seq start len) = None.
Proof.
  induction len as [|len IH]; intros start Hnone; [reflexivity|].
  simpl. rewrite (Hnone start) by lia. apply IH. intros j Hj. apply Hnone. lia.
Qed.

(** The address of entry [i] of a placed table is the address of no other
    entry. *)
Lemma entry_at_entry (base : Z) (len i : nat) :
  table_placed base len -> (i < len)%nat ->
  entry_at base len (wrap32 (base + sizeof_mutex_id * Z.of_nat i)) = Some i.
Proof.
  intros (Hbase & Hsize & Hend) Hlt. unfold entry_at.
  assert (Hin : ∀ j, (j < len)%nat ->
            wrap32 (base + sizeof_mutex_id * Z.of_nat j) = base + sizeof_mutex_id * Z.of_nat j).
  { intros j Hj. apply wrap32_small. nia. }
  apply find_seq_first; [lia | apply bool_decide_eq_true_2; reflexivity |].
  intros j Hj. apply bool_decide_eq_false_2. rewrite !Hin by lia. nia.
Qed.

Lemma entry_at_outside (base : Z) (len : nat) (p : Z) :
  table_placed base len ->
  p < base ∨ base + sizeof_mutex_id * Z.of_nat len <= p ->
  entry_at base len p = None.
Proof.
  intros (Hbase & Hsize & Hend) Hout. unfold entry_at.
  apply find_seq_none. intros j Hj. apply bool_decide_eq_false_2.
  rewrite wrap32_small by nia. nia.
Qed.

Lemma iar_Mtxdst_emits (mutex p : Z) (w : world) :
  mem w !! mutex = Some p ->
  emits (__iar_system_Mtxdst mutex) w (Done tt) [MutexDelete (load_mutex_id p w)] ∧
  mem (run (__iar_system_Mtxdst mutex) w) !! mutex = Some 0 ∧
  emits (__iar_file_Mtxdst mutex) w (Done tt) [MutexDelete (load_mutex_id p w)] ∧
  mem (run (__iar_file_Mtxdst mutex) w) !! mutex = Some 0.
Proof.
  intros Hp. unfold __iar_system_Mtxdst, __iar_file_Mtxdst, emits, outcome, run, osMutexDelete.
  unfold emit, store, read, mbind, mret, M_bind, M_ret. simpl. rewrite Hp. simpl.
  destruct w; simpl. rewrite lookup_insert_eq. repeat split.
Qed.

(** After [Mtxinit], the caller's pointer leads to the id the kernel
    answered. *)
Lemma iar_system_Mtxinit_pointer (mutex : Z) (i : nat) (w : world) :
  table_placed (addr sym_std_mutex_id_sys) _MAX_LOCK ->
  (i < _MAX_LOCK)%nat -> (i < length (std_mutex_id_sys w))%nat ->
  std_mutex_id_sys w !!! i = 0 ->
  (∀ j, (j < i)%nat -> std_mutex_id_sys w !!! j ≠ 0) ->
  let w1 := run (IAR.__iar_system_Mtxinit mutex) w in
  emits (IAR.__iar_system_Mtxinit mutex) w (Done tt)
    [MutexNew (iar_attr_of (addr sym_std_mutex_sys) "system_mutex" i)] ∧
  std_mutex_id_sys w1 !! i = Some (next_ret "osMutexNew" w) ∧
  ∃ p, mem w1 !! mutex = Some p ∧ load_mutex_id p w1 = next_ret "osMutexNew" w.
Proof.
  intros Hsys Hlt Hlen Hfree Hbefore w1.
  pose proof (Mtxinit_body std_mutex_id_sys set_std_mutex_id_sys
                (addr sym_std_mutex_id_sys) (addr sym_std_mutex_sys) "system_mutex" mutex
                _MAX_LOCK ("Not enough mutexes" +:+ LF) w
                (fun _ _ => eq_refl) (fun _ _ => eq_refl) (fun _ _ => eq_refl)
                (fun _ _ => eq_refl) (fun _ _ => eq_refl) (fun _ _ => eq_refl)) as Hbody.
  cbv zeta in Hbody. rewrite (find_slot_first_free _ _ i Hlt Hfree Hbefore) in Hbody.
  destruct Hbody as (Hinit & Htable & Hmemory).
  change (r ← IAR.Mtxinit_scan _ _ _ _ _ _ _ _; _)
    with (IAR.__iar_system_Mtxinit mutex) in Hinit, Htable, Hmemory.
  fold w1 in Htable, Hmemory.
  split; [exact Hinit|].
  split; [rewrite Htable; apply list_lookup_insert_eq, Hlen|].
  eexists. split; [rewrite Hmemory; apply lookup_insert_eq|].
  unfold load_mutex_id. rewrite (entry_at_entry _ _ i Hsys Hlt).
  rewrite Htable. apply list_lookup_total_insert_eq, Hlen.
Qed.

Lemma iar_file_Mtxinit_pointer (mutex : Z) (i : nat) (w : world) :
  table_placed (addr sym_std_mutex_id_sys) _MAX_LOCK ->
  table_placed (addr sym_std_mutex_id_file) _FOPEN_MAX ->
  addr sym_std_mutex_id_sys + sizeof_mutex_id * Z.of_nat _MAX_LOCK
    <= addr sym_std_mutex_id_file ∨
  addr sym_std_mutex_id_file + sizeof_mutex_id * Z.of_nat _FOPEN_MAX
    <= addr sym_std_mutex_id_sys ->
  (i < _FOPEN_MAX)%nat -> (i < length (std_mutex_id_file w))%nat ->
  std_mutex_id_file w !!! i = 0 ->
  (∀ j, (j < i)%nat -> std_mutex_id_file w !!! j ≠ 0) ->
  let w1 := run (IAR.__iar_file_Mtxinit mutex) w in
  emits (IAR.__iar_file_Mtxinit mutex) w (Done tt)
    [MutexNew (iar_attr_of (addr sym_std_mutex_file) "file_mutex" i)] ∧
  std_mutex_id_file w1 !! i = Some (next_ret "osMutexNew" w) ∧
  ∃ p, mem w1 !! mutex = Some p ∧ load_mutex_id p w1 = next_ret "osMutexNew" w.
Proof.
  intros Hsys Hfile Hapart Hlt Hlen Hfree Hbefore w1.
  pose proof (Mtxinit_body std_mutex_id_file set_std_mutex_id_file
                (addr sym_std_mutex_id_file) (addr sym_std_mutex_file) "file_mutex" mutex
                _FOPEN_MAX ("Not enough mutexes" +:+ LF) w
                (fun _ _ => eq_refl) (fun _ _ => eq_refl) (fun _ _ => eq_refl)
                (fun _ _ => eq_refl) (fun _ _ => eq_refl) (fun _ _ => eq_refl)) as Hbody.
  cbv zeta in Hbody. rewrite (find_slot_first_free _ _ i Hlt Hfree Hbefore) in Hbody.
  destruct Hbody as (Hinit & Htable & Hmemory).
  change (r ← IAR.Mtxinit_scan _ _ _ _ _ _ _ _; _)
    with (IAR.__iar_file_Mtxinit mutex) in Hinit, Htable, Hmemory.
  fold w1 in Htable, Hmemory.
  split; [exact Hinit|].
  split; [rewrite Htable; apply list_lookup_insert_eq, Hlen|].
  eexists. split; [rewrite Hmemory; apply lookup_insert_eq|].
  unfold load_mutex_id.
  set (file := addr sym_std_mutex_id_file) in *.
  set (sys := addr sym_std_mutex_id_sys) in *.
  assert (Hpin : wrap32 (file + sizeof_mutex_id * Z.of_nat i)
                 = file + sizeof_mutex_id * Z.of_nat i).
  { destruct Hfile as (? & ? & ?). apply wrap32_small. unfold _FOPEN_MAX in *. nia. }
  rewrite (entry_at_outside sys _ _ Hsys).
  2:{ rewrite Hpin. destruct Hfile as (? & ? & ?), Hsys as (? & ? & ?).
      unfold _FOPEN_MAX in *. nia. }
  rewrite (entry_at_entry file _ i Hfile Hlt).
  rewrite Htable. apply list_lookup_total_insert_eq, Hlen.
Qed.

(** X21. An IAR lock from creation to destruction: the id tables being
    placed in the address space, one apart from the other, [Mtxdst] on the
    pointer that [Mtxinit] filled in deletes the very mutex the kernel
    created for it, and leaves a null pointer behind; the entry keeps the
    id. *)
Theorem iar_Mtxinit_then_Mtxdst (mutex : Z) (i : nat) (w : world) :
  let id := next_ret "osMutexNew" w in
  let sys := addr sym_std_mutex_id_sys in
  let file := addr sym_std_mutex_id_file in
  table_placed sys _MAX_LOCK -> table_placed file _FOPEN_MAX ->
  sys + sizeof_mutex_id * Z.of_nat _MAX_LOCK <= file ∨
  file + sizeof_mutex_id * Z.of_nat _FOPEN_MAX <= sys ->
  ((i < _MAX_LOCK)%nat -> (i < length (std_mutex_id_sys w))%nat ->
   std_mutex_id_sys w !!! i = 0 ->
   (∀ j, (j < i)%nat -> std_mutex_id_sys w !!! j ≠ 0) ->
   let w' := run (IAR.__iar_system_Mtxinit mutex;; __iar_system_Mtxdst mutex) w in
   emits (IAR.__iar_system_Mtxinit mutex;; __iar_system_Mtxdst mutex) w (Done tt)
     [MutexNew (iar_attr_of (addr sym_std_mutex_sys) "system_mutex" i); MutexDelete id] ∧
   mem w' !! mutex = Some 0 ∧
   std_mutex_id_sys w' !! i = Some id) ∧
  ((i < _FOPEN_MAX)%nat -> (i < length (std_mutex_id_file w))%nat ->
   std_mutex_id_file w !!! i = 0 ->
   (∀ j, (j < i)%nat -> std_mutex_id_file w !!! j ≠ 0) ->
   let w' := run (IAR.__iar_file_Mtxinit mutex;; __iar_file_Mtxdst mutex) w in
   emits (IAR.__iar_file_Mtxinit mutex;; __iar_file_Mtxdst mutex) w (Done tt)
     [MutexNew (iar_attr_of (addr sym_std_mutex_file) "file_mutex" i); MutexDelete id] ∧
   mem w' !! mutex = Some 0 ∧
   std_mutex_id_file w' !! i = Some id).
Proof.
  intros id sys file Hsys Hfile Hapart.
  destruct (iar_Mtxdst_keeps_tables mutex) as (Hss & _ & _ & Hff).
  split; intros Hlt Hlen Hfree Hbefore w'.
  - destruct (iar_system_Mtxinit_pointer mutex i w Hsys Hlt Hlen Hfree Hbefore)
      as (Hinit & Hentry & p & Hp & Hload).
    set (w1 := run (IAR.__iar_system_Mtxinit mutex) w) in *.
    destruct (iar_Mtxdst_emits mutex p w1 Hp) as (Hdst & Hnull & _).
    rewrite Hload in Hdst.
    assert (Hw' : w' = run (__iar_system_Mtxdst mutex) w1)
      by (subst w'; apply (run_bind_done _ (fun _ => __iar_system_Mtxdst mutex) w tt
                             (proj1 Hinit))).
    split; [exact (emits_seq _ _ w [_] _ [_] Hinit Hdst)|].
    split; [rewrite Hw'; exact Hnull|].
    rewrite Hw', Hss. exact Hentry.
  - destruct (iar_file_Mtxinit_pointer mutex i w Hsys Hfile Hapart Hlt Hlen Hfree Hbefore)
      as (Hinit & Hentry & p & Hp & Hload).
    set (w1 := run (IAR.__iar_file_Mtxinit mutex) w) in *.
    destruct (iar_Mtxdst_emits mutex p w1 Hp) as (_ & _ & Hdst & Hnull).
    rewrite Hload in Hdst.
    assert (Hw' : w' = run (__iar_file_Mtxdst mutex) w1)
      by (subst w'; apply (run_bind_done _ (fun _ => __iar_file_Mtxdst mutex) w tt
                             (proj1 Hinit))).
    split; [exact (emits_seq _ _ w [_] _ [_] Hinit Hdst)|].
    split; [rewrite Hw'; exact Hnull|].
    rewrite Hw', Hff. exact Hentry.
Qed.

End IarTables.

(** ** Taking and releasing the locks *)

Section LockProperties.
Context `{cfg : Config} `{os : CmsisOs2}.

Lemma lock_events_intro {A} (m : L A) (s : lock_world) (t : list lock_event) :
  lock_trace (lock_run m s) = lock_trace s ++ t -> lock_events m s = t.
Proof. intros Ht. unfold lock_events. rewrite Ht. apply drop_app_length. Qed.

(** X22. The routines of newlib-nano that take no lock themselves run
    under one: each wrapper acquires the mutex of its lock, waiting without
    limit, calls the routine it wraps with the arguments it was given,
    releases the same mutex, and hands back what the wrapped routine
    answered; [arc4random] and [arc4random_buf] share a lock, [__sfp] and
    [__sinit] take the recursive ones of the stdio tables. *)
Theorem newlib_wrappers_hold_their_lock (buf n d sp func : Z) (s : lock_world) :
  (lock_events __wrap_arc4random s =
     held (addr sym___lock___arc4random_mutex) "__real_arc4random" [] s ∧
   lock_value __wrap_arc4random s = next_ret "__real_arc4random" (base s)) ∧
  lock_events (__wrap_arc4random_buf buf n) s =
    held (addr sym___lock___arc4random_mutex) "__real_arc4random_buf" [buf; n] s ∧
  (lock_events (__wrap___sfp d) s =
     held (addr sym___lock___sfp_recursive_mutex) "__real___sfp" [d] s ∧
   lock_value (__wrap___sfp d) s = next_ret "__real___sfp" (base s)) ∧
  lock_events (__wrap___sinit sp) s =
    held (addr sym___lock___sinit_recursive_mutex) "__real___sinit" [sp] s ∧
  (lock_events (__wrap_at_quick_exit func) s =
     held (addr sym___lock___at_quick_exit_mutex) "__real_at_quick_exit" [func] s ∧
   lock_value (__wrap_at_quick_exit func) s = next_ret "__real_at_quick_exit" (base s)).
Proof.
  assert (Hvalue : ∀ lock f args,
            f ≠ "osMutexAcquire" ->
            let m : L Z := __retarget_lock_acquire lock;;
                           val ← real f args;
                           __retarget_lock_release lock;;
                           mret val in
            lock_events m s = held lock f args s ∧ lock_value m s = next_ret f (base s)).
  { intros lock f args Hf m. subst m. split.
    - apply lock_events_intro. destruct s as [w tr]. unfold held, mutex_of.
      destruct w; simpl. rewrite <- !app_assoc. reflexivity.
    - unfold lock_value. destruct s as [w tr]. destruct w; simpl.
      unfold next_ret. simpl. rewrite lookup_insert_ne by congruence. reflexivity. }
  assert (Hunit : ∀ lock f args,
            let m : L unit := __retarget_lock_acquire lock;;
                              real f args;;
                              __retarget_lock_release lock in
            lock_events m s = held lock f args s).
  { intros lock f args m. subst m.
    apply lock_events_intro. destruct s as [w tr]. unfold held, mutex_of.
    destruct w; simpl. rewrite <- !app_assoc. reflexivity. }
  split; [apply Hvalue; discriminate|].
  split; [apply Hunit|].
  split; [apply Hvalue; discriminate|].
  split; [apply Hunit|].
  apply Hvalue; discriminate.
Qed.

(** The six lock operations, on the mutex behind the lock object. *)
Lemma lock_operations (lock : Z) (s : lock_world) :
  lock_events (__retarget_lock_acquire lock) s
    = [MutexAcquire (mutex_of lock s) osWaitForever] ∧
  lock_events (__retarget_lock_acquire_recursive lock) s
    = [MutexAcquire (mutex_of lock s) osWaitForever] ∧
  lock_events (__retarget_lock_try_acquire lock) s = [MutexAcquire (mutex_of lock s) 0] ∧
  lock_events (__retarget_lock_try_acquire_recursive lock) s
    = [MutexAcquire (mutex_of lock s) 0] ∧
  lock_events (__retarget_lock_release lock) s = [MutexRelease (mutex_of lock s)] ∧
  lock_events (__retarget_lock_release_recursive lock) s = [MutexRelease (mutex_of lock s)] ∧
  lock_value (__retarget_lock_try_acquire lock) s = next_ret "osMutexAcquire" (base s) ∧
  lock_value (__retarget_lock_try_acquire_recursive lock) s
    = next_ret "osMutexAcquire" (base s).
Proof.
  repeat split; try (apply lock_events_intro); destruct s as [w tr]; reflexivity.
Qed.

(** X23. The lock routines newlib calls work on the mutexes [pre_main]
    created. After [pre_main], with the static locks at pairwise distinct
    addresses: an operation on static lock number [k] names the mutex the
    kernel answered to the creation of that lock; acquiring waits without
    limit, trying waits not at all and hands back the kernel's status;
    [__sinit_lock_acquire], [__sfp_lock_acquire], [__malloc_lock] and
    [__env_lock] take the locks created recursive under the names
    sinit, sfp, malloc and env, [__tz_lock] the plain tz lock, and each
    release routine releases what its acquire routine took. *)
Theorem newlib_locks_are_those_of_pre_main (w : world) (tr : list lock_event) (ptr : Z) :
  NoDup static_lock_addresses ->
  let s := {| base := run GCC.pre_main w; lock_trace := tr |} in
  let id (k : nat) := answer "osMutexNew" (S k) w in
  (∀ k sym name bits,
     static_locks !! k = Some (sym, name, bits) ->
     lock_events (__retarget_lock_acquire (addr sym)) s
       = [MutexAcquire (id k) osWaitForever] ∧
     lock_events (__retarget_lock_acquire_recursive (addr sym)) s
       = [MutexAcquire (id k) osWaitForever] ∧
     lock_events (__retarget_lock_try_acquire (addr sym)) s = [MutexAcquire (id k) 0] ∧
     lock_events (__retarget_lock_try_acquire_recursive (addr sym)) s
       = [MutexAcquire (id k) 0] ∧
     lock_events (__retarget_lock_release (addr sym)) s = [MutexRelease (id k)] ∧
     lock_events (__retarget_lock_release_recursive (addr sym)) s = [MutexRelease (id k)] ∧
     lock_value (__retarget_lock_try_acquire (addr sym)) s
       = next_ret "osMutexAcquire" (run GCC.pre_main w) ∧
     lock_value (__retarget_lock_try_acquire_recursive (addr sym)) s
       = next_ret "osMutexAcquire" (run GCC.pre_main w)) ∧
  (lock_events __sinit_lock_acquire s = [MutexAcquire (id 0%nat) osWaitForever] ∧
   lock_events __sinit_lock_release s = [MutexRelease (id 0%nat)]) ∧
  (lock_events __sfp_lock_acquire s = [MutexAcquire (id 1%nat) osWaitForever] ∧
   lock_events __sfp_lock_release s = [MutexRelease (id 1%nat)]) ∧
  (lock_events (__malloc_lock ptr) s = [MutexAcquire (id 2%nat) osWaitForever] ∧
   lock_events (__malloc_unlock ptr) s = [MutexRelease (id 2%nat)]) ∧
  (lock_events (__env_lock ptr) s = [MutexAcquire (id 3%nat) osWaitForever] ∧
   lock_events (__env_unlock ptr) s = [MutexRelease (id 3%nat)]) ∧
  (lock_events __tz_lock s = [MutexAcquire (id 5%nat) osWaitForever] ∧
   lock_events __tz_unlock s = [MutexRelease (id 5%nat)]).
Proof.
  intros Hdistinct s id.
  assert (Hall : ∀ k sym name bits,
            static_locks !! k = Some (sym, name, bits) -> mutex_of (addr sym) s = id k).
  { intros k sym name bits Hk. unfold mutex_of. cbn [base s].
    rewrite (lookup_total_correct _ _ _ (GCC_pre_main_lock_ids w Hdistinct k sym name bits Hk)).
    reflexivity. }
  assert (Hgen : ∀ k sym name bits,
            static_locks !! k = Some (sym, name, bits) ->
            lock_events (__retarget_lock_acquire (addr sym)) s
              = [MutexAcquire (id k) osWaitForever] ∧
            lock_events (__retarget_lock_acquire_recursive (addr sym)) s
              = [MutexAcquire (id k) osWaitForever] ∧
            lock_events (__retarget_lock_try_acquire (addr sym)) s = [MutexAcquire (id k) 0] ∧
            lock_events (__retarget_lock_try_acquire_recursive (addr sym)) s
              = [MutexAcquire (id k) 0] ∧
            lock_events (__retarget_lock_release (addr sym)) s = [MutexRelease (id k)] ∧
            lock_events (__retarget_lock_release_recursive (addr sym)) s
              = [MutexRelease (id k)] ∧
            lock_value (__retarget_lock_try_acquire (addr sym)) s
              = next_ret "osMutexAcquire" (run GCC.pre_main w) ∧
            lock_value (__retarget_lock_try_acquire_recursive (addr sym)) s
              = next_ret "osMutexAcquire" (run GCC.pre_main w)).
  { intros k sym name bits Hk.
    pose proof (lock_operations (addr sym) s) as Hops.
    rewrite (Hall k sym name bits Hk) in Hops.
    destruct Hops as (H1 & H2 & H3 & H4 & H5 & H6 & H7 & H8).
    repeat split; assumption. }
  split; [exact Hgen|].
  unfold __sinit_lock_acquire, __sinit_lock_release, __sfp_lock_acquire,
    __sfp_lock_release, __malloc_lock, __malloc_unlock, __env_lock, __env_unlock,
    __tz_lock, __tz_unlock.
  repeat split;
    match goal with
    | |- lock_events (__retarget_lock_acquire (addr ?sym)) _ = [_ (id ?k) _] =>
        exact (proj1 (Hgen k sym _ _ eq_refl))
    | |- lock_events (__retarget_lock_acquire_recursive (addr ?sym)) _ = [_ (id ?k) _] =>
        exact (proj1 (proj2 (Hgen k sym _ _ eq_refl)))
    | |- lock_events (__retarget_lock_release (addr ?sym)) _ = [_ (id ?k)] =>
        exact (proj1 (proj2 (proj2 (proj2 (proj2 (Hgen k sym _ _ eq_refl))))))
    | |- lock_events (__retarget_lock_release_recursive (addr ?sym)) _ = [_ (id ?k)] =>
        exact (proj1 (proj2 (proj2 (proj2 (proj2 (proj2 (Hgen k sym _ _ eq_refl)))))))
    end.
Qed.

(** X24. An IAR lock is locked and unlocked through the pointer that
    [Mtxinit] filled in: [Mtxlock] acquires, waiting without limit, and
    [Mtxunlock] releases the mutex the kernel created for the entry; the id
    tables are placed in the address space, one apart from the other. *)
Theorem iar_Mtxlock_takes_created_mutex
    (mutex : Z) (i : nat) (w : world) (tr : list lock_event) :
  let id := next_ret "osMutexNew" w in
  let sys := addr sym_std_mutex_id_sys in
  let file := addr sym_std_mutex_id_file in
  table_placed sys _MAX_LOCK -> table_placed file _FOPEN_MAX ->
  sys + sizeof_mutex_id * Z.of_nat _MAX_LOCK <= file ∨
  file + sizeof_mutex_id * Z.of_nat _FOPEN_MAX <= sys ->
  ((i < _MAX_LOCK)%nat -> (i < length (std_mutex_id_sys w))%nat ->
   std_mutex_id_sys w !!! i = 0 ->
   (∀ j, (j < i)%nat -> std_mutex_id_sys w !!! j ≠ 0) ->
   let s := {| base := run (IAR.__iar_system_Mtxinit mutex) w; lock_trace := tr |} in
   lock_events (__iar_system_Mtxlock mutex) s = [MutexAcquire id osWaitForever] ∧
   lock_events (__iar_system_Mtxunlock mutex) s = [MutexRelease id] ∧
   lock_events (__iar_system_Mtxlock mutex;; __iar_system_Mtxunlock mutex) s
     = [MutexAcquire id osWaitForever; MutexRelease id]) ∧
  ((i < _FOPEN_MAX)%nat -> (i < length (std_mutex_id_file w))%nat ->
   std_mutex_id_file w !!! i = 0 ->
   (∀ j, (j < i)%nat -> std_mutex_id_file w !!! j ≠ 0) ->
   let s := {| base := run (IAR.__iar_file_Mtxinit mutex) w; lock_trace := tr |} in
   lock_events (__iar_file_Mtxlock mutex) s = [MutexAcquire id osWaitForever] ∧
   lock_events (__iar_file_Mtxunlock mutex) s = [MutexRelease id] ∧
   lock_events (__iar_file_Mtxlock mutex;; __iar_file_Mtxunlock mutex) s
     = [MutexAcquire id osWaitForever; MutexRelease id]).
Proof.
  intros id sys file Hsys Hfile Hapart.
  assert (Hops : ∀ w1 p, mem w1 !! mutex = Some p -> load_mutex_id p w1 = id ->
            let s := {| base := w1; lock_trace := tr |} in
            (lock_events (__iar_system_Mtxlock mutex) s = [MutexAcquire id osWaitForever] ∧
             lock_events (__iar_system_Mtxunlock mutex) s = [MutexRelease id] ∧
             lock_events (__iar_system_Mtxlock mutex;; __iar_system_Mtxunlock mutex) s
               = [MutexAcquire id osWaitForever; MutexRelease id]) ∧
            (lock_events (__iar_file_Mtxlock mutex) s = [MutexAcquire id osWaitForever] ∧
             lock_events (__iar_file_Mtxunlock mutex) s = [MutexRelease id] ∧
             lock_events (__iar_file_Mtxlock mutex;; __iar_file_Mtxunlock mutex) s
               = [MutexAcquire id osWaitForever; MutexRelease id])).
  { intros w1 p Hp Hload s.
    assert (Hload' : ∀ r, load_mutex_id p (set_rets r w1) = id)
      by (intros r; rewrite <- Hload; destruct w1; reflexivity).
    assert (Hp' : ∀ r, mem (set_rets r w1) !! mutex = Some p)
      by (intros r; rewrite <- Hp; destruct w1; reflexivity).
    repeat split; apply lock_events_intro; subst s;
      unfold __iar_system_Mtxlock, __iar_system_Mtxunlock, __iar_file_Mtxlock,
        __iar_file_Mtxunlock, lock_run, osMutexAcquire, osMutexRelease, look, log, answered,
        mbind, mret, L_bind, L_ret; cbn [base lock_trace fst snd];
      rewrite ?Hp', ?Hp; cbn [default from_option Datatypes.id]; rewrite ?Hload', ?Hload;
      rewrite <- ?app_assoc; reflexivity. }
  split; intros Hlt Hlen Hfree Hbefore s.
  - destruct (iar_system_Mtxinit_pointer mutex i w Hsys Hlt Hlen Hfree Hbefore)
      as (_ & _ & p & Hp & Hload).
    exact (proj1 (Hops _ p Hp Hload)).
  - destruct (iar_file_Mtxinit_pointer mutex i w Hsys Hfile Hapart Hlt Hlen Hfree Hbefore)
      as (_ & _ & p & Hp & Hload).
    exact (proj2 (Hops _ p Hp Hload)).
Qed.

End LockProperties.

(** ** Instances on concrete builds *)

(** The GCC boot of the example build, when the kernel creates the thread. *)
Example gcc_boot_trace :
  @events example_gcc _ GCC.software_init_hook (@reset_world example_gcc ∅ thread_created)
  = [Call "mbed_set_stack_heap"; Call "mbed_cpy_nvic"; Call "mbed_sdk_init";
     Call "osKernelInitialize"; Call "mbed_start_main";
     ThreadNew 0x08000400 0
       {| t_name := Some "main_thread"; t_cb_mem := 0x0f00; t_cb_size := 68;
          t_stack_mem := 0x1000; t_stack_size := 4096; t_priority := 24 |};
     Call "osKernelStart"].
Proof. vm_compute. reflexivity. Qed.

(** The same boot when thread creation fails: one report, no scheduler. *)
Example gcc_boot_thread_creation_fails :
  let t := @events example_gcc _ GCC.software_init_hook gcc_reset in
  reported t = ["Pre main thread not created"] ∧ calls "osKernelStart" t = 0%nat ∧
  boot_steps t = [SetStackHeap; CpyNvic; SdkInit; KernelInit; StartMain].
Proof. vm_compute. repeat split. Qed.

(** With uVisor in charge the vector table is left alone, and a failing
    [uvisor_lib_init] stops the boot before [mbed_start_main]. *)
Example gcc_boot_uvisor_fails :
  @events example_uvisor _ GCC.software_init_hook (@reset_world example_uvisor ∅ uvisor_failing)
  = [Call "mbed_set_stack_heap"; Call "mbed_sdk_init"; Call "osKernelInitialize";
     Call "uvisor_lib_init"; Call "mbed_die"].
Proof. vm_compute. reflexivity. Qed.

(** Two threads share a table of two slots with the null identity. *)
Example libspace_calls_table :
  os_libspace_id (@run example_gcc _ (libspace_calls [5; 0; 6; 5; 7]) gcc_started) = [5; 6].
Proof. vm_compute. reflexivity. Qed.

Lemma mbed_set_stack_heap_splits_free_span_witness :
  let w' := run (cfg := example_gcc) mbed_set_stack_heap (reset_world ∅ ∅) in
  mbed_heap_start w' = 0x2000 ∧ mbed_heap_size w' = 0xDC00 ∧
  mbed_stack_isr_start w' = 0xFC00 ∧ mbed_stack_isr_size w' = 0x400 ∧
  mbed_stack_isr_start w' = mbed_heap_start w' + mbed_heap_size w'.
Proof.
  assert (Hfree : 0 <= HEAP_SIZE (macros (Config := example_gcc)) < 2 ^ 32)
    by by_eval.
  assert (Hisr : 0 <= ISR_STACK_SIZE (macros (Config := example_gcc))
                   <= HEAP_SIZE (macros (Config := example_gcc)))
    by by_eval.
  destruct (mbed_set_stack_heap_splits_free_span (cfg := example_gcc)
              (reset_world ∅ ∅) eq_refl Hfree Hisr) as (_ & _ & _ & _ & _ & Hfit).
  destruct Hfit as [Hexact _]; [by_eval | by_eval |].
  do 4 (split; [reflexivity|]). exact Hexact.
Defined.

Lemma mbed_set_stack_heap_clamps_isr_stack_witness :
  let w' := run (cfg := example_tight) mbed_set_stack_heap (reset_world ∅ ∅) in
  HEAP_SIZE (macros (Config := example_tight)) = 0x200 ∧
  ISR_STACK_SIZE (macros (Config := example_tight)) = 0x400 ∧
  mbed_stack_isr_size w' = 0x200 ∧ mbed_heap_size w' = 0.
Proof.
  assert (Hfree : 0 <= HEAP_SIZE (macros (Config := example_tight)) < 2 ^ 32)
    by by_eval.
  assert (Hisr : HEAP_SIZE (macros (Config := example_tight))
                   < ISR_STACK_SIZE (macros (Config := example_tight)) < 2 ^ 32)
    by by_eval.
  destruct (mbed_set_stack_heap_clamps_isr_stack (cfg := example_tight)
              (reset_world ∅ ∅) eq_refl Hfree Hisr) as (_ & Hsize & Hheap & _).
  do 2 (split; [reflexivity|]). split; [exact Hsize | exact Hheap].
Defined.

(** C3 as stated fails for IAR: with [__low_level_init] answering 1 (no
    uVisor), [__iar_program_start] calls [mbed_cpy_nvic] and
    [mbed_sdk_init] before [mbed_set_stack_heap]. *)
Lemma iar_program_start_resolver_not_first :
  let w := reset_world (cfg := example_iar) ∅ {["__low_level_init" := [1]]} in
  let steps := boot_steps (events (cfg := example_iar) IAR.__iar_program_start w) in
  steps = [CpyNvic; SdkInit; SetStackHeap; KernelInit; StartMain] ∧
  steps ≠ claimed_boot_order (cfg := example_iar) ∧
  ¬ in_boot_order steps.
Proof.
  intros w steps.
  assert (Hsteps : steps = [CpyNvic; SdkInit; SetStackHeap; KernelInit; StartMain])
    by (vm_compute; reflexivity).
  split; [exact Hsteps|]. rewrite Hsteps. split.
  - vm_compute. discriminate.
  - intros Hsorted. inversion Hsorted as [| a l _ Hall]; subst.
    inversion Hall as [| b l' _ Hrest]; subst.
    inversion Hrest as [| c l'' Hlt _]; subst.
    simpl in Hlt. lia.
Qed.

(** The GCC build once [pre_main] has started: the main thread, and a
    thread 5 whose slot survives the calls of other threads. *)
Lemma user_perthread_libspace_same_instance_witness :
  @GCC.__user_perthread_libspace example_gcc (@addr example_gcc sym__main_obj) gcc_started
    = (Done _global_impure_ptr, gcc_started) ∧
  @outcome example_gcc _ (GCC.__user_perthread_libspace 5)
    (run (libspace_calls [6; 0; 7]) (run (GCC.__user_perthread_libspace 5) gcc_started))
  = Done (os_libspace_at 0).
Proof.
  destruct (@user_perthread_libspace_same_instance example_gcc
              (@addr example_gcc sym__main_obj) gcc_started) as (Hmain & _ & _).
  destruct (@user_perthread_libspace_same_instance example_gcc 5 gcc_started)
    as (_ & _ & Hlater).
  split.
  - apply Hmain. right. reflexivity.
  - rewrite Hlater.
    + vm_compute. reflexivity.
    + discriminate.
    + vm_compute. reflexivity.
Defined.

(** The threads 5 and 6 hold the two slots; thread 7 finds the table full. *)
Lemma user_perthread_libspace_table_full_witness :
  let w := @run example_gcc _ (libspace_calls [5; 6]) gcc_started in
  os_libspace_id w = [5; 6] ∧
  outcome (GCC.__user_perthread_libspace 7) w = Done _global_impure_ptr ∧
  events (GCC.__user_perthread_libspace 7) w = [ErrorNotify 4 7] ∧
  os_libspace_id (run (GCC.__user_perthread_libspace 7) w) = [5; 6].
Proof.
  intros w.
  assert (Htable : os_libspace_id w = [5; 6]) by (vm_compute; reflexivity).
  assert (Hrunning : main_running w ≠ 0) by (vm_compute; discriminate).
  assert (Hmain : 7 ≠ @addr example_gcc sym__main_obj) by (vm_compute; discriminate).
  assert (Hfull : table_full w).
  { split; [vm_compute; reflexivity|]. rewrite Htable.
    repeat (apply List.Forall_cons; [discriminate|]). apply List.Forall_nil. }
  assert (Hnew : 7 ∉ os_libspace_id w).
  { rewrite Htable. intros Hel. apply list_elem_of_In in Hel.
    destruct Hel as [H | [H | []]]; discriminate H. }
  destruct (@user_perthread_libspace_table_full example_gcc 7 w
              Hrunning Hmain Hfull Hnew) as (Hout & Hev & Hids & _).
  split; [exact Htable|]. split; [exact Hout|]. split; [exact Hev|].
  rewrite Hids. exact Htable.
Defined.

(** After the threads 5 and 6 have claimed their slots. *)
Lemma slot_table_invariant_witness :
  let w := @run example_gcc _ (GCC.__user_perthread_libspace 6)
             (run (GCC.__user_perthread_libspace 5) gcc_started) in
  length (os_libspace_id w) = 2%nat ∧
  (@addr example_gcc sym__main_obj ∉ os_libspace_id w) ∧
  os_libspace_id (run (GCC.__user_perthread_libspace 9) w) !! 1%nat = Some 6.
Proof.
  intros w.
  assert (Hmain : @addr example_gcc sym__main_obj ≠ NULL) by (vm_compute; discriminate).
  assert (Hreach : reachable w)
    by exact (reach_libspace _ 6 (reach_libspace _ 5 (reach_pre_main _ (reach_reset ∅ ∅)))).
  destruct (@slot_table_invariant example_gcc w Hmain Hreach)
    as (Hlen & _ & _ & Hnot & Hkept).
  split; [exact Hlen|]. split; [exact Hnot|].
  apply Hkept; [discriminate | vm_compute; reflexivity].
Defined.


(** ** More instances on concrete builds *)

(** The IAR build: the sections of the linker file, as they are. *)
Lemma mbed_set_stack_heap_placed_stack_witness :
  let w' := @run example_iar _ mbed_set_stack_heap (@reset_world example_iar ∅ ∅) in
  mbed_stack_isr_start w' = 0xFC00 ∧ mbed_stack_isr_size w' = 0x400 ∧
  mbed_heap_start w' = 0x2000 ∧ mbed_heap_size w' = 0xDC00.
Proof.
  assert (Hplaced : ISR_STACK_START (@macros example_iar) = Some 0xFC00)
    by (vm_compute; reflexivity).
  assert (Hheap : 0 <= HEAP_SIZE (@macros example_iar) < 2 ^ 32) by by_eval.
  assert (Hisr : 0 <= ISR_STACK_SIZE (@macros example_iar) < 2 ^ 32) by by_eval.
  destruct (@mbed_set_stack_heap_placed_stack example_iar (@reset_world example_iar ∅ ∅)
              0xFC00 Hplaced Hheap Hisr) as (_ & H1 & H2 & H3 & H4).
  split; [exact H1|]. split; [exact H2|]. split; [exact H3 | exact H4].
Defined.

(** The GCC build: the free span [0x2000, 0x10000) with the default stack. *)
Lemma default_layout_stack_below_initial_sp_witness :
  let w' := @run example_gcc _ mbed_set_stack_heap gcc_reset in
  mbed_heap_start w' = 0x2000 ∧
  mbed_heap_start w' + mbed_heap_size w' = mbed_stack_isr_start w' ∧
  mbed_stack_isr_start w' + mbed_stack_isr_size w' = 0x10000 ∧
  mbed_stack_isr_size w' = 1024.
Proof.
  set (d := {| D_HEAP_START := None; D_HEAP_SIZE := None; D_ISR_STACK_START := None;
               D_ISR_STACK_SIZE := None; D_INITIAL_SP := Some 0x10000 |}).
  set (s := {| free_base := 0x2000; sec_HEAP_begin := 0; sec_HEAP_size := 0;
               sec_CSTACK_begin := 0; sec_CSTACK_size := 0 |}).
  assert (Htc : GNUC ≠ ICCARM) by discriminate.
  assert (Hres : resolve_layout GNUC d s = Some (@macros example_gcc))
    by (vm_compute; reflexivity).
  assert (Hbase : 0 <= free_base s <= 0x10000) by by_eval.
  assert (Hsp : 0x10000 < 2 ^ 32) by reflexivity.
  assert (Hreq : 0 <= default 1024 (D_ISR_STACK_SIZE d) < 2 ^ 32) by by_eval.
  exact (@default_layout_stack_below_initial_sp example_gcc GNUC d s 0x10000 gcc_reset
           Htc eq_refl eq_refl eq_refl eq_refl Hres Hbase Hsp Hreq).
Defined.

Lemma iar_layout_from_sections_witness :
  let w' := @run example_iar _ mbed_set_stack_heap (@reset_world example_iar ∅ ∅) in
  mbed_heap_start w' = 0x2000 ∧ mbed_heap_size w' = 0xDC00 ∧
  mbed_stack_isr_start w' = 0xFC00 ∧ mbed_stack_isr_size w' = 0x400.
Proof.
  set (d := {| D_HEAP_START := None; D_HEAP_SIZE := None; D_ISR_STACK_START := None;
               D_ISR_STACK_SIZE := None; D_INITIAL_SP := None |}).
  set (s := {| free_base := 0; sec_HEAP_begin := 0x2000; sec_HEAP_size := 0xDC00;
               sec_CSTACK_begin := 0xFC00; sec_CSTACK_size := 0x400 |}).
  assert (Hres : resolve_layout ICCARM d s = Some (@macros example_iar))
    by (vm_compute; reflexivity).
  assert (Hheap : 0 <= sec_HEAP_size s < 2 ^ 32) by by_eval.
  assert (Hstack : 0 <= sec_CSTACK_size s < 2 ^ 32) by by_eval.
  exact (@iar_layout_from_sections example_iar d s (@reset_world example_iar ∅ ∅)
           Hres Hheap Hstack).
Defined.

(** The GCC build defines [INITIAL_SP] and nothing else. *)
Lemma resolve_layout_accepted_witness :
  let d := {| D_HEAP_START := None; D_HEAP_SIZE := None; D_ISR_STACK_START := None;
              D_ISR_STACK_SIZE := None; D_INITIAL_SP := Some 0x10000 |} in
  (GNUC ≠ ICCARM -> is_Some (D_INITIAL_SP d) ∨ is_Some (D_HEAP_START d)) ∧
  (GNUC ≠ ICCARM -> ISR_STACK_START example_layout = D_ISR_STACK_START d).
Proof.
  set (d := {| D_HEAP_START := None; D_HEAP_SIZE := None; D_ISR_STACK_START := None;
               D_ISR_STACK_SIZE := None; D_INITIAL_SP := Some 0x10000 |}).
  set (s := {| free_base := 0x2000; sec_HEAP_begin := 0; sec_HEAP_size := 0;
               sec_CSTACK_begin := 0; sec_CSTACK_size := 0 |}).
  assert (Hres : resolve_layout GNUC d s = Some example_layout) by (vm_compute; reflexivity).
  destruct (resolve_layout_accepted GNUC d s example_layout Hres) as (_ & _ & Hsp & _ & Hisr).
  split; [exact Hsp | exact Hisr].
Defined.

(** The example build relocates four vectors from flash to 0x20000000. *)
Lemma mbed_cpy_nvic_copies_vectors_witness :
  let w' := @run example_gcc _ mbed_cpy_nvic (@reset_world example_gcc flash_vectors ∅) in
  SCB_VTOR w' = 0x20000000 ∧
  mem w' !! 0x20000004 = Some 0x08000101 ∧
  mem w' !! 4 = Some 0x08000101.
Proof.
  set (w := @reset_world example_gcc flash_vectors ∅).
  assert (Hold : 0 <= SCB_VTOR w) by by_eval.
  assert (Holdn : SCB_VTOR w + 4 * Z.of_nat (@NVIC_NUM_VECTORS example_gcc) <= 2 ^ 32)
    by by_eval.
  assert (Hram : 0 <= 0x20000000 < 2 ^ 32) by by_eval.
  assert (Hramn : 0x20000000 + 4 * Z.of_nat (@NVIC_NUM_VECTORS example_gcc) <= 2 ^ 32)
    by by_eval.
  assert (Hover : 0x20000000 <= SCB_VTOR w ∨
                  SCB_VTOR w + 4 * Z.of_nat (@NVIC_NUM_VECTORS example_gcc) <= 0x20000000)
    by (right; by_eval).
  destruct (@mbed_cpy_nvic_copies_vectors example_gcc 0x20000000 w eq_refl eq_refl
              Hold Holdn Hram Hramn Hover) as (Hvtor & Hin & Hout).
  split; [exact Hvtor|]. split.
  - exact (Hin 1 ltac:(by_eval)).
  - rewrite Hout; [reflexivity|]. intros j Hj. lia.
Defined.

(** The ARM library's heap of the example layout ends at the interrupt stack. *)
Lemma armc_rt_lib_init_heap_witness :
  let w' := @run example_gcc _ ARMC.__rt_entry gcc_reset in
  wrap32 (HEAP_START (@macros example_gcc) + mbed_heap_size w') = mbed_stack_isr_start w'.
Proof.
  destruct (@armc_rt_lib_init_heap example_gcc gcc_reset) as [_ Htop].
  apply Htop. vm_compute. reflexivity.
Defined.

Section GccInstances.
#[local] Existing Instance example_gcc.
#[local] Existing Instance example_os.

(** The static locks of the example build lie apart. *)
Lemma example_static_locks_apart : NoDup (@static_lock_addresses example_gcc).
Proof.
  eapply (@bool_decide_eq_true_1 _ (NoDup_dec _)). vm_compute. reflexivity.
Qed.

(** The GCC build with the kernel handing out the ids 11, 12, ...: the
    singleton mutex is 11, the malloc lock holds 14. *)
Lemma GCC_pre_main_initializes_static_locks_witness :
  let w' := @run example_gcc _ GCC.pre_main (@reset_world example_gcc ∅ kernel_answers) in
  main_running w' = 1 ∧ singleton_mutex_id w' = 11 ∧
  lock_id <$> locks w' !! 0x0dc0 = Some 14.
Proof.
  destruct (@GCC_pre_main_initializes_static_locks example_gcc
              (@reset_world example_gcc ∅ kernel_answers) example_static_locks_apart)
    as (_ & Hrun & Hid & Hlocks & _).
  split; [exact Hrun|]. split; [exact Hid|].
  exact (f_equal (fmap lock_id)
           (Hlocks 2%nat sym___lock___malloc_recursive_mutex "malloc_mutex"
              (@recursive_bits example_gcc) eq_refl)).
Defined.

(** [malloc] answers the block 0x3000 and the kernel the mutex 11. *)
Lemma retarget_lock_init_then_close_witness :
  let w := @reset_world example_gcc ∅ kernel_answers in
  mem (run (GCC.__retarget_lock_init 0x5000) w) !! 0x5000 = Some 0x3000 ∧
  events (GCC.__retarget_lock_init 0x5000;; GCC.__retarget_lock_close 0x3000) w
    = [Malloc 48; MutexNew (lock_attr_of 0x3000 "newlib_dynamic_mutex" plain_bits);
       MutexDelete 11; Free 0x3000].
Proof.
  intros w.
  assert (Hp : next_ret "malloc" w ≠ NULL) by (vm_compute; discriminate).
  destruct (@retarget_lock_init_then_close example_gcc 0x5000 w Hp) as [[Hmem Hemits] _].
  split; [exact Hmem|]. exact (emits_events _ _ _ _ Hemits).
Defined.


(** Both slots are taken by the threads 8 and 9: the threads 5 and 6 are
    handed the same structure, the global one. *)
Lemma libspace_threads_never_share_witness :
  let w := @run example_gcc _ (libspace_calls [8; 9]) gcc_started in
  outcome (GCC.__user_perthread_libspace 5) w = Done _global_impure_ptr ∧
  outcome (GCC.__user_perthread_libspace 6)
    (run (libspace_calls [7]) (run (GCC.__user_perthread_libspace 5) w))
    = Done _global_impure_ptr ∧
  _global_impure_ptr = _global_impure_ptr.
Proof.
  intros w.
  assert (Hnull : 5 ≠ NULL) by discriminate.
  assert (Hne : 5 ≠ 6) by discriminate.
  assert (Hfirst : outcome (GCC.__user_perthread_libspace 5) w = Done _global_impure_ptr)
    by (vm_compute; reflexivity).
  assert (Hsecond : outcome (GCC.__user_perthread_libspace 6)
                      (run (libspace_calls [7]) (run (GCC.__user_perthread_libspace 5) w))
                    = Done _global_impure_ptr)
    by (vm_compute; reflexivity).
  split; [exact Hfirst|]. split; [exact Hsecond|].
  exact (@libspace_threads_never_share example_gcc 5 6 [7] _global_impure_ptr w
           Hnull Hne Hfirst Hsecond).
Defined.

(** The threads 5 and 6 call in this order: 5 gets slot 0, 6 gets slot 1. *)
Lemma libspace_first_come_first_served_witness :
  let w' := @run example_gcc _ (libspace_calls [5; 6]) gcc_started in
  os_libspace_id w' = [5; 6] ∧
  outcome (GCC.__user_perthread_libspace 6) w' = Done (os_libspace_at 1).
Proof.
  assert (Hrunning : main_running gcc_started ≠ 0) by (vm_compute; discriminate).
  assert (Hempty : os_libspace_id gcc_started
                   = replicate (@OS_THREAD_LIBSPACE_NUM example_gcc) NULL)
    by (vm_compute; reflexivity).
  assert (Hdup : NoDup [5; 6]).
  { eapply (@bool_decide_eq_true_1 _ (NoDup_dec _)). vm_compute. reflexivity. }
  assert (Hids : Forall (fun id => id ≠ NULL ∧ id ≠ @addr example_gcc sym__main_obj) [5; 6]).
  { repeat (apply List.Forall_cons; [split; vm_compute; discriminate|]).
    apply List.Forall_nil. }
  assert (Hlen : (length [5; 6] <= @OS_THREAD_LIBSPACE_NUM example_gcc)%nat)
    by (vm_compute; lia).
  destruct (@libspace_first_come_first_served example_gcc [5; 6] gcc_started
              Hrunning Hempty Hdup Hids Hlen) as [Htable Hslots].
  split; [exact Htable|]. exact (Hslots 1%nat 6 eq_refl).
Defined.

(** Thread 5 claims slot 0 of the started build. *)
Lemma libspace_reent_initialized_once_witness :
  os_libspace (@run example_gcc _ (GCC.__user_perthread_libspace 5) gcc_started) !! 0%nat
    = Some (@_REENT_INIT example_gcc 0).
Proof.
  destruct (@libspace_reent_initialized_once example_gcc 5 gcc_started) as [_ Hclaim].
  destruct (Hclaim 0%nat) as [Hinit _].
  - vm_compute. reflexivity.
  - vm_compute. reflexivity.
  - vm_compute. lia.
  - exact Hinit.
Defined.

(** After [pre_main] of the example build, [__malloc_lock] waits for the
    mutex 14, the one created for the malloc lock. *)
Lemma newlib_locks_are_those_of_pre_main_witness :
  let s := {| base := @run example_gcc _ GCC.pre_main
                        (@reset_world example_gcc ∅ kernel_answers);
              lock_trace := [] |} in
  lock_events (__malloc_lock 0) s = [MutexAcquire 14 0xFFFFFFFF] ∧
  lock_events (__malloc_unlock 0) s = [MutexRelease 14].
Proof.
  destruct (@newlib_locks_are_those_of_pre_main example_gcc example_os
              (@reset_world example_gcc ∅ kernel_answers) [] 0 example_static_locks_apart)
    as (_ & _ & _ & Hmalloc & _).
  exact Hmalloc.
Defined.

End GccInstances.

Section IarInstances.
#[local] Existing Instance example_iar.
#[local] Existing Instance example_os.

(** The first system lock of the IAR build takes entry 0. *)
Lemma iar_Mtxinit_takes_first_free_entry_witness :
  let w' := run (IAR.__iar_system_Mtxinit 0x4000) iar_reset in
  std_mutex_id_sys w' = [11; 0; 0; 0] ∧ mem w' !! 0x4000 = Some 0x0b00.
Proof.
  destruct (@iar_Mtxinit_takes_first_free_entry example_iar 0x4000 0 iar_reset)
    as [Hsys _].
  destruct Hsys as (_ & Htable & Hmem & _).
  - vm_compute. lia.
  - vm_compute. reflexivity.
  - intros j Hj. lia.
  - split; [exact Htable|]. rewrite Hmem. reflexivity.
Defined.

(** The fifth system lock of a build with four entries. *)
Lemma iar_Mtxinit_out_of_entries_witness :
  std_mutex_id_sys iar_locks_taken = [11; 12; 13; 14] ∧
  outcome (IAR.__iar_system_Mtxinit 0x4010) iar_locks_taken = NoReturn ∧
  events (IAR.__iar_system_Mtxinit 0x4010) iar_locks_taken
    = [Error ("Not enough mutexes" +:+ LF)].
Proof.
  assert (Htable : std_mutex_id_sys iar_locks_taken = [11; 12; 13; 14])
    by (vm_compute; reflexivity).
  destruct (@iar_Mtxinit_out_of_entries example_iar 0x4010 iar_locks_taken) as [Hsys _].
  destruct Hsys as (Hemits & _).
  - intros j Hj. rewrite Htable.
    destruct j as [|[|[|[|j]]]]; [discriminate | discriminate | discriminate | discriminate |].
    vm_compute in Hj. lia.
  - split; [exact Htable|]. split; [exact (proj1 Hemits) | exact (emits_events _ _ _ _ Hemits)].
Defined.

Lemma example_iar_tables_placed :
  table_placed (cfg := example_iar) (@addr example_iar sym_std_mutex_id_sys)
    (@_MAX_LOCK example_iar) ∧
  table_placed (cfg := example_iar) (@addr example_iar sym_std_mutex_id_file) _FOPEN_MAX ∧
  (@addr example_iar sym_std_mutex_id_sys
     + @sizeof_mutex_id example_iar * Z.of_nat (@_MAX_LOCK example_iar)
     <= @addr example_iar sym_std_mutex_id_file ∨
   @addr example_iar sym_std_mutex_id_file + @sizeof_mutex_id example_iar * Z.of_nat _FOPEN_MAX
     <= @addr example_iar sym_std_mutex_id_sys).
Proof.
  split; [by_eval|]. split; [by_eval|]. right. by_eval.
Qed.

(** A system lock of the IAR build, created and destroyed. *)
Lemma iar_Mtxinit_then_Mtxdst_witness :
  let m := IAR.__iar_system_Mtxinit 0x4000;; __iar_system_Mtxdst 0x4000 in
  events m iar_reset
    = [MutexNew (iar_attr_of (@addr example_iar sym_std_mutex_sys) "system_mutex" 0);
       MutexDelete 11] ∧
  mem (run m iar_reset) !! 0x4000 = Some 0 ∧
  std_mutex_id_sys (run m iar_reset) !! 0%nat = Some 11.
Proof.
  destruct example_iar_tables_placed as (Hsys & Hfile & Hapart).
  destruct (@iar_Mtxinit_then_Mtxdst example_iar 0x4000 0 iar_reset Hsys Hfile Hapart)
    as [Hsystem _].
  destruct Hsystem as (Hemits & Hnull & Hentry).
  - vm_compute. lia.
  - vm_compute. lia.
  - vm_compute. reflexivity.
  - intros j Hj. lia.
  - split; [exact (emits_events _ _ _ _ Hemits)|]. split; [exact Hnull | exact Hentry].
Defined.

(** A system lock of the IAR build, locked and unlocked. *)
Lemma iar_Mtxlock_takes_created_mutex_witness :
  let s := {| base := run (IAR.__iar_system_Mtxinit 0x4000) iar_reset; lock_trace := [] |} in
  lock_events
    (__iar_system_Mtxlock 0x4000;; __iar_system_Mtxunlock 0x4000) s
    = [MutexAcquire 11 0xFFFFFFFF; MutexRelease 11].
Proof.
  destruct example_iar_tables_placed as (Hsys & Hfile & Hapart).
  destruct (@iar_Mtxlock_takes_created_mutex example_iar example_os 0x4000 0 iar_reset []
              Hsys Hfile Hapart) as [Hsystem _].
  destruct Hsystem as (_ & _ & Hboth).
  - vm_compute. lia.
  - vm_compute. lia.
  - vm_compute. reflexivity.
  - intros j Hj. lia.
  - exact Hboth.
Defined.

End IarInstances.

(** The static data end at 0x10000, above the initial stack pointer 0x2000. *)
Lemma default_layout_wraps_past_initial_sp_witness :
  let w' := @run example_wrapped _ mbed_set_stack_heap (@reset_world example_wrapped ∅ ∅) in
  mbed_heap_start w' = 0x10000 ∧
  mbed_heap_size w' + mbed_stack_isr_size w' = 2 ^ 32 - 0xE000.
Proof.
  set (d := {| D_HEAP_START := None; D_HEAP_SIZE := None; D_ISR_STACK_START := None;
               D_ISR_STACK_SIZE := None; D_INITIAL_SP := Some 0x2000 |}).
  set (s := {| free_base := 0x10000; sec_HEAP_begin := 0; sec_HEAP_size := 0;
               sec_CSTACK_begin := 0; sec_CSTACK_size := 0 |}).
  assert (Htc : GNUC ≠ ICCARM) by discriminate.
  assert (Hres : resolve_layout GNUC d s = Some (@macros example_wrapped))
    by (vm_compute; reflexivity).
  assert (Hbase : 0 <= 0x2000 < free_base s) by by_eval.
  assert (Hbase32 : free_base s < 2 ^ 32) by reflexivity.
  assert (Hreq : 0 <= default 1024 (D_ISR_STACK_SIZE d) < 2 ^ 32) by by_eval.
  destruct (@default_layout_wraps_past_initial_sp example_wrapped GNUC d s 0x2000
              (@reset_world example_wrapped ∅ ∅)
              Htc eq_refl eq_refl eq_refl eq_refl Hres Hbase Hbase32 Hreq)
    as (_ & Hstart & Hsum).
  split; [exact Hstart | exact Hsum].
Defined.
